(** * Q-learning experiment: the tabular policy, the reward extractor and the
      simulation loop of [src/q_learning_framework.py] and
      [src/learning_environment.py], the student of
      [src/agents/student_agent.py], the client of [src/ollama_client.py]
      and the request parsing of [app.py], embedded and verified.

    Python [float] is IEEE-754 binary64 and is modelled by Rocq's primitive
    floats, which are the same format with the same rounding; Python [int]
    is [Z]; [str] is [string] with the ASCII case mapping (the words the
    program searches for are ASCII); the Q-table [dict] is a [gmap] keyed by
    (state, action); the calls into the [random] module, the language-model
    client and the teacher agent are operations on an abstract world, and
    the client itself is modelled over the two methods of the [ollama]
    library it calls. Text is held as its UTF-8 bytes.
    Logging and the optional socket notifications only produce output and
    are left out. *)

From Stdlib Require Import Floats ZArith Ascii String Sorted.
From stdpp Require Import gmap strings list.

Set Warnings "-inexact-float".
Set Default Proof Using "Type".

Local Open Scope Z_scope.

(** ** Python floats *)

Module PyFloat.

(** A float that is not NaN. *)
Definition is_number (x : float) : Prop := PrimFloat.is_nan x = false.

(** Every non-NaN value has a rank in the lexicographic order on
    [Z * (Z * Z)]; the comparison of floats is the comparison of ranks. *)
Definition rank (x : spec_float) : Z * (Z * Z) :=
  match x with
  | S754_nan => (0, (0, 0))
  | S754_zero _ => (0, (0, 0))
  | S754_infinity true => (-2, (0, 0))
  | S754_infinity false => (2, (0, 0))
  | S754_finite true m e => (-1, (- e, - Z.pos m))
  | S754_finite false m e => (1, (e, Z.pos m))
  end.

Definition lex_compare (a b : Z * (Z * Z)) : comparison :=
  match Z.compare a.1 b.1 with
  | Eq => match Z.compare a.2.1 b.2.1 with
          | Eq => Z.compare a.2.2 b.2.2
          | c => c
          end
  | c => c
  end.

End PyFloat.

(** ** Python built-ins used by the program *)

Module Py.

Inductive exn : Set := IndexError | ValueError | ZeroDivisionError.

Inductive result (A : Type) : Type :=
| Ok (a : A)
| Raise (e : exn).
Arguments Ok {A} a.
Arguments Raise {A} e.

(** [max(l)] and [min(l)]: the first element is the candidate and a later
    one replaces it when it compares strictly greater (smaller); an empty
    argument raises [ValueError]. *)
Definition max_from (x : float) (l : list float) : float :=
  fold_left (fun m y => if PrimFloat.ltb m y then y else m) l x.

Definition min_from (x : float) (l : list float) : float :=
  fold_left (fun m y => if PrimFloat.ltb y m then y else m) l x.

Definition max (l : list float) : result float :=
  match l with
  | [] => Raise ValueError
  | x :: l' => Ok (max_from x l')
  end.

Definition min (l : list float) : result float :=
  match l with
  | [] => Raise ValueError
  | x :: l' => Ok (min_from x l')
  end.

(** [sum(l)]: addition from the left, starting at 0. (CPython 3.12 and
    later add a compensation term; it is zero whenever the partial sums are
    exact, as they are for the rewards of this program, multiples of 0.5.) *)
Definition sum (l : list float) : float := fold_left PrimFloat.add l 0%float.

(** [float(n)] for a length [n] (below 2^63). *)
Definition float_of_nat (n : nat) : float :=
  PrimFloat.of_uint63 (Uint63.of_Z (Z.of_nat n)).

(** [a % b] and [a // b] on integers: floor division, the remainder has
    the sign of the divisor, a zero divisor raises. *)
Definition mod_ (a b : Z) : result Z :=
  if b =? 0 then Raise ZeroDivisionError else Ok (a mod b).

Definition floordiv (a b : Z) : result Z :=
  if b =? 0 then Raise ZeroDivisionError else Ok (a / b).

(** [sub in s] on strings. *)
Fixpoint str_in (sub s : string) : bool :=
  String.prefix sub s ||
  match s with
  | EmptyString => false
  | String _ s' => str_in sub s'
  end.

(** [s.lower()] *)
Definition ascii_lower (c : ascii) : ascii :=
  let n := nat_of_ascii c in
  if (65 <=? n)%nat && (n <=? 90)%nat then ascii_of_nat (n + 32) else c.

Fixpoint lower (s : string) : string :=
  match s with
  | EmptyString => EmptyString
  | String c s' => String (ascii_lower c) (lower s')
  end.

(** Truth value of a string: non-empty. *)
Definition truthy (s : string) : bool :=
  match s with EmptyString => false | _ => true end.

(** [str(n)] for a natural number. *)
Definition digit (n : Z) : ascii := ascii_of_nat (48 + Z.to_nat (n mod 10)).

Fixpoint digits_fuel (fuel : nat) (n : Z) (acc : string) : string :=
  match fuel with
  | O => acc
  | S fuel' =>
      let acc' := String (digit n) acc in
      if n / 10 =? 0 then acc' else digits_fuel fuel' (n / 10) acc'
  end.

Definition str_of_Z (n : Z) : string :=
  if n <? 0 then String "-" (digits_fuel (Z.to_nat (Z.log2 (- n)) + 1) (- n) "")
  else digits_fuel (Z.to_nat (Z.log2 n) + 1) n "".

(** [f"{x:.2f}"]: the exact binary value of [x], rounded half-to-even to
    two decimals. *)
Definition round_half_even (num den : Z) : Z :=
  let q := num / den in
  let r := num mod den in
  match Z.compare (2 * r) den with
  | Lt => q
  | Gt => q + 1
  | Eq => if Z.even q then q else q + 1
  end.

Definition fixed2 (neg : bool) (hundredths : Z) : string :=
  ((if neg then "-" else "") ++ str_of_Z (hundredths / 100) ++ "." ++
   String (digit (hundredths / 10)) (String (digit hundredths) ""))%string.

Definition format_2f (x : float) : string :=
  match Prim2SF x with
  | S754_nan => "nan"%string
  | S754_infinity s => if s then "-inf"%string else "inf"%string
  | S754_zero s => fixed2 s 0
  | S754_finite s m e =>
      fixed2 s (if 0 <=? e then Z.pos m * 2 ^ e * 100
                else round_half_even (Z.pos m * 100) (2 ^ (- e)))
  end.

End Py.

(** ** The outside world: random numbers, the language-model service, and
       the teacher agent, each through the methods the program calls. *)

Class World (W : Type) : Type := {
  (** [random.uniform(a, b)] *)
  random_uniform : float -> float -> W -> float * W;
  (** [random._randbelow(n)], the index drawn by [random.choice] *)
  randbelow : nat -> W -> nat * W;
  (** [OllamaClient.generate_response(prompt, model)]; [None] on failure *)
  generate_response : string -> string -> W -> option string * W;
  (** [TeacherAgent.generate_learning_material(topic, difficulty)] *)
  generate_learning_material : string -> string -> W -> string * W;
  (** [TeacherAgent.evaluate_student_response(problem, student_response)] *)
  evaluate_student_response : string -> string -> W -> string * W;
  (** [TeacherAgent.synthesize_new_topic(current_topic, summary)] *)
  synthesize_new_topic : string -> string -> W -> string * W;
  (** [TeacherAgent.evolve(performance_metric)] *)
  teacher_evolve : float -> W -> W;
}.

(** ** [q_learning_framework.py] *)

Record QLearningFramework : Type := {
  q_table : gmap (string * string) float;
  actions : list string;
  alpha : float;
  gamma : float;
  epsilon : float;
}.

(** [QLearningFramework(actions, alpha=0.1, gamma=0.9, epsilon=0.1)] *)
Definition QLearningFramework_init (acts : list string) (a g e : float) :
  QLearningFramework :=
  {| q_table := ∅; actions := acts; alpha := a; gamma := g; epsilon := e |}.

Definition _get_q_value (q : QLearningFramework) (state action : string) : float :=
  default 0%float (q_table q !! (state, action)).

(** Keys of a dict built by inserting the elements of [l] in order: each
    key once, at the position of its first insertion. *)
Definition dict_keys (l : list string) : list string :=
  reverse (remove_dups (reverse l)).

(** [random.choice(seq)] *)
Definition random_choice `{World W} {A : Type} (seq : list A) (w : W) :
  Py.result A * W :=
  match seq with
  | [] => (Py.Raise Py.IndexError, w)
  | _ => let (k, w') := randbelow (length seq) w in
         match seq !! k with
         | Some x => (Py.Ok x, w')
         | None => (Py.Raise Py.IndexError, w')
         end
  end.

(** The exploitation branch of [choose_action]. *)
Definition q_values_for_state (q : QLearningFramework) (state : string) :
  list (string * float) :=
  map (fun action => (action, _get_q_value q state action)) (dict_keys (actions q)).

Definition best_actions (q : QLearningFramework) (state : string) (max_q : float) :
  list string :=
  map fst (filter (fun kv => PrimFloat.eqb kv.2 max_q = true)
             (q_values_for_state q state)).

Definition choose_action `{World W} (q : QLearningFramework) (state : string)
  (w : W) : Py.result string * W :=
  let (u, w1) := random_uniform 0 1 w in
  if PrimFloat.ltb u (epsilon q) then
    random_choice (actions q) w1
  else
    match Py.max (map snd (q_values_for_state q state)) with
    | Py.Raise e => (Py.Raise e, w1)
    | Py.Ok max_q => random_choice (best_actions q state max_q) w1
    end.

(** [max_next_q] as [update_q_value] computes it; [next_state] is [None] or
    a string, and is tested for truth. *)
Definition max_next_q (q : QLearningFramework) (next_state : option string) : float :=
  match next_state with
  | Some ns =>
      if Py.truthy ns then
        match map (fun a => _get_q_value q ns a) (actions q) with
        | [] => 0%float
        | x :: l => Py.max_from x l
        end
      else 0%float
  | None => 0%float
  end.

Definition update_q_value (q : QLearningFramework) (state action : string)
  (reward : float) (next_state : option string) : QLearningFramework :=
  let current_q := _get_q_value q state action in
  let max_next := max_next_q q next_state in
  let new_q :=
    (current_q + alpha q * (reward + gamma q * max_next - current_q))%float in
  {| q_table := <[(state, action) := new_q]> (q_table q);
     actions := actions q;
     alpha := alpha q; gamma := gamma q; epsilon := epsilon q |}.

(** ** [agents/student_agent.py] *)

Definition nl : string := String (ascii_of_nat 10) EmptyString.

Record StudentAgent : Type := { student_model : string }.

Definition solve_problem `{World W} (st : StudentAgent) (problem : string)
  (w : W) : string * W :=
  let prompt :=
    ("You are a student. Here is a problem: " +:+ problem +:+ nl +:+ nl +:+
     "Provide a clear and concise answer or solution to the problem.") in
  let (response, w') := generate_response prompt (student_model st) w in
  match response with
  | Some r => if Py.truthy r then (r, w')
              else ("Error: Could not generate student response.", w')
  | None => ("Error: Could not generate student response.", w')
  end.

Definition reflect_on_feedback `{World W} (st : StudentAgent)
  (problem student_response feedback : string) (w : W) : string * W :=
  let prompt :=
    ("You are a student. You attempted to solve the following problem:" +:+ nl
     +:+ "Problem: " +:+ problem +:+ nl +:+ nl +:+
     "Your response was: " +:+ student_response +:+ nl +:+ nl +:+
     "The teacher provided the following feedback: " +:+ feedback +:+ nl +:+ nl
     +:+ "Based on this, reflect on what you learned, what you could " +:+
     "have done better, and how you will approach similar problems " +:+
     "in the future. Be concise.") in
  let (response, w') := generate_response prompt (student_model st) w in
  match response with
  | Some r => if Py.truthy r then (r, w')
              else ("Error: Could not generate reflection.", w')
  | None => ("Error: Could not generate reflection.", w')
  end.

Definition process_feedback `{World W} (st : StudentAgent)
  (problem student_response feedback : string) (w : W) : W :=
  (reflect_on_feedback st problem student_response feedback w).2.

(** [StudentAgent.evolve] only logs. *)
Definition student_evolve {W : Type} (st : StudentAgent)
  (performance_metric : float) (w : W) : W := w.

(** ** [learning_environment.py] *)

Record RoundData : Type := {
  round_number : Z;
  topic : string;
  difficulty : string;
  problem : string;
  student_action : string;
  student_response : string;
  teacher_feedback : string;
  reward : float;
}.

Record LearningEnvironment : Type := {
  student : StudentAgent;
  q_learner : QLearningFramework;
  simulation_results : list RoundData;
  current_round_number : Z;
}.

(** The calls made on the two agents, in order, as a mock of either agent
    would record them. *)
Inductive Call : Type :=
| CallGenerateLearningMaterial (topic difficulty : string)
| CallSolveProblem (problem : string)
| CallEvaluateStudentResponse (problem student_response : string)
| CallProcessFeedback (problem student_response feedback : string)
| CallSynthesizeNewTopic (current_topic summary : string)
| CallTeacherEvolve (performance_metric : float)
| CallStudentEvolve (performance_metric : float).

(** What a run reads and writes: the environment object, the caller's
    [topics] list (shared with the caller and grown in place), the outside
    world, and the record of agent calls. *)
Record State (W : Type) : Type := mkState {
  self : LearningEnvironment;
  topics : list string;
  world : W;
  calls : list Call;
}.
Arguments self {W} _.
Arguments topics {W} _.
Arguments world {W} _.
Arguments calls {W} _.
Arguments mkState {W} _ _ _ _.

(** Computations that read and write the state and may raise. *)
Definition M (W A : Type) : Type := State W -> Py.result A * State W.

Definition ret {W A} (a : A) : M W A := fun s => (Py.Ok a, s).

Definition bind {W A B} (m : M W A) (k : A -> M W B) : M W B :=
  fun s => match m s with
           | (Py.Ok a, s') => k a s'
           | (Py.Raise e, s') => (Py.Raise e, s')
           end.

Notation "'let*' x := m 'in' k" := (bind m (fun x => k))
  (at level 10, x name, m at level 200, k at level 200).
Notation "m ;; k" := (bind m (fun _ => k))
  (at level 100, k at level 200, right associativity).

(** Lifting the world's operations, with and without a logged call. *)
Definition on_world {W A} (f : W -> A * W) : M W A :=
  fun s => let (a, w') := f (world s) in
           (Py.Ok a, {| self := self s; topics := topics s; world := w';
                        calls := calls s |}).

Definition on_world_result {W A} (f : W -> Py.result A * W) : M W A :=
  fun s => let (r, w') := f (world s) in
           (r, {| self := self s; topics := topics s; world := w';
                  calls := calls s |}).

Definition log_call {W} (c : Call) : M W unit :=
  fun s => (Py.Ok tt, {| self := self s; topics := topics s; world := world s;
                         calls := calls s ++ [c] |}).

Definition get_self {W} : M W LearningEnvironment := fun s => (Py.Ok (self s), s).

Definition set_self {W} (e : LearningEnvironment) : M W unit :=
  fun s => (Py.Ok tt, {| self := e; topics := topics s; world := world s;
                         calls := calls s |}).

Definition modify_self {W} (f : LearningEnvironment -> LearningEnvironment) :
  M W unit :=
  fun s => (Py.Ok tt, {| self := f (self s); topics := topics s;
                         world := world s; calls := calls s |}).

Definition get_topics {W} : M W (list string) := fun s => (Py.Ok (topics s), s).

Definition set_topics {W} (t : list string) : M W unit :=
  fun s => (Py.Ok tt, {| self := self s; topics := t; world := world s;
                         calls := calls s |}).

Definition lift_result {W A} (r : Py.result A) : M W A := fun s => (r, s).

(** [_get_reward_from_feedback] *)
Definition _get_reward_from_feedback (feedback : string) : float :=
  let feedback_lower := Py.lower feedback in
  let reward := 0%float in
  let reward :=
    if Py.str_in "correct" feedback_lower
       && negb (Py.str_in "incorrect" feedback_lower)
    then (reward + 1)%float else reward in
  let reward :=
    if Py.str_in "incorrect" feedback_lower then (reward - 1)%float else reward in
  let reward :=
    if Py.str_in "strengths" feedback_lower then (reward + 0.5)%float else reward in
  let reward :=
    if Py.str_in "improvement" feedback_lower then (reward - 0.5)%float else reward in
  reward.

(** [sum(l) / len(l)] *)
Definition mean (l : list float) : float :=
  (Py.sum l / Py.float_of_nat (length l))%float.

(** The summary of recent performance that [run_simulation] hands to the
    teacher. *)
Definition performance_summary (rewards_history : list float) : string :=
  match rewards_history with
  | [] => "No recent performance data."
  | _ => "Student's average reward over last " +:+
         Py.str_of_Z (Z.of_nat (length rewards_history)) +:+ " rounds was " +:+
         Py.format_2f (Py.sum rewards_history /
                       Py.float_of_nat (length rewards_history))%float
  end.

Section Environment.

Context `{World W}.

(** [run_interaction_round(topic, difficulty, total_rounds)]; the empty
    dict is [None]. *)
Definition run_interaction_round (topic difficulty : string) (total_rounds : Z) :
  M W (option RoundData) :=
  log_call (CallGenerateLearningMaterial topic difficulty) ;;
  let* problem := on_world (generate_learning_material topic difficulty) in
  if Py.str_in "Error" problem then ret None else
  let current_state_for_q_learning := topic in
  let* env := get_self in
  let* student_conceptual_action :=
    on_world_result (choose_action (q_learner env) current_state_for_q_learning) in
  log_call (CallSolveProblem problem) ;;
  let* student_response := on_world (solve_problem (student env) problem) in
  if Py.str_in "Error" student_response then ret None else
  log_call (CallEvaluateStudentResponse problem student_response) ;;
  let* teacher_feedback :=
    on_world (evaluate_student_response problem student_response) in
  if Py.str_in "Error" teacher_feedback then ret None else
  log_call (CallProcessFeedback problem student_response teacher_feedback) ;;
  on_world (fun w => (tt, process_feedback (student env) problem
                            student_response teacher_feedback w)) ;;
  let reward := _get_reward_from_feedback teacher_feedback in
  let next_state_for_q_learning := topic in
  modify_self (fun e =>
    {| student := student e;
       q_learner := update_q_value (q_learner e) current_state_for_q_learning
                      student_conceptual_action reward
                      (Some next_state_for_q_learning);
       simulation_results := simulation_results e;
       current_round_number := current_round_number e |}) ;;
  let* env := get_self in
  let round_data :=
    {| round_number := current_round_number env;
       topic := topic;
       difficulty := difficulty;
       problem := problem;
       student_action := student_conceptual_action;
       student_response := student_response;
       teacher_feedback := teacher_feedback;
       reward := reward |} in
  modify_self (fun e =>
    {| student := student e;
       q_learner := q_learner e;
       simulation_results := simulation_results e ++ [round_data];
       current_round_number := current_round_number e |}) ;;
  ret (Some round_data).

(** The statistics returned by [get_summary_statistics]; the topics are
    listed from a [set], in no specified order, and are kept as a set. *)
Record Summary : Type := {
  total_rounds : Z;
  average_reward : float;
  min_reward : float;
  max_reward : float;
  unique_topics_covered : gset string;
}.

(** In the second branch [rewards] is not empty, so that [min] and [max]
    return: their values are written directly. *)
Definition get_summary_statistics (env : LearningEnvironment) : Summary :=
  match simulation_results env with
  | [] => {| total_rounds := 0; average_reward := 0; min_reward := 0;
             max_reward := 0; unique_topics_covered := ∅ |}
  | res :: rest =>
      let rewards := map reward (res :: rest) in
      let topics_covered := map topic (res :: rest) in
      {| total_rounds := Z.of_nat (length (res :: rest));
         average_reward := mean rewards;
         min_reward := Py.min_from (reward res) (map reward rest);
         max_reward := Py.max_from (reward res) (map reward rest);
         unique_topics_covered := list_to_set topics_covered |}
  end.

(** The curriculum-growth step of [run_simulation], run when its guard
    [i > 0 and i % (evolution_interval // 2) == 0] holds. *)
Definition synthesize_step (rewards_history : list float) : M W unit :=
  let student_performance_summary := performance_summary rewards_history in
  let* ts := get_topics in
  let current_topic := default "general knowledge" (last ts) in
  log_call (CallSynthesizeNewTopic current_topic student_performance_summary) ;;
  let* new_topic :=
    on_world (synthesize_new_topic current_topic student_performance_summary) in
  let* ts := get_topics in
  if Py.truthy new_topic && negb (Py.str_in "Error" new_topic)
     && negb (bool_decide (new_topic ∈ ts))
  then set_topics (ts ++ [new_topic])
  else ret tt.

Definition growth_check (i evolution_interval : Z)
  (rewards_history : list float) : M W unit :=
  if 0 <? i then
    let* r := lift_result (Py.mod_ i (evolution_interval / 2)) in
    if r =? 0 then synthesize_step rewards_history else ret tt
  else ret tt.

(** The evolution step at the end of a round. *)
Definition evolution_check (i evolution_interval : Z)
  (rewards_history : list float) : M W (list float) :=
  let* r := lift_result (Py.mod_ (i + 1) evolution_interval) in
  if (r =? 0) && (0 <? Z.of_nat (length rewards_history)) then
    let avg_reward := mean rewards_history in
    log_call (CallTeacherEvolve avg_reward) ;;
    on_world (fun w => (tt, teacher_evolve avg_reward w)) ;;
    log_call (CallStudentEvolve avg_reward) ;;
    let* env := get_self in
    on_world (fun w => (tt, student_evolve (student env) avg_reward w)) ;;
    ret []
  else ret rewards_history.

(** One iteration of the [for i in range(num_rounds)] loop, in two parts:
    up to the choice of the round's topic, and from the round on. The
    value carried from one iteration to the next is [rewards_history]. *)
Definition begin_round (i evolution_interval : Z)
  (rewards_history : list float) : M W string :=
  modify_self (fun e =>
    {| student := student e; q_learner := q_learner e;
       simulation_results := simulation_results e;
       current_round_number := i + 1 |}) ;;
  growth_check i evolution_interval rewards_history ;;
  let* ts := get_topics in
  on_world_result (random_choice ts).

Definition simulation_round (num_rounds evolution_interval : Z) (i : Z)
  (rewards_history : list float) : M W (list float) :=
  let* current_topic := begin_round i evolution_interval rewards_history in
  let* round_data := run_interaction_round current_topic "medium" num_rounds in
  let rewards_history :=
    match round_data with
    | Some rd => rewards_history ++ [reward rd]
    | None => rewards_history
    end in
  evolution_check i evolution_interval rewards_history.

(** [for i in range(start, start + n)] *)
Fixpoint for_range {A : Type} (body : Z -> A -> M W A) (start : Z) (n : nat)
  (a : A) : M W A :=
  match n with
  | O => ret a
  | S n' => let* a' := body start a in for_range body (start + 1) n' a'
  end.

Definition simulation_loop (num_rounds evolution_interval : Z) (rounds : nat) :
  M W (list float) :=
  for_range (simulation_round num_rounds evolution_interval) 0 rounds [].

(** [run_simulation(num_rounds, topics, evolution_interval)], called
    without a socket; [topics] is the list held in the state. *)
Definition run_simulation (num_rounds evolution_interval : Z) :
  M W (list RoundData) :=
  simulation_loop num_rounds evolution_interval (Z.to_nat num_rounds) ;;
  let* env := get_self in
  let summary := get_summary_statistics env in
  ret (simulation_results env).

End Environment.

(** ** [ollama_client.py] *)

(** The client of the [ollama] library, by the two methods the program
    calls; a call that raises gives [None]. [generate] is called with
    [stream=True] and returns a dict or an iterable of chunks, and the
    iteration may raise after the chunks it has yielded ([completes] is
    then [false]). A dict is known by its string entries; a chunk that is
    not a dict is [ChunkOther]. *)
Inductive Chunk : Type :=
| ChunkDict (entries : gmap string string)
| ChunkOther.

Inductive Generated : Type :=
| GeneratedDict (entries : gmap string string)
| GeneratedStream (chunks : list Chunk) (completes : bool).

Class Ollama (W : Type) : Type := {
  (** [client.list()] *)
  ollama_list : W -> option unit * W;
  (** [client.generate(model=..., prompt=..., stream=True)] *)
  ollama_generate : string -> string -> W -> option Generated * W;
}.

Record OllamaClient : Type := { host : string; model : string }.

Module Client.

Section Methods.

Context `{Ollama W}.

(** [is_ollama_running]: any exception of [list()] is caught. *)
Definition is_ollama_running (c : OllamaClient) (w : W) : bool * W :=
  match ollama_list w with
  | (Some _, w') => (true, w')
  | (None, w') => (false, w')
  end.

(** [model if model else self.model] *)
Definition target_model (c : OllamaClient) (model_arg : option string) : string :=
  match model_arg with
  | Some m => if Py.truthy m then m else model c
  | None => model c
  end.

(** The body of the loop over the chunks. *)
Definition add_chunk (response_text : string) (chunk : Chunk) : string :=
  match chunk with
  | ChunkDict entries =>
      match entries !! "response" with
      | Some r => response_text +:+ r
      | None => response_text
      end
  | ChunkOther => response_text
  end.

(** [generate_response(prompt, model=None, timeout=120)]; [timeout] is not
    used by the method. Every exception is caught and gives [None]. *)
Definition generate_response (c : OllamaClient) (prompt : string)
  (model_arg : option string) (w : W) : option string * W :=
  let (running, w1) := is_ollama_running c w in
  if negb running then (None, w1)
  else
    match ollama_generate (target_model c model_arg) prompt w1 with
    | (None, w2) => (None, w2)
    | (Some (GeneratedDict entries), w2) => (entries !! "response", w2)
    | (Some (GeneratedStream chunks completes), w2) =>
        let response_text := fold_left add_chunk chunks EmptyString in
        if completes
        then (if Py.truthy response_text then Some response_text else None, w2)
        else (None, w2)
    end.

End Methods.

End Client.

(** [StudentAgent(ollama_client, student_model=None)] *)
Definition StudentAgent_init (c : OllamaClient) (model_arg : option string) :
  StudentAgent :=
  {| student_model := Client.target_model c model_arg |}.

(** The world of an environment whose student sends its requests through
    the client [c]: [generate_response(prompt, model=self.student_model)]. *)
Definition student_via_client `{World W} `{Ollama W} (c : OllamaClient) :
  World W :=
  {| random_uniform := random_uniform;
     randbelow := randbelow;
     generate_response :=
       fun prompt m => Client.generate_response c prompt (Some m);
     generate_learning_material := generate_learning_material;
     evaluate_student_response := evaluate_student_response;
     synthesize_new_topic := synthesize_new_topic;
     teacher_evolve := teacher_evolve |}.

(** ** [app.py]: the request that starts a simulation *)

Module App.

(** [s.split(sep)] for a separator of one character. *)
Fixpoint split (sep : ascii) (s : string) : list string :=
  match s with
  | EmptyString => [EmptyString]
  | String c s' =>
      if Ascii.eqb c sep then EmptyString :: split sep s'
      else match split sep s' with
           | piece :: pieces => String c piece :: pieces
           | [] => [String c EmptyString]
           end
  end.

(** The white-space characters of [str.strip()], each by its UTF-8 bytes:
    U+0009 to U+000D, U+001C to U+0020, U+0085, U+00A0, U+1680, U+2000 to
    U+200A, U+2028, U+2029, U+202F, U+205F and U+3000. *)
Definition bytes (l : list nat) : string :=
  fold_right (fun n s => String (ascii_of_nat n) s) EmptyString l.

Definition whitespace : list string :=
  map bytes
    [[9]; [10]; [11]; [12]; [13]; [28]; [29]; [30]; [31]; [32];
     [194; 133]; [194; 160]; [225; 154; 128];
     [226; 128; 128]; [226; 128; 129]; [226; 128; 130]; [226; 128; 131];
     [226; 128; 132]; [226; 128; 133]; [226; 128; 134]; [226; 128; 135];
     [226; 128; 136]; [226; 128; 137]; [226; 128; 138];
     [226; 128; 168]; [226; 128; 169]; [226; 128; 175]; [226; 129; 159];
     [227; 128; 128]]%nat.

(** [s] without its prefix [p], when it starts with [p]. *)
Fixpoint drop_prefix (p s : string) : option string :=
  match p, s with
  | EmptyString, _ => Some s
  | String a p', String b s' =>
      if Ascii.eqb a b then drop_prefix p' s' else None
  | String _ _, EmptyString => None
  end.

(** [s] without its first character, when that is white space. *)
Definition drop_space (s : string) : option string :=
  fold_right (fun w rest => match drop_prefix w s with
                            | Some s' => Some s'
                            | None => rest
                            end) None whitespace.

Fixpoint lstrip_fuel (fuel : nat) (s : string) : string :=
  match fuel with
  | O => s
  | S fuel' => match drop_space s with
               | Some s' => lstrip_fuel fuel' s'
               | None => s
               end
  end.

(** [s.lstrip()] *)
Definition lstrip (s : string) : string := lstrip_fuel (String.length s) s.

(** [s.rstrip()]: what is left of the tail, with the first character in
    front, is dropped when it is one white-space character. *)
Fixpoint rstrip (s : string) : string :=
  match s with
  | EmptyString => EmptyString
  | String c s' =>
      let t := String c (rstrip s') in
      if bool_decide (t ∈ whitespace) then EmptyString else t
  end.

(** [s.strip()] *)
Definition strip (s : string) : string := rstrip (lstrip s).

Definition default_topics : string :=
  "Reinforcement Learning,Neural Networks,Generative AI,Computer Vision".

(** [[t.strip() for t in topics_str.split(',')]], on the text of the
    request or on the default. *)
Definition parse_topics (topics_field : option string) : list string :=
  let topics_str := default default_topics topics_field in
  map strip (split "," topics_str).

(** The policy that [run_simulation_task] builds. *)
Definition possible_student_q_actions : list string :=
  ["answer_concisely"; "answer_in_detail"; "ask_for_clarification"].

Definition q_learner : QLearningFramework :=
  QLearningFramework_init possible_student_q_actions 0.1 0.9 0.5.

End App.

(** ** Vocabulary of the statements *)

Definition upper_bound (m : float) (l : list float) : Prop :=
  Forall (fun y => (y <=? m)%float = true) l.

Definition lower_bound (m : float) (l : list float) : Prop :=
  Forall (fun y => (m <=? y)%float = true) l.

(** [m] is the maximum of [l]: one of its elements, and none is larger. *)
Definition is_maximum (m : float) (l : list float) : Prop :=
  m ∈ l /\ upper_bound m l.

Definition is_minimum (m : float) (l : list float) : Prop :=
  m ∈ l /\ lower_bound m l.

(** The distinct elements of a list, each one at its first occurrence. *)
Fixpoint first_occurrences (l : list string) : list string :=
  match l with
  | [] => []
  | a :: l' => a :: filter (fun b => b <> a) (first_occurrences l')
  end.

(** The tied set: the distinct actions whose value equals the maximum, in
    the order of the action list. *)
Definition tied_actions (value : string -> float) (max_q : float)
  (acts : list string) : list string :=
  filter (fun b => (value b =? max_q)%float = true) (first_occurrences acts).

(** The target value of the update rule. *)
Definition td_update (current alpha gamma reward max_next : float) : float :=
  (current + alpha * (reward + gamma * max_next - current))%float.

(** The arithmetic mean as the specification words it: the values added
    from the left to 0.0, and the total divided by their number. *)
Definition arithmetic_mean (l : list float) : float :=
  (fold_left PrimFloat.add l 0
   / PrimFloat.of_uint63 (Uint63.of_Z (Z.of_nat (length l))))%float.


(** The reward policy as the specification words it: four independent
    contributions added to 0.0. *)
Definition reward_by_rules (text : string) : float :=
  let t := Py.lower text in
  (0 + (if Py.str_in "correct" t && negb (Py.str_in "incorrect" t) then 1 else 0)
     + (if Py.str_in "incorrect" t then -1 else 0)
     + (if Py.str_in "strengths" t then 0.5 else 0)
     + (if Py.str_in "improvement" t then -0.5 else 0))%float.

Definition reward_values : list float := [-1.5; -1; -0.5; 0; 0.5; 1; 1.5]%float.

(** The error marker test applied to every text the agents return. *)
Definition has_error_marker (text : string) : bool := Py.str_in "Error" text.

(** A synthesized topic is accepted when it is non-empty, carries no error
    marker and is not in the curriculum yet. *)
Definition accepts_topic (ts : list string) (new_topic : string) : bool :=
  Py.truthy new_topic && negb (has_error_marker new_topic)
  && negb (bool_decide (new_topic ∈ ts)).

(** The record of a completed round and the environment after it. *)
Definition completed_round (env : LearningEnvironment) (topic difficulty : string)
  (problem action response feedback : string) : RoundData :=
  {| round_number := current_round_number env;
     topic := topic; difficulty := difficulty; problem := problem;
     student_action := action; student_response := response;
     teacher_feedback := feedback;
     reward := _get_reward_from_feedback feedback |}.

Definition env_after_round (env : LearningEnvironment) (rd : RoundData) :
  LearningEnvironment :=
  {| student := student env;
     q_learner := update_q_value (q_learner env) (topic rd) (student_action rd)
                    (reward rd) (Some (topic rd));
     simulation_results := simulation_results env ++ [rd];
     current_round_number := current_round_number env |}.

Definition set_round_number (env : LearningEnvironment) (n : Z) :
  LearningEnvironment :=
  {| student := student env; q_learner := q_learner env;
     simulation_results := simulation_results env;
     current_round_number := n |}.

(** The state [s] with another policy in place of its own. *)
Definition with_policy {W : Type} (s : State W) (q : QLearningFramework) : State W :=
  mkState {| student := student (self s); q_learner := q;
             simulation_results := simulation_results (self s);
             current_round_number := current_round_number (self s) |}
    (topics s) (world s) (calls s).

(** Two round records that agree on everything but the chosen action. *)
Definition same_but_action (rd rd' : RoundData) : Prop :=
  round_number rd = round_number rd' /\ topic rd = topic rd'
  /\ difficulty rd = difficulty rd' /\ problem rd = problem rd'
  /\ student_response rd = student_response rd'
  /\ teacher_feedback rd = teacher_feedback rd' /\ reward rd = reward rd'.

Definition zero_summary : Summary :=
  {| total_rounds := 0; average_reward := 0; min_reward := 0; max_reward := 0;
     unique_topics_covered := ∅ |}.

Definition is_synthesize (c : Call) : bool :=
  match c with CallSynthesizeNewTopic _ _ => true | _ => false end.

Definition is_teacher_evolve (c : Call) : bool :=
  match c with CallTeacherEvolve _ => true | _ => false end.

Definition is_student_evolve (c : Call) : bool :=
  match c with CallStudentEvolve _ => true | _ => false end.

(** Number of recorded calls of one kind. *)
Definition count (kind : Call -> bool) (l : list Call) : nat :=
  length (List.filter kind l).

(** What one step adds to the record of calls. *)
Definition new_calls {W : Type} (s s' : State W) (added : list Call) : Prop :=
  calls s' = calls s ++ added.

(** The guard of the curriculum-growth check. *)
Definition growth_fires (i ei : Z) : bool := (0 <? i) && (i mod (ei / 2) =? 0).

(** The guard of the evolution check, on the window the round leaves. *)
Definition evolution_fires (i ei : Z) (window : list float) : bool :=
  ((i + 1) mod ei =? 0) && (0 <? Z.of_nat (length window)).

Definition window_after_round (h : list float) (round_data : option RoundData) :
  list float :=
  match round_data with
  | Some rd => h ++ [reward rd]
  | None => h
  end.

(** One change of the curriculum: nothing, or one accepted topic appended. *)
Definition extends_curriculum (ts ts' : list string) : Prop :=
  ts' = ts
  \/ exists t, ts' = ts ++ [t] /\ Py.truthy t = true
               /\ has_error_marker t = false /\ t ∉ ts.

(** The indices [range(start, start + n)] visits. *)
Fixpoint indices (start : Z) (n : nat) : list Z :=
  match n with
  | O => []
  | S n' => start :: indices (start + 1) n'
  end.

(** The policy [q] after the updates of the rounds recorded in [new], in
    the order of the records. *)
Definition replay (q : QLearningFramework) (new : list RoundData) :
  QLearningFramework :=
  fold_left (fun q rd => update_q_value q (topic rd) (student_action rd)
                           (reward rd) (Some (topic rd))) new q.

(** What the record of the round of index [i] holds, for the curriculum
    [ts] and the action list [acts]. *)
Definition record_of_round (ts acts : list string) (i : Z) (rd : RoundData) :
  Prop :=
  round_number rd = i + 1
  /\ topic rd ∈ ts
  /\ difficulty rd = "medium"
  /\ student_action rd ∈ acts
  /\ has_error_marker (problem rd) = false
  /\ has_error_marker (student_response rd) = false
  /\ has_error_marker (teacher_feedback rd) = false
  /\ reward rd = _get_reward_from_feedback (teacher_feedback rd).

(** Records in the order of their round numbers. *)
Definition by_round_number (rd rd' : RoundData) : Prop :=
  round_number rd < round_number rd'.



(** The text a chunk contributes to a streamed response. *)
Definition chunk_response (chunk : Chunk) : option string :=
  match chunk with
  | ChunkDict entries => entries !! "response"
  | ChunkOther => None
  end.

(** The texts of a list, one after the other. *)
Definition concatenation (l : list string) : string :=
  fold_right append EmptyString l.

(** The prompt [solve_problem] sends for a problem. *)
Definition solve_prompt (problem : string) : string :=
  "You are a student. Here is a problem: " +:+ problem +:+ nl +:+ nl +:+
  "Provide a clear and concise answer or solution to the problem.".

(** A text that holds no comma. *)
Definition comma_free (s : string) : Prop := Py.str_in "," s = false.

(** Number of commas of a text. *)
Fixpoint commas (s : string) : nat :=
  match s with
  | EmptyString => O
  | String c s' => ((if Ascii.eqb c "," then 1 else 0) + commas s')%nat
  end.

(** A text with no white-space character at either end. *)
Definition trimmed (s : string) : Prop :=
  (forall w rest, w ∈ App.whitespace -> s <> w +:+ rest)
  /\ (forall w rest, w ∈ App.whitespace -> s <> rest +:+ w).

(** The four calls of a round, in the order of its pipeline. *)
Definition is_generate (c : Call) : bool :=
  match c with CallGenerateLearningMaterial _ _ => true | _ => false end.

Definition is_solve (c : Call) : bool :=
  match c with CallSolveProblem _ => true | _ => false end.

Definition is_evaluate (c : Call) : bool :=
  match c with CallEvaluateStudentResponse _ _ => true | _ => false end.

Definition is_process (c : Call) : bool :=
  match c with CallProcessFeedback _ _ _ => true | _ => false end.

Definition in_pipeline (c : Call) : bool :=
  is_generate c || is_solve c || is_evaluate c || is_process c.





(** ** Scripted collaborators, in the manner of the unit tests' mocks *)

Record Script : Type := {
  script_problem : string;
  script_response : option string;
  script_feedback : string;
  script_new_topic : nat -> string;
  script_uniform : float;
}.

(** The world is a counter: it numbers the topics the teacher synthesizes
    and drives the random indices. *)
Definition scripted (sc : Script) : World nat := {|
  random_uniform := fun _ _ w => (script_uniform sc, w);
  randbelow := fun n w => ((w `mod` n)%nat, S w);
  generate_response := fun _ _ w => (script_response sc, w);
  generate_learning_material := fun _ _ w => (script_problem sc, w);
  evaluate_student_response := fun _ _ w => (script_feedback sc, w);
  synthesize_new_topic := fun _ _ w => (script_new_topic sc w, S w);
  teacher_evolve := fun _ w => w;
|}.

(** The scenario of [test_run_simulation]. *)
Definition test_script : Script := {|
  script_problem := "problem";
  script_response := Some "response";
  script_feedback := "Correct.";
  script_new_topic := fun _ => "new_topic_A";
  script_uniform := 0.5;
|}.


Definition test_env : LearningEnvironment := {|
  student := {| student_model := "llama2" |};
  q_learner := QLearningFramework_init ["action1"; "action2"] 0.1 0.9 0.1;
  simulation_results := [];
  current_round_number := 0;
|}.

Definition test_state : State nat := {|
  self := test_env;
  topics := ["topic1"; "topic2"];
  world := 0%nat;
  calls := [];
|}.

(** The tables of [test_choose_action_exploitation] and
    [test_update_q_value]. *)
Definition exploit_q : QLearningFramework := {|
  q_table := <[("test_state", "action3") := 0.2%float]>
               (<[("test_state", "action2") := 0.5%float]>
                  (<[("test_state", "action1") := 0.1%float]> ∅));
  actions := ["action1"; "action2"; "action3"];
  alpha := 0.1; gamma := 0.9; epsilon := 0;
|}.

(** The policy of [test_choose_action_exploration]. *)
Definition explore_q : QLearningFramework := {|
  q_table := ∅;
  actions := ["action1"; "action2"; "action3"];
  alpha := 0.1; gamma := 0.9; epsilon := 1;
|}.

Definition second_update_q : QLearningFramework := {|
  q_table := <[("state_s_prime", "action3") := 0.5%float]>
               (<[("state_s_prime", "action2") := 1%float]>
                  (<[("state_s_prime", "action1") := 2%float]>
                     (<[("state_s", "action_a") := 0.1%float]> ∅)));
  actions := ["action1"; "action2"; "action3"];
  alpha := 0.1; gamma := 0.9; epsilon := 0.1;
|}.

(** Scripts in which one step of the round fails, as in the three
    [test_run_interaction_round_*_failure] tests. *)
Definition problem_fails : Script := {|
  script_problem := "Error: blah";
  script_response := Some "X is Y.";
  script_feedback := "Correct, good strengths.";
  script_new_topic := fun _ => "new_topic_A";
  script_uniform := 0.5;
|}.

Definition student_fails : Script := {|
  script_problem := "What is X?";
  script_response := None;
  script_feedback := "Correct, good strengths.";
  script_new_topic := fun _ => "new_topic_A";
  script_uniform := 0.5;
|}.

Definition evaluation_fails : Script := {|
  script_problem := "What is X?";
  script_response := Some "X is Y.";
  script_feedback := "Error: blah";
  script_new_topic := fun _ => "new_topic_A";
  script_uniform := 0.5;
|}.

(** A legitimate problem text that mentions an error, and a failure text
    written in lower case. *)
Definition mentions_error : Script := {|
  script_problem := "What is a Type I Error?";
  script_response := Some "A false positive.";
  script_feedback := "Correct.";
  script_new_topic := fun _ => "new_topic_A";
  script_uniform := 0.5;
|}.

Definition lowercase_failure : Script := {|
  script_problem := "What is X?";
  script_response := Some "X is Y.";
  script_feedback := "error: could not evaluate the response";
  script_new_topic := fun _ => "new_topic_A";
  script_uniform := 0.5;
|}.

Definition two_rounds_env : LearningEnvironment := {|
  student := {| student_model := "llama2" |};
  q_learner := QLearningFramework_init ["action1"; "action2"] 0.1 0.9 0.1;
  simulation_results :=
    [ {| round_number := 1; topic := "topic1"; difficulty := "medium";
         problem := "problem"; student_action := "action1";
         student_response := "response"; teacher_feedback := "Correct.";
         reward := 1 |};
      {| round_number := 2; topic := "topic2"; difficulty := "medium";
         problem := "problem"; student_action := "action2";
         student_response := "response";
         teacher_feedback := "Incorrect, needs lots of improvement.";
         reward := -1.5 |} ];
  current_round_number := 2;
|}.

(** A policy without actions, a table whose first action holds NaN, and a
    run over an empty curriculum. *)
(** A greedy policy that has learnt nothing yet: all values tie at 0.0. *)
Definition tie_q : QLearningFramework :=
  QLearningFramework_init ["action1"; "action2"; "action3"] 0.1 0.9 0.

Definition no_actions_q : QLearningFramework :=
  QLearningFramework_init [] 0.1 0.9 0.1.

Definition nan_q : QLearningFramework := {|
  q_table := <[("test_state", "action2") := 0.5%float]>
               (<[("test_state", "action1") := PrimFloat.nan]> ∅);
  actions := ["action1"; "action2"];
  alpha := 0.1; gamma := 0.9; epsilon := 0;
|}.

Definition empty_curriculum_state : State nat := {|
  self := test_env;
  topics := [];
  world := 0%nat;
  calls := [];
|}.

(** The client of [test_ollama_client], a server that is down, and the
    server of [test_generate_response_success], which streams two chunks. *)
Definition test_client : OllamaClient :=
  {| host := "http://localhost:11434"; model := "test_model" |}.

Definition server_down : Ollama nat := {|
  ollama_list := fun w => (None, S w);
  ollama_generate := fun _ _ w => (None, w);
|}.

Definition test_chunks : list Chunk :=
  [ChunkDict {["response" := "I am "]}; ChunkDict {["response" := "an AI."]}].

Definition server_streams : Ollama nat := {|
  ollama_list := fun w => (Some tt, w);
  ollama_generate := fun _ _ w => (Some (GeneratedStream test_chunks true), S w);
|}.

(** The state in which [run_simulation_task] starts the run of a request
    that names no topics. *)
Definition app_state : State nat := {|
  self := {| student := StudentAgent_init
                          {| host := "http://localhost:11434"; model := "llama2" |}
                          None;
             q_learner := App.q_learner;
             simulation_results := [];
             current_round_number := 0 |};
  topics := App.parse_topics None;
  world := 0%nat;
  calls := [];
|}.

(** Three recorded rounds, with rewards 1.0, 0.5 and -0.5. *)
Definition three_rounds_env : LearningEnvironment := {|
  student := {| student_model := "llama2" |};
  q_learner := QLearningFramework_init ["action1"; "action2"] 0.1 0.9 0.1;
  simulation_results :=
    [ {| round_number := 1; topic := "topic1"; difficulty := "medium";
         problem := "problem"; student_action := "action1";
         student_response := "response"; teacher_feedback := "Correct.";
         reward := 1 |};
      {| round_number := 2; topic := "topic2"; difficulty := "medium";
         problem := "problem"; student_action := "action2";
         student_response := "response";
         teacher_feedback := "Good strengths.";
         reward := 0.5 |};
      {| round_number := 3; topic := "topic1"; difficulty := "medium";
         problem := "problem"; student_action := "action2";
         student_response := "response";
         teacher_feedback := "Needs improvement.";
         reward := -0.5 |} ];
  current_round_number := 3;
|}.

(** * Properties *)

(** ** The order of Python floats *)

Module PyFloatFacts.

Import PyFloat.

(** The order on specification floats, one case analysis at a time. *)

Lemma SFcompare_refl (x : spec_float) :
  x <> S754_nan -> SFcompare x x = Some Eq.
Proof.
  destruct x as [s| s | |s m e]; simpl; try congruence.
  - destruct s; reflexivity.
  - intros _. rewrite Z.compare_refl, Pos.compare_cont_refl.
    destruct s; reflexivity.
Qed.

Lemma SFcompare_nan_iff (x : spec_float) :
  SFeqb x x = false <-> x = S754_nan.
Proof.
  unfold SFeqb. split.
  - intros H. destruct x as [s|s| |s m e]; try reflexivity;
      rewrite SFcompare_refl in H by discriminate; discriminate.
  - intros ->. reflexivity.
Qed.

Lemma SFltb_leb (x y : spec_float) : SFltb x y = true -> SFleb x y = true.
Proof. unfold SFltb, SFleb. destruct (SFcompare x y) as [[]|]; congruence. Qed.

Lemma Pos_compare_cont_Eq (p q : positive) :
  Pos.compare_cont Eq p q = Pos.compare p q.
Proof. reflexivity. Qed.

Lemma SFcompare_antisym (x y : spec_float) :
  SFcompare y x = option_map CompOpp (SFcompare x y).
Proof.
  destruct x as [sx|sx| |sx mx ex], y as [sy|sy| |sy my ey]; simpl;
    try reflexivity;
    try (destruct sx; reflexivity); try (destruct sy; reflexivity);
    try (destruct sx, sy; reflexivity).
  rewrite !Pos_compare_cont_Eq.
  rewrite (Z.compare_antisym ex ey), (Pos.compare_antisym mx my).
  destruct sx, sy; try reflexivity;
    destruct (ex ?= ey)%Z; simpl; try reflexivity;
    destruct (mx ?= my)%positive; reflexivity.
Qed.

Lemma SFleb_total (x y : spec_float) :
  x <> S754_nan -> y <> S754_nan -> SFltb x y = false -> SFleb y x = true.
Proof.
  intros Hx Hy. unfold SFltb, SFleb. rewrite (SFcompare_antisym x y).
  destruct (SFcompare x y) as [[]|] eqn:E; simpl; try congruence.
  destruct x, y; simpl in E; congruence.
Qed.

Lemma SFcompare_rank (x y : spec_float) :
  x <> S754_nan -> y <> S754_nan ->
  SFcompare x y = Some (lex_compare (rank x) (rank y)).
Proof.
  intros Hx Hy.
  destruct x as [sx|sx| |sx mx ex], y as [sy|sy| |sy my ey];
    try congruence; try (destruct sx); try (destruct sy);
    try reflexivity; unfold lex_compare; simpl rank; simpl SFcompare;
    cbn [fst snd]; rewrite ?Pos_compare_cont_Eq.
  rewrite !Z.compare_opp, (Z.compare_antisym ex ey).
  change (Z.pos my ?= Z.pos mx)%Z with (my ?= mx)%positive.
  rewrite (Pos.compare_antisym mx my).
  destruct (ex ?= ey)%Z; reflexivity.
Qed.

Lemma lex_le_trans (a b c : Z * (Z * Z)) :
  lex_compare a b <> Gt -> lex_compare b c <> Gt -> lex_compare a c <> Gt.
Proof.
  destruct a as [a1 [a2 a3]], b as [b1 [b2 b3]], c as [c1 [c2 c3]].
  unfold lex_compare; cbn [fst snd].
  destruct (Z.compare_spec a1 b1), (Z.compare_spec b1 c1),
    (Z.compare_spec a1 c1); try lia; try congruence;
    destruct (Z.compare_spec a2 b2), (Z.compare_spec b2 c2),
      (Z.compare_spec a2 c2); try lia; try congruence;
    destruct (Z.compare_spec a3 b3), (Z.compare_spec b3 c3),
      (Z.compare_spec a3 c3); try lia; congruence.
Qed.

Lemma SFleb_rank (x y : spec_float) :
  x <> S754_nan -> y <> S754_nan ->
  SFleb x y = true <-> lex_compare (rank x) (rank y) <> Gt.
Proof.
  intros Hx Hy. unfold SFleb. rewrite SFcompare_rank by assumption.
  destruct (lex_compare _ _); split; congruence.
Qed.

Lemma SFleb_not_nan (x y : spec_float) :
  SFleb x y = true -> x <> S754_nan /\ y <> S754_nan.
Proof.
  unfold SFleb. destruct x, y; simpl; split; congruence.
Qed.

(** The same facts on primitive floats, as Python's [<], [<=], [==]. *)

Local Open Scope float_scope.

Lemma is_nan_spec (x : float) :
  PrimFloat.is_nan x = false <-> Prim2SF x <> S754_nan.
Proof.
  unfold PrimFloat.is_nan. rewrite FloatAxioms.eqb_spec, negb_false_iff.
  rewrite <- SFcompare_nan_iff. destruct (SFeqb _ _); split; congruence.
Qed.

Lemma leb_number (x y : float) : (x <=? y) = true -> is_number x /\ is_number y.
Proof.
  rewrite leb_spec. intros H%SFleb_not_nan.
  unfold is_number. rewrite !is_nan_spec. exact H.
Qed.

Lemma leb_refl (x : float) : is_number x -> (x <=? x) = true.
Proof.
  unfold is_number. rewrite is_nan_spec, leb_spec. intros H.
  unfold SFleb. rewrite SFcompare_refl by assumption. reflexivity.
Qed.

Lemma leb_trans (x y z : float) :
  (x <=? y) = true -> (y <=? z) = true -> (x <=? z) = true.
Proof.
  rewrite !leb_spec. intros Hxy Hyz.
  destruct (SFleb_not_nan _ _ Hxy) as [Hx Hy].
  destruct (SFleb_not_nan _ _ Hyz) as [_ Hz].
  rewrite SFleb_rank in * by assumption.
  eapply lex_le_trans; eassumption.
Qed.

Lemma ltb_leb (x y : float) : (x <? y) = true -> (x <=? y) = true.
Proof. rewrite ltb_spec, leb_spec. apply SFltb_leb. Qed.

Lemma not_ltb_leb (x y : float) :
  is_number x -> is_number y -> (x <? y) = false -> (y <=? x) = true.
Proof.
  unfold is_number. rewrite !is_nan_spec, ltb_spec, leb_spec.
  apply SFleb_total.
Qed.

Lemma eqb_leb (x y : float) :
  (x =? y) = true <-> (x <=? y) = true /\ (y <=? x) = true.
Proof.
  rewrite FloatAxioms.eqb_spec, !leb_spec. unfold SFeqb, SFleb.
  rewrite (SFcompare_antisym (Prim2SF x) (Prim2SF y)).
  destruct (SFcompare (Prim2SF x) (Prim2SF y)) as [[]|]; simpl;
    split; try tauto; try congruence; intros [? ?]; congruence.
Qed.

Lemma leb_ltb_false (x y : float) : (x <=? y) = true -> (y <? x) = false.
Proof.
  rewrite ltb_spec, leb_spec. unfold SFltb, SFleb.
  rewrite (SFcompare_antisym (Prim2SF x) (Prim2SF y)).
  destruct (SFcompare (Prim2SF x) (Prim2SF y)) as [[]|]; simpl; congruence.
Qed.

End PyFloatFacts.

(** ** Built-ins on sample inputs *)

Example dict_keys_ex : dict_keys ["a"; "b"; "a"; "c"; "b"] = ["a"; "b"; "c"].
Proof. reflexivity. Qed.

Example str_in_ex1 : Py.str_in "Error" "Error: blah" = true.
Proof. reflexivity. Qed.
Example str_in_ex2 : Py.str_in "Error" "an error" = false.
Proof. reflexivity. Qed.
Example lower_ex : Py.lower "Correct, Good STRENGTHS." = "correct, good strengths."%string.
Proof. reflexivity. Qed.
Example format_ex1 : Py.format_2f 1.5%float = "1.50"%string.
Proof. vm_compute. reflexivity. Qed.
Example format_ex2 : Py.format_2f (-0.125)%float = "-0.12"%string.
Proof. vm_compute. reflexivity. Qed.
Example format_ex3 : Py.format_2f 0.375%float = "0.38"%string.
Proof. vm_compute. reflexivity. Qed.
Example format_ex4 : Py.format_2f 1234.5678%float = "1234.57"%string.
Proof. vm_compute. reflexivity. Qed.
Example format_ex5 : Py.format_2f 0.005%float = "0.01"%string.
Proof. vm_compute. reflexivity. Qed.
Example str_ex : Py.str_of_Z 120 = "120"%string.
Proof. vm_compute. reflexivity. Qed.

(** ** Built-ins *)

Lemma elem_of_map {A B : Type} (f : A -> B) (l : list A) (y : B) :
  y ∈ map f l <-> exists x, y = f x /\ x ∈ l.
Proof.
  rewrite list_elem_of_In, in_map_iff. split; intros [x [H1 H2]]; exists x;
    rewrite ?list_elem_of_In in *; by split.
Qed.

Section BuiltinFacts.

Import PyFloat PyFloatFacts.
Local Open Scope float_scope.

Lemma max_from_spec (l : list float) : forall x,
  Forall is_number (x :: l) ->
  Py.max_from x l ∈ x :: l /\ upper_bound (Py.max_from x l) (x :: l).
Proof.
  induction l as [|y l IH]; intros x Hn.
  - simpl. split; [left|]. repeat constructor.
    apply leb_refl. by inversion Hn.
  - inversion Hn as [|? ? Hx Hyl]; subst. inversion Hyl as [|? ? Hy Hl]; subst.
    change (Py.max_from x (y :: l))
      with (Py.max_from (if x <? y then y else x) l).
    destruct (x <? y) eqn:E.
    + destruct (IH y Hyl) as [Hin Hub]. split.
      * by right.
      * inversion Hub as [|? ? Hym Hrest]; subst.
        constructor; [|assumption].
        eapply leb_trans; [apply ltb_leb, E | exact Hym].
    + destruct (IH x (List.Forall_cons _ _ _ Hx Hl)) as [Hin Hub]. split.
      * apply elem_of_cons in Hin as [->|Hin]; [left | right; by right].
      * inversion Hub as [|? ? Hxm Hrest]; subst.
        constructor; [assumption|]. constructor; [|assumption].
        apply (leb_trans _ x); [apply not_ltb_leb; assumption | exact Hxm].
Qed.

Lemma min_from_spec (l : list float) : forall x,
  Forall is_number (x :: l) ->
  Py.min_from x l ∈ x :: l /\ lower_bound (Py.min_from x l) (x :: l).
Proof.
  induction l as [|y l IH]; intros x Hn.
  - simpl. split; [left|]. repeat constructor.
    apply leb_refl. by inversion Hn.
  - inversion Hn as [|? ? Hx Hyl]; subst. inversion Hyl as [|? ? Hy Hl]; subst.
    change (Py.min_from x (y :: l))
      with (Py.min_from (if y <? x then y else x) l).
    destruct (y <? x) eqn:E.
    + destruct (IH y Hyl) as [Hin Hlb]. split.
      * by right.
      * inversion Hlb as [|? ? Hmy Hrest]; subst.
        constructor; [|assumption].
        eapply leb_trans; [exact Hmy | apply ltb_leb, E].
    + destruct (IH x (List.Forall_cons _ _ _ Hx Hl)) as [Hin Hlb]. split.
      * apply elem_of_cons in Hin as [->|Hin]; [left | right; by right].
      * inversion Hlb as [|? ? Hmx Hrest]; subst.
        constructor; [assumption|]. constructor; [|assumption].
        apply (leb_trans _ x); [exact Hmx | apply not_ltb_leb; assumption].
Qed.

(** A list of zeros has maximum zero: the value [max_next_q] takes on
    unseen entries. *)
Lemma max_from_zeros (l : list float) :
  Forall (fun y => y = 0) l -> Py.max_from 0 l = 0.
Proof.
  induction 1 as [|y l -> _ IH]; [reflexivity|].
  change (Py.max_from 0 (0 :: l)) with (Py.max_from (if 0 <? 0 then 0 else 0) l).
  exact IH.
Qed.

(** The program's mean and summary are the ones of the specification. *)
Lemma mean_arithmetic (l : list float) : mean l = arithmetic_mean l.
Proof. reflexivity. Qed.


End BuiltinFacts.

Section StringFacts.

Lemma app_String (c : ascii) (a b : string) :
  String c a +:+ b = String c (a +:+ b).
Proof. reflexivity. Qed.

Lemma app_empty (b : string) : EmptyString +:+ b = b.
Proof. reflexivity. Qed.

Lemma string_app_assoc (a b c : string) : (a +:+ b) +:+ c = a +:+ (b +:+ c).
Proof. induction a as [|x a IH]; [done|]. rewrite !app_String. by rewrite IH. Qed.

Lemma string_app_nil_r (a : string) : a +:+ EmptyString = a.
Proof. induction a as [|x a IH]; [done|]. rewrite app_String. by rewrite IH. Qed.

Lemma prefix_spec (sub s : string) :
  String.prefix sub s = true <-> exists post, s = sub +:+ post.
Proof.
  revert s. induction sub as [|c sub IH]; intros s.
  - split; [intros _; by exists s | intros _; by destruct s].
  - destruct s as [|d s].
    + split; [done | intros [post Hp]; discriminate].
    + cbn. setoid_rewrite app_String.
      destruct (Ascii.ascii_dec c d) as [->|Hne].
      * rewrite IH. split; intros [post Hp]; exists post; congruence.
      * split; [done | intros [post Hp]; congruence].
Qed.

(** [sub in s] holds exactly when [s] is [pre + sub + post]. *)
Lemma str_in_spec (sub s : string) :
  Py.str_in sub s = true <-> exists pre post, s = pre +:+ sub +:+ post.
Proof.
  induction s as [|d s IH]; cbn [Py.str_in].
  - rewrite orb_false_r, prefix_spec. split.
    + intros [post Hp]. by exists EmptyString, post.
    + intros [pre [post Hp]]. destruct pre; [by exists post | discriminate].
  - rewrite orb_true_iff, IH, prefix_spec. split.
    + intros [[post Hp] | [pre [post Hp]]].
      * by exists EmptyString, post.
      * exists (String d pre), post. rewrite app_String. by rewrite Hp.
    + intros [pre [post Hp]]. destruct pre as [|e pre].
      * left. by exists post.
      * right. exists pre, post. rewrite app_String in Hp. congruence.
Qed.

End StringFacts.

(** ** The reward extractor *)

Lemma reward_in_range (feedback : string) :
  _get_reward_from_feedback feedback ∈ reward_values.
Proof.
  unfold _get_reward_from_feedback, reward_values.
  destruct (Py.str_in "correct" _), (Py.str_in "incorrect" _),
    (Py.str_in "strengths" _), (Py.str_in "improvement" _);
    match goal with
    | |- ?x ∈ _ => let v := eval vm_compute in x in change x with v
    end;
    repeat first [apply list_elem_of_here | apply list_elem_of_further].
Qed.

Lemma reward_is_number (feedback : string) :
  PyFloat.is_number (_get_reward_from_feedback feedback).
Proof.
  unfold _get_reward_from_feedback, PyFloat.is_number.
  destruct (Py.str_in "correct" _), (Py.str_in "incorrect" _),
    (Py.str_in "strengths" _), (Py.str_in "improvement" _); reflexivity.
Qed.

(** C2. The reward computed from a feedback text is the sum, from 0.0, of
    +1.0 for "correct" without "incorrect", -1.0 for "incorrect", +0.5 for
    "strengths" and -0.5 for "improvement", each looked up in the lowercased
    text; it is a function of the lowercased text alone, it is always one of
    -1.5, -1.0, -0.5, 0.0, 0.5, 1.0, 1.5, and the two sample texts give 1.5
    and -1.5. *)
Theorem reward_extractor_rules (feedback : string) :
  _get_reward_from_feedback feedback = reward_by_rules feedback
  /\ _get_reward_from_feedback feedback ∈ reward_values
  /\ (forall other, Py.lower other = Py.lower feedback ->
        _get_reward_from_feedback other = _get_reward_from_feedback feedback)
  /\ _get_reward_from_feedback "Correct, good strengths." = 1.5%float
  /\ _get_reward_from_feedback "Incorrect, needs lots of improvement." = (-1.5)%float.
Proof.
  split; [|split; [apply reward_in_range | split; [|split; reflexivity]]].
  2:{ intros other Hlower. unfold _get_reward_from_feedback. by rewrite Hlower. }
  unfold _get_reward_from_feedback, reward_by_rules.
  destruct (Py.str_in "correct" _), (Py.str_in "incorrect" _),
    (Py.str_in "strengths" _), (Py.str_in "improvement" _); reflexivity.
Qed.

Lemma incorrect_holds_correct (s : string) :
  Py.str_in "incorrect" s = true -> Py.str_in "correct" s = true.
Proof.
  rewrite !str_in_spec. intros (pre & post & ->).
  exists (pre +:+ "in"), post. by rewrite string_app_assoc.
Qed.

(** X20. The word "incorrect" holds the word "correct": a feedback text
    that mentions "incorrect" also matches "correct", and the guard of the
    first rule is what keeps it from earning the +1.0. So the reward is
    negative whenever the lowercased text holds "incorrect", positive
    whenever it holds "correct" without "incorrect", and within 0.5 of zero
    when it holds neither. *)
Theorem reward_follows_incorrect (feedback : string) :
  let t := Py.lower feedback in
  let r := _get_reward_from_feedback feedback in
  (Py.str_in "incorrect" t = true ->
   Py.str_in "correct" t = true /\ r ∈ [-1.5; -1; -0.5]%float)
  /\ (Py.str_in "correct" t = true -> Py.str_in "incorrect" t = false ->
      r ∈ [0.5; 1; 1.5]%float)
  /\ (Py.str_in "correct" t = false ->
      Py.str_in "incorrect" t = false /\ r ∈ [-0.5; 0; 0.5]%float).
Proof.
  cbv zeta. unfold _get_reward_from_feedback.
  pose proof (incorrect_holds_correct (Py.lower feedback)) as Hin.
  destruct (Py.str_in "incorrect" _), (Py.str_in "correct" _);
    try (by specialize (Hin eq_refl));
    (split_and!; [intros ?|intros ? ?|intros ?]; try done; try split; try done);
    destruct (Py.str_in "strengths" _), (Py.str_in "improvement" _);
    match goal with
    | |- ?x ∈ _ => let v := eval vm_compute in x in change x with v
    end;
    repeat first [apply list_elem_of_here | apply list_elem_of_further].
Qed.

(** ** The temporal-difference update *)

Section UpdateFacts.

Import PyFloat PyFloatFacts.
Local Open Scope float_scope.

Lemma max_next_q_is_maximum (q : QLearningFramework) (ns : string) :
  Py.truthy ns = true ->
  actions q <> [] ->
  (forall a, a ∈ actions q -> is_number (_get_q_value q ns a)) ->
  is_maximum (max_next_q q (Some ns)) (map (_get_q_value q ns) (actions q)).
Proof.
  intros Ht Hne Hnum. unfold max_next_q. rewrite Ht.
  destruct (actions q) as [|a l] eqn:E; [done|]. cbn [map].
  apply max_from_spec. change (Forall is_number (map (_get_q_value q ns) (a :: l))).
  apply Forall_forall. intros x Hx%elem_of_map.
  destruct Hx as [b [-> Hb]]. by apply Hnum.
Qed.

Lemma max_next_q_unseen (q : QLearningFramework) (ns : string) :
  (forall a, a ∈ actions q -> q_table q !! (ns, a) = None) ->
  max_next_q q (Some ns) = 0.
Proof.
  intros Hnone. unfold max_next_q. destruct (Py.truthy ns); [|reflexivity].
  assert (Hz : Forall (fun y => y = 0) (map (_get_q_value q ns) (actions q))).
  { apply Forall_forall. intros x Hx%elem_of_map.
    destruct Hx as [b [-> Hb]]. unfold _get_q_value. by rewrite Hnone. }
  destruct (map _ (actions q)) as [|x l]; [reflexivity|].
  inversion Hz as [|? ? -> Hl]; subst. by apply max_from_zeros.
Qed.

Lemma max_next_q_terminal (q : QLearningFramework) (next_state : option string) :
  next_state = None \/ next_state = Some EmptyString ->
  max_next_q q next_state = 0.
Proof. by intros [-> | ->]. Qed.

Lemma max_next_q_no_actions (q : QLearningFramework) (next_state : option string) :
  actions q = [] -> max_next_q q next_state = 0.
Proof.
  intros E. unfold max_next_q. rewrite E.
  destruct next_state as [ns|]; [|done]. by destruct (Py.truthy ns).
Qed.

Lemma first_update_value (acts : list string) (eps : float)
  (state action : string) (next_state : option string) :
  _get_q_value
    (update_q_value (QLearningFramework_init acts 0.1 0.9 eps)
       state action 1 next_state) state action = 0.1.
Proof.
  unfold _get_q_value, update_q_value. cbn [q_table].
  rewrite lookup_insert_eq. cbn [default].
  assert (Hm : max_next_q (QLearningFramework_init acts 0.1 0.9 eps) next_state = 0).
  { destruct next_state as [ns|]; [|reflexivity].
    apply max_next_q_unseen. intros a _. apply lookup_empty. }
  rewrite Hm. unfold _get_q_value. cbn [q_table QLearningFramework_init].
  rewrite lookup_empty. reflexivity.
Qed.

Lemma second_update_value (q : QLearningFramework)
  (state action : string) (next_state : option string) :
  alpha q = 0.1 -> gamma q = 0.9 ->
  _get_q_value q state action = 0.1 ->
  max_next_q q next_state = 2 ->
  _get_q_value (update_q_value q state action 1 next_state) state action = 0.37.
Proof.
  intros Ha Hg Hc Hm. unfold update_q_value.
  unfold _get_q_value at 1. cbn [q_table].
  rewrite lookup_insert_eq. cbn [default].
  rewrite Ha, Hg, Hc, Hm. reflexivity.
Qed.

(** X2. The table only grows: an update adds the key (state, action) and
    removes none. *)
Theorem q_table_never_shrinks (q : QLearningFramework) (state action : string)
  (reward : float) (next_state : option string) :
  dom (q_table (update_q_value q state action reward next_state))
  = {[ (state, action) ]} ∪ dom (q_table q).
Proof. unfold update_q_value. cbn [q_table]. apply dom_insert_L. Qed.

End UpdateFacts.

(** C1. [update_q_value] stores current + alpha * (reward + gamma * maxNext
    - current) at (state, action), where current is the stored value (0.0
    when absent); the table is the old one with that single entry written,
    every other entry and the hyperparameters are as before. maxNext is 0.0
    for a next state that is [None] or empty, for an empty action set, and
    when no action of the next state has an entry; otherwise it is the
    result of [max] over the values of the next state, which is their
    maximum when they are numbers. From the empty table with alpha 0.1,
    gamma 0.9 and reward 1.0 the stored value is 0.1, and updating a stored
    0.1 with reward 1.0 against a best next value of 2.0 gives 0.37 (the
    nearest float, hence within any tolerance). *)
Theorem update_q_value_rule (q : QLearningFramework) (state action : string)
  (reward : float) (next_state : option string) :
  let current := _get_q_value q state action in
  let max_next := max_next_q q next_state in
  let new_q := td_update current (alpha q) (gamma q) reward max_next in
  let q' := update_q_value q state action reward next_state in
  q_table q' = <[(state, action) := new_q]> (q_table q)
  /\ _get_q_value q' state action = new_q
  /\ (forall k, k <> (state, action) -> q_table q' !! k = q_table q !! k)
  /\ (actions q', alpha q', gamma q', epsilon q')
     = (actions q, alpha q, gamma q, epsilon q)
  /\ (next_state = None \/ next_state = Some EmptyString -> max_next = 0%float)
  /\ (actions q = [] -> max_next = 0%float)
  /\ (forall ns, next_state = Some ns ->
        (forall a, a ∈ actions q -> q_table q !! (ns, a) = None) ->
        max_next = 0%float)
  /\ (forall ns, next_state = Some ns -> Py.truthy ns = true ->
        actions q <> [] ->
        (forall a, a ∈ actions q -> PyFloat.is_number (_get_q_value q ns a)) ->
        is_maximum max_next (map (_get_q_value q ns) (actions q)))
  /\ (forall acts eps,
        _get_q_value
          (update_q_value (QLearningFramework_init acts 0.1 0.9 eps)
             state action 1 next_state) state action = 0.1%float)
  /\ (alpha q = 0.1%float -> gamma q = 0.9%float ->
      current = 0.1%float -> max_next = 2%float -> reward = 1%float ->
      _get_q_value q' state action = 0.37%float
      /\ PrimFloat.ltb (PrimFloat.abs (_get_q_value q' state action - 0.37)) 1e-7
         = true).
Proof.
  cbv zeta. split_and!.
  - reflexivity.
  - unfold _get_q_value, update_q_value. cbn [q_table].
    by rewrite lookup_insert_eq.
  - intros k Hk. unfold update_q_value. cbn [q_table].
    by rewrite lookup_insert_ne.
  - reflexivity.
  - apply max_next_q_terminal.
  - apply max_next_q_no_actions.
  - intros ns -> Hnone. by apply max_next_q_unseen.
  - intros ns -> Ht Hne Hnum. by apply max_next_q_is_maximum.
  - intros acts eps. apply first_update_value.
  - intros Ha Hg Hc Hm ->.
    rewrite (second_update_value q state action next_state Ha Hg Hc Hm).
    by split.
Qed.

(** ** Greedy action selection *)

Section ChooseFacts.

Context `{World W}.
Import PyFloat PyFloatFacts.
Local Open Scope float_scope.

Lemma dict_keys_elem (a : string) (l : list string) : a ∈ dict_keys l <-> a ∈ l.
Proof.
  unfold dict_keys. by rewrite elem_of_reverse, elem_of_remove_dups, elem_of_reverse.
Qed.

Lemma dict_keys_NoDup (l : list string) : NoDup (dict_keys l).
Proof. unfold dict_keys. rewrite reverse_Permutation. apply NoDup_remove_dups. Qed.

Lemma dict_keys_nonempty (l : list string) : l <> [] -> dict_keys l <> [].
Proof.
  destruct l as [|a l]; [done|]. intros _ E.
  assert (Ha : a ∈ dict_keys (a :: l)) by (apply dict_keys_elem; left).
  rewrite E in Ha. by apply elem_of_nil in Ha.
Qed.

Lemma values_for_state (q : QLearningFramework) (state : string) :
  map snd (q_values_for_state q state)
  = map (_get_q_value q state) (dict_keys (actions q)).
Proof.
  unfold q_values_for_state. induction (dict_keys (actions q)) as [|a l IH];
    [reflexivity|]. cbn [map snd]. by rewrite IH.
Qed.

(** The tied set: the distinct actions whose value equals [max_q], in
    the order of the action list. *)
Lemma best_actions_filter (q : QLearningFramework) (state : string) (max_q : float) :
  best_actions q state max_q
  = filter (fun a => (_get_q_value q state a =? max_q) = true)
      (dict_keys (actions q)).
Proof.
  unfold best_actions, q_values_for_state.
  induction (dict_keys (actions q)) as [|a l IH]; [reflexivity|].
  cbn [map]. rewrite !filter_cons. cbn [snd].
  destruct (decide ((_get_q_value q state a =? max_q) = true));
    cbn [map fst]; by rewrite IH.
Qed.

Lemma best_actions_spec (q : QLearningFramework) (state : string)
  (max_q : float) (a : string) :
  a ∈ best_actions q state max_q
  <-> a ∈ actions q /\ (_get_q_value q state a =? max_q) = true.
Proof.
  rewrite best_actions_filter, list_elem_of_filter, dict_keys_elem. tauto.
Qed.

Lemma random_choice_ok {A : Type} (seq : list A) (w : W) :
  (forall n w', (0 < n)%nat -> ((randbelow n w').1 < n)%nat) ->
  seq <> [] ->
  exists x, random_choice seq w = (Py.Ok x, (randbelow (length seq) w).2)
            /\ seq !! (randbelow (length seq) w).1 = Some x.
Proof.
  intros Hlt Hne. unfold random_choice.
  destruct seq as [|y seq]; [done|].
  specialize (Hlt (length (y :: seq)) w ltac:(simpl; lia)).
  destruct (randbelow (length (y :: seq)) w) as [k w'] eqn:E. cbn [fst snd] in *.
  destruct (lookup_lt_is_Some_2 (y :: seq) k Hlt) as [x Hx].
  exists x. by rewrite Hx.
Qed.

Lemma is_maximum_ext (m : float) (f : string -> float) (l k : list string) :
  (forall a, a ∈ l <-> a ∈ k) ->
  is_maximum m (map f l) -> is_maximum m (map f k).
Proof.
  intros Hlk [Hin Hub]. split.
  - apply elem_of_map in Hin as [a [-> Ha]]. apply elem_of_map.
    exists a. split; [done | by apply Hlk].
  - apply Forall_forall. intros y [a [-> Ha]]%elem_of_map.
    unfold upper_bound in Hub. rewrite Forall_forall in Hub.
    apply Hub, elem_of_map. exists a. split; [done | by apply Hlk].
Qed.

Lemma py_max_is_maximum (q : QLearningFramework) (state : string) :
  actions q <> [] ->
  (forall a, a ∈ actions q -> is_number (_get_q_value q state a)) ->
  exists max_q,
    Py.max (map snd (q_values_for_state q state)) = Py.Ok max_q
    /\ is_maximum max_q (map (_get_q_value q state) (actions q)).
Proof.
  intros Hne Hnum. rewrite values_for_state.
  destruct (dict_keys (actions q)) as [|a l] eqn:E.
  { by apply dict_keys_nonempty in E. }
  cbn [map Py.max]. eexists. split; [reflexivity|].
  apply (is_maximum_ext _ (_get_q_value q state) (a :: l)).
  { intros b. rewrite <- E. apply dict_keys_elem. }
  apply max_from_spec.
  change (Forall is_number (map (_get_q_value q state) (a :: l))).
  apply Forall_forall. intros y [b [-> Hb]]%elem_of_map.
  apply Hnum, dict_keys_elem. by rewrite E.
Qed.

Lemma filter_all {A : Type} (P : A -> Prop) `{forall x, Decision (P x)}
  (l : list A) :
  (forall x, x ∈ l -> P x) -> filter P l = l.
Proof.
  induction l as [|x l IH]; intros Hall; [reflexivity|].
  rewrite filter_cons. destruct (decide (P x)) as [_|Hn].
  - f_equal. apply IH. intros y Hy. apply Hall. by right.
  - destruct Hn. apply Hall. left.
Qed.

Lemma remove_dups_snoc_filter (l : list string) (a : string) :
  remove_dups (l ++ [a]) = filter (fun b => b <> a) (remove_dups l) ++ [a].
Proof.
  induction l as [|x l IH]; [done|].
  cbn [app remove_dups].
  destruct (decide_rel elem_of x (l ++ [a])) as [Hin|Hout];
    destruct (decide_rel elem_of x l) as [Hin'|Hout'].
  - exact IH.
  - assert (x = a) as ->.
    { apply elem_of_app in Hin as [?|Hin]; [done|].
      by apply list_elem_of_singleton in Hin. }
    by rewrite filter_cons_False by (by intros ?).
  - destruct Hout. apply elem_of_app. by left.
  - rewrite filter_cons_True.
    + cbn [app]. by rewrite IH.
    + intros ->. apply Hout, elem_of_app. right. left.
Qed.

(** The keys of the dict are the distinct actions in the order of their
    first occurrence. *)
Lemma dict_keys_first_occurrences (l : list string) :
  dict_keys l = first_occurrences l.
Proof.
  induction l as [|a l IH]; [done|].
  cbn [first_occurrences]. rewrite <- IH. unfold dict_keys.
  by rewrite reverse_cons, remove_dups_snoc_filter, reverse_app, filter_reverse.
Qed.

Lemma first_occurrences_NoDup (l : list string) :
  NoDup l -> first_occurrences l = l.
Proof.
  induction 1 as [|a l Hout _ IH]; [done|].
  cbn [first_occurrences]. rewrite IH. f_equal.
  apply filter_all. intros b Hb ->. done.
Qed.

Lemma best_actions_tied (q : QLearningFramework) (state : string) (max_q : float) :
  best_actions q state max_q
  = tied_actions (_get_q_value q state) max_q (actions q).
Proof.
  by rewrite best_actions_filter, dict_keys_first_occurrences.
Qed.

(** C4. With epsilon 0.0, a non-empty action set and a number (not a NaN)
    for the value of every action at the state, [choose_action] takes the
    exploitation branch: its result is the element that [random.choice]
    draws from the tied set, the distinct actions whose value at the state
    (0.0 when missing) equals the maximum over the action set, in the order
    of the action list. The returned action has the maximum value; it is
    the same for every state of the random generator when one action is
    strictly best; every tied action is returned for exactly one of the
    indices the generator can draw, so a uniform index gives a uniform
    choice among the ties; and the tied set holds all the distinct actions
    when all values are equal, so that the choice then is the one of the
    exploration branch when no action is listed twice. Of the [random]
    module it is assumed that [uniform(0, 1)] is not below 0 and that
    [choice] draws an index inside the sequence. *)
Theorem choose_action_greedy (q : QLearningFramework) (state : string) (w : W) :
  actions q <> [] ->
  epsilon q = 0 ->
  (forall a, a ∈ actions q -> is_number (_get_q_value q state a)) ->
  (forall w', (0 <=? (random_uniform 0 1 w').1) = true) ->
  (forall n w', (0 < n)%nat -> ((randbelow n w').1 < n)%nat) ->
  let value := _get_q_value q state in
  let w1 := (random_uniform 0 1 w).2 in
  exists max_q a,
    let tied := best_actions q state max_q in
    is_maximum max_q (map value (actions q))
    /\ choose_action q state w = random_choice tied w1
    /\ choose_action q state w = (Py.Ok a, (randbelow (length tied) w1).2)
    /\ tied !! (randbelow (length tied) w1).1 = Some a
    /\ (forall b, b ∈ tied <-> b ∈ actions q /\ (value b =? max_q) = true)
    /\ a ∈ tied
    /\ a ∈ actions q
    /\ (value a =? max_q) = true
    /\ (forall b, b ∈ actions q -> (value b <=? value a) = true)
    /\ (forall a0, a0 ∈ actions q ->
          (forall b, b ∈ actions q -> b <> a0 -> (value b <? value a0) = true) ->
          a = a0)
    /\ ((forall b, b ∈ actions q -> (value b =? max_q) = true) ->
        tied = dict_keys (actions q))
    /\ tied = tied_actions value max_q (actions q)
    /\ NoDup tied
    /\ (forall b, b ∈ tied ->
          exists k, (k < length tied)%nat /\ tied !! k = Some b
            /\ forall w0,
                 (choose_action q state w0).1 = Py.Ok b
                 <-> (randbelow (length tied) (random_uniform 0 1 w0).2).1 = k)
    /\ ((forall b, b ∈ actions q -> (value b =? max_q) = true) ->
        tied = first_occurrences (actions q)
        /\ (NoDup (actions q) ->
            tied = actions q
            /\ choose_action q state w = random_choice (actions q) w1)).
Proof.
  intros Hne Heps Hnum Hu Hlt value w1.
  destruct (py_max_is_maximum q state Hne Hnum) as [max_q [Hmax Hismax]].
  assert (Hbranch : forall w0, choose_action q state w0
                    = random_choice (best_actions q state max_q)
                        (random_uniform 0 1 w0).2).
  { intros w0. unfold choose_action. specialize (Hu w0).
    destruct (random_uniform 0 1 w0) as [u w'] eqn:E. cbn [fst snd] in *.
    rewrite Heps, (leb_ltb_false _ _ Hu), Hmax. reflexivity. }
  assert (Htied : best_actions q state max_q <> []).
  { destruct Hismax as [[a0 [E0 Ha0]]%elem_of_map _].
    assert (Hin : a0 ∈ best_actions q state max_q).
    { apply best_actions_spec. split; [done|]. rewrite E0.
      apply eqb_leb. split; apply leb_refl, Hnum, Ha0. }
    intros E. rewrite E in Hin. by apply elem_of_nil in Hin. }
  assert (Hnodup : NoDup (best_actions q state max_q)).
  { rewrite best_actions_filter. apply NoDup_filter, dict_keys_NoDup. }
  destruct (random_choice_ok (best_actions q state max_q) w1 Hlt Htied)
    as [a [Hchoice Hlookup]].
  assert (Ha : a ∈ best_actions q state max_q)
    by (eapply list_elem_of_lookup_2; exact Hlookup).
  pose proof (proj1 (best_actions_spec q state max_q a) Ha) as [Hact Heq].
  assert (Hbest : forall b, b ∈ actions q -> (value b <=? value a) = true).
  { intros b Hb. apply (leb_trans _ max_q).
    - destruct Hismax as [_ Hub]. unfold upper_bound in Hub.
      rewrite Forall_forall in Hub. apply Hub, elem_of_map. by exists b.
    - by apply eqb_leb in Heq as [_ ?]. }
  assert (Hall : (forall b, b ∈ actions q -> (value b =? max_q) = true) ->
                 best_actions q state max_q = dict_keys (actions q)).
  { intros Hall. rewrite best_actions_filter. apply filter_all.
    intros b Hb. apply Hall. by apply dict_keys_elem. }
  exists max_q, a. cbv zeta.
  split_and!;
    [done | apply Hbranch | by rewrite Hbranch | done | apply best_actions_spec
    | done | done | done | done | | done | apply best_actions_tied | done | |].
  - intros a0 Ha0 Hstrict. destruct (decide (a = a0)) as [|Hd]; [done|].
    specialize (Hstrict a Hact Hd).
    by rewrite (leb_ltb_false _ _ (Hbest a0 Ha0)) in Hstrict.
  - intros b [k Hk]%list_elem_of_lookup_1. exists k.
    split_and!; [by eapply lookup_lt_Some | done |].
    intros w0. rewrite Hbranch.
    destruct (random_choice_ok (best_actions q state max_q)
                (random_uniform 0 1 w0).2 Hlt Htied) as [x [-> Hx]].
    cbn [fst]. split.
    + intros [= ->]. by eapply NoDup_lookup.
    + intros E. rewrite E, Hk in Hx. by injection Hx as ->.
  - intros Hall'. rewrite (Hall Hall'). split; [apply dict_keys_first_occurrences|].
    intros Hnd.
    assert (E : dict_keys (actions q) = actions q)
      by (by rewrite dict_keys_first_occurrences, first_occurrences_NoDup).
    split; [done|]. by rewrite Hbranch, (Hall Hall'), E.
Qed.

(** X1. With epsilon 1.0 every draw of [random.uniform(0, 1)] below 1 takes the
    exploration branch: the result is what [random.choice] draws from the
    action list, whatever the table holds. *)
Theorem choose_action_explores (q q' : QLearningFramework) (state : string) (w : W) :
  epsilon q = 1 -> epsilon q' = 1 -> actions q' = actions q ->
  ((random_uniform 0 1 w).1 <? 1) = true ->
  choose_action q state w = random_choice (actions q) (random_uniform 0 1 w).2
  /\ choose_action q' state w = choose_action q state w.
Proof.
  intros He He' Ha Hu. unfold choose_action.
  destruct (random_uniform 0 1 w) as [u w1]. cbn [fst snd] in *.
  by rewrite He, He', Ha, Hu.
Qed.

End ChooseFacts.

(** ** One interaction round *)

Section RoundFacts.

Context `{World W}.

(** [run_interaction_round] with its state made explicit, stage by stage. *)
Lemma run_interaction_round_unfold (topic difficulty : string) (n : Z)
  (s : State W) :
  run_interaction_round topic difficulty n s =
  let env := self s in
  let gen := generate_learning_material topic difficulty (world s) in
  let c1 := calls s ++ [CallGenerateLearningMaterial topic difficulty] in
  if has_error_marker gen.1 then (Py.Ok None, mkState env (topics s) gen.2 c1)
  else
    match choose_action (q_learner env) topic gen.2 with
    | (Py.Raise e, w2) => (Py.Raise e, mkState env (topics s) w2 c1)
    | (Py.Ok action, w2) =>
        let sol := solve_problem (student env) gen.1 w2 in
        let c2 := c1 ++ [CallSolveProblem gen.1] in
        if has_error_marker sol.1
        then (Py.Ok None, mkState env (topics s) sol.2 c2)
        else
          let ev := evaluate_student_response gen.1 sol.1 sol.2 in
          let c3 := c2 ++ [CallEvaluateStudentResponse gen.1 sol.1] in
          if has_error_marker ev.1
          then (Py.Ok None, mkState env (topics s) ev.2 c3)
          else
            let rd := completed_round env topic difficulty gen.1 action
                        sol.1 ev.1 in
            (Py.Ok (Some rd),
             mkState (env_after_round env rd) (topics s)
               (process_feedback (student env) gen.1 sol.1 ev.1 ev.2)
               (c3 ++ [CallProcessFeedback gen.1 sol.1 ev.1]))
    end.
Proof.
  unfold run_interaction_round, has_error_marker, bind, log_call, on_world,
    on_world_result, get_self, modify_self, ret. cbn [self topics world calls].
  destruct (generate_learning_material topic difficulty (world s))
    as [problem w1]. cbn [fst snd].
  destruct (Py.str_in "Error" problem); [reflexivity|].
  cbn [self topics world calls].
  destruct (choose_action (q_learner (self s)) topic w1) as [[action|e] w2];
    [|reflexivity].
  cbn [self topics world calls].
  destruct (solve_problem (student (self s)) problem w2) as [response w3].
  cbn [fst snd].
  destruct (Py.str_in "Error" response); [reflexivity|].
  cbn [self topics world calls].
  destruct (evaluate_student_response problem response w3) as [feedback w4].
  cbn [fst snd].
  destruct (Py.str_in "Error" feedback); reflexivity.
Qed.

(** The steps of [run_simulation] around the round, with explicit state. *)
Lemma synthesize_step_unfold (h : list float) (s : State W) :
  synthesize_step h s =
  let current_topic := default "general knowledge" (last (topics s)) in
  let syn := synthesize_new_topic current_topic (performance_summary h) (world s) in
  (Py.Ok tt,
   mkState (self s)
     (if accepts_topic (topics s) syn.1 then topics s ++ [syn.1] else topics s)
     syn.2
     (calls s ++ [CallSynthesizeNewTopic current_topic (performance_summary h)])).
Proof.
  unfold synthesize_step, accepts_topic, has_error_marker, performance_summary,
    bind, get_topics, set_topics, log_call, on_world, ret.
  cbn [self topics world calls].
  destruct (synthesize_new_topic _ _ (world s)) as [new_topic w']. cbn [fst snd].
  cbn [self topics world calls].
  destruct (Py.truthy new_topic && negb (Py.str_in "Error" new_topic)
            && negb (bool_decide (new_topic ∈ topics s))); reflexivity.
Qed.

Lemma growth_check_unfold (i ei : Z) (h : list float) (s : State W) :
  growth_check i ei h s =
  if 0 <? i then
    if ei / 2 =? 0 then (Py.Raise Py.ZeroDivisionError, s)
    else if i mod (ei / 2) =? 0 then synthesize_step h s
    else (Py.Ok tt, s)
  else (Py.Ok tt, s).
Proof.
  unfold growth_check, bind, lift_result, Py.mod_, ret.
  destruct (0 <? i); [|reflexivity].
  destruct (ei / 2 =? 0); [reflexivity|].
  destruct (i mod (ei / 2) =? 0); reflexivity.
Qed.

Lemma evolution_check_unfold (i ei : Z) (h : list float) (s : State W) :
  evolution_check i ei h s =
  if ei =? 0 then (Py.Raise Py.ZeroDivisionError, s)
  else if ((i + 1) mod ei =? 0) && (0 <? Z.of_nat (length h)) then
    (Py.Ok [],
     mkState (self s) (topics s)
       (student_evolve (student (self s)) (mean h) (teacher_evolve (mean h) (world s)))
       (calls s ++ [CallTeacherEvolve (mean h); CallStudentEvolve (mean h)]))
  else (Py.Ok h, s).
Proof.
  unfold evolution_check, bind, lift_result, Py.mod_, ret, log_call, on_world,
    get_self, mean.
  destruct (ei =? 0); [reflexivity|].
  destruct (((i + 1) mod ei =? 0) && (0 <? Z.of_nat (length h))); [|reflexivity].
  cbn [self topics world calls]. by rewrite <- app_assoc.
Qed.

Lemma begin_round_unfold (i ei : Z) (h : list float) (s : State W) :
  begin_round i ei h s =
  let s0 := mkState (set_round_number (self s) (i + 1)) (topics s) (world s)
              (calls s) in
  match growth_check i ei h s0 with
  | (Py.Raise e, s1) => (Py.Raise e, s1)
  | (Py.Ok _, s1) =>
      let pick := random_choice (topics s1) (world s1) in
      (pick.1, mkState (self s1) (topics s1) pick.2 (calls s1))
  end.
Proof.
  unfold begin_round, bind, modify_self, get_topics, on_world_result, set_round_number.
  cbv zeta. destruct (growth_check i ei h _) as [[[]|e] s1]; [|reflexivity].
  by destruct (random_choice (topics s1) (world s1)).
Qed.

Lemma simulation_round_unfold (n ei i : Z) (h : list float) (s : State W) :
  simulation_round n ei i h s =
  match begin_round i ei h s with
  | (Py.Raise e, s1) => (Py.Raise e, s1)
  | (Py.Ok current_topic, s1) =>
      match run_interaction_round current_topic "medium" n s1 with
      | (Py.Raise e, s2) => (Py.Raise e, s2)
      | (Py.Ok (Some rd), s2) => evolution_check i ei (h ++ [reward rd]) s2
      | (Py.Ok None, s2) => evolution_check i ei h s2
      end
  end.
Proof.
  unfold simulation_round, bind.
  destruct (begin_round i ei h s) as [[t|e] s1]; [|reflexivity].
  by destruct (run_interaction_round t "medium" n s1) as [[[rd|]|e] s2].
Qed.

(** A round that returns the empty result leaves the environment object
    (policy, results, round number) and the curriculum as they were. *)
Lemma skipped_round_keeps_env (topic difficulty : string) (n : Z) (s s' : State W) :
  run_interaction_round topic difficulty n s = (Py.Ok None, s') ->
  self s' = self s /\ topics s' = topics s.
Proof.
  rewrite run_interaction_round_unfold. cbv zeta.
  destruct (has_error_marker _); [by intros [= <-]|].
  destruct (choose_action _ _ _) as [[a|e] w2]; [|done].
  destruct (has_error_marker _); [by intros [= <-]|].
  destruct (has_error_marker _); [by intros [= <-]|done].
Qed.

(** C3. When the teacher's problem, the student's solution or the
    teacher's evaluation carries the error marker, [run_interaction_round]
    returns the empty result, and the state it leaves shows that nothing
    after the failing step ran: the environment object (the policy's table
    and the results sequence) is the one the round started with, the world
    is the one the failing call returned, and the agent calls recorded are
    those up to the failing call. In [run_simulation], an iteration whose
    round returns the empty result hands the unchanged reward window to the
    evolution check. *)
Theorem failed_round_is_skipped (topic difficulty : string) (n : Z) (s : State W) :
  let env := self s in
  let gen := generate_learning_material topic difficulty (world s) in
  let c1 := calls s ++ [CallGenerateLearningMaterial topic difficulty] in
  (has_error_marker gen.1 = true ->
   run_interaction_round topic difficulty n s
   = (Py.Ok None, mkState env (topics s) gen.2 c1))
  /\ (forall action w2,
        has_error_marker gen.1 = false ->
        choose_action (q_learner env) topic gen.2 = (Py.Ok action, w2) ->
        let sol := solve_problem (student env) gen.1 w2 in
        let c2 := c1 ++ [CallSolveProblem gen.1] in
        (has_error_marker sol.1 = true ->
         run_interaction_round topic difficulty n s
         = (Py.Ok None, mkState env (topics s) sol.2 c2))
        /\ (has_error_marker sol.1 = false ->
            let ev := evaluate_student_response gen.1 sol.1 sol.2 in
            has_error_marker ev.1 = true ->
            run_interaction_round topic difficulty n s
            = (Py.Ok None,
               mkState env (topics s) ev.2
                 (c2 ++ [CallEvaluateStudentResponse gen.1 sol.1]))))
  /\ (forall i ei h s0 s',
        begin_round i ei h s0 = (Py.Ok topic, s) ->
        run_interaction_round topic "medium" n s = (Py.Ok None, s') ->
        simulation_round n ei i h s0 = evolution_check i ei h s'
        /\ q_learner (self s') = q_learner (self s)
        /\ simulation_results (self s') = simulation_results (self s)).
Proof.
  cbv zeta. split_and!.
  - intros Hg. rewrite run_interaction_round_unfold. cbv zeta. by rewrite Hg.
  - intros action w2 Hg Hc. split.
    + intros Hs. rewrite run_interaction_round_unfold. cbv zeta.
      by rewrite Hg, Hc, Hs.
    + intros Hs He. rewrite run_interaction_round_unfold. cbv zeta.
      by rewrite Hg, Hc, Hs, He.
  - intros i ei h s0 s' Hb Hr.
    destruct (skipped_round_keeps_env _ _ _ _ _ Hr) as [-> _].
    split; [|done]. by rewrite simulation_round_unfold, Hb, Hr.
Qed.

(** C9. Two executions of a round that differ only in the action the policy
    returns (the policies may differ, the world after the choice is the
    same) make the same agent calls with the same arguments, among them
    [solve_problem] on the problem text alone, leave the same world, and
    either both return the empty result or both return a record; the two
    records hold the same student response, feedback and reward and differ
    in the recorded action only. *)
Theorem student_attempt_ignores_action (topic difficulty : string) (n : Z)
  (s : State W) (q' : QLearningFramework) (a a' : string) (w2 : W) :
  let gen := generate_learning_material topic difficulty (world s) in
  has_error_marker gen.1 = false ->
  choose_action (q_learner (self s)) topic gen.2 = (Py.Ok a, w2) ->
  choose_action q' topic gen.2 = (Py.Ok a', w2) ->
  let r := run_interaction_round topic difficulty n s in
  let r' := run_interaction_round topic difficulty n (with_policy s q') in
  let sol := solve_problem (student (self s)) gen.1 w2 in
  (exists rest,
     calls r.2 = calls s ++ [CallGenerateLearningMaterial topic difficulty;
                             CallSolveProblem gen.1] ++ rest
     /\ calls r'.2 = calls r.2
     /\ Forall (fun c => forall p, c <> CallSolveProblem p) rest)
  /\ world r.2 = world r'.2
  /\ match r.1, r'.1 with
     | Py.Ok None, Py.Ok None => True
     | Py.Ok (Some rd), Py.Ok (Some rd') =>
         student_response rd = sol.1 /\ student_response rd' = sol.1
         /\ student_action rd = a /\ student_action rd' = a'
         /\ same_but_action rd rd'
     | _, _ => False
     end.
Proof.
  intros gen Hg Hc Hc' r r' sol. subst r r'.
  rewrite !run_interaction_round_unfold. cbv zeta.
  cbn [with_policy self topics world calls student q_learner].
  fold gen. rewrite Hg, Hc, Hc'. fold sol.
  destruct (has_error_marker sol.1).
  { cbn [fst snd calls world]. split_and!; try done.
    exists []. rewrite <- app_assoc. by split_and!. }
  destruct (has_error_marker (evaluate_student_response gen.1 sol.1 sol.2).1).
  { cbn [fst snd calls world]. split_and!; try done.
    eexists [_]. rewrite <- !app_assoc. split_and!; try done.
    by repeat constructor. }
  cbn [fst snd calls world]. split_and!; try done.
  eexists [_; _]. rewrite <- !app_assoc. split_and!; try done.
  by repeat constructor.
Qed.

(** C10. The failure test on a text returned by an agent is the
    case-sensitive search for "Error": a text counts as a failure exactly
    when it is [pre + "Error" + post]. A round returns the empty result
    exactly when the problem, the student's response or the feedback holds
    the marker, and otherwise returns its record; a synthesized topic is
    appended exactly when it is non-empty, holds no marker and is new. The
    student's own failure text holds the marker, a response the model did
    produce is passed on as it is and tested all the same, so a legitimate
    text that mentions "Error" counts as a failure, and a failure text in
    another case ("error", "ERROR") counts as a success. *)
Theorem error_marker_is_the_substring_Error (topic difficulty : string) (n : Z)
  (s : State W) :
  let env := self s in
  let gen := generate_learning_material topic difficulty (world s) in
  (forall text,
     has_error_marker text = true
     <-> exists pre post, text = pre +:+ "Error" +:+ post)
  /\ (forall action w2,
        choose_action (q_learner env) topic gen.2 = (Py.Ok action, w2) ->
        let sol := solve_problem (student env) gen.1 w2 in
        let ev := evaluate_student_response gen.1 sol.1 sol.2 in
        let failed := has_error_marker gen.1 || has_error_marker sol.1
                      || has_error_marker ev.1 in
        (run_interaction_round topic difficulty n s).1
        = if failed then Py.Ok None
          else Py.Ok (Some (completed_round env topic difficulty gen.1 action
                              sol.1 ev.1)))
  /\ (forall h,
        let current_topic := default "general knowledge" (last (topics s)) in
        let new_topic :=
          (synthesize_new_topic current_topic (performance_summary h) (world s)).1 in
        topics (synthesize_step h s).2
        = if Py.truthy new_topic && negb (has_error_marker new_topic)
             && negb (bool_decide (new_topic ∈ topics s))
          then topics s ++ [new_topic] else topics s)
  /\ (forall st problem w,
        let out := solve_problem st problem w in
        has_error_marker out.1 = true
        \/ exists prompt r w',
             generate_response prompt (student_model st) w = (Some r, w')
             /\ out = (r, w'))
  /\ has_error_marker "Error: Could not generate student response." = true
  /\ has_error_marker "A Type I Error is a false positive." = true
  /\ has_error_marker "error: could not generate a problem" = false
  /\ has_error_marker "ERROR" = false.
Proof.
  cbv zeta. split_and!; try reflexivity.
  - intros text. apply str_in_spec.
  - intros action w2 Hc. rewrite run_interaction_round_unfold. cbv zeta.
    destruct (has_error_marker _); [done|]. rewrite Hc.
    destruct (has_error_marker _); [done|].
    by destruct (has_error_marker _).
  - intros h. by rewrite synthesize_step_unfold.
  - intros st problem w. unfold solve_problem.
    destruct (generate_response _ _ w) as [[r|] w'] eqn:E; [|by left].
    destruct (Py.truthy r); [|by left].
    right. by eexists _, r, w'.
Qed.

End RoundFacts.

(** ** Summary statistics *)

(** C8. On an empty results sequence [get_summary_statistics] returns the
    zero summary (0 rounds, 0.0 for the three rewards, no topic). On a
    non-empty one it returns the number of records, the arithmetic mean of
    the recorded rewards (their sum from the left, starting at 0.0, divided
    by their number), the results of [min] and [max] on the recorded
    rewards (the least and the greatest of them, rewards being numbers), and
    the set of the topics of the records. The mean of a single reward is
    that reward, and the mean of 1.0, 0.5 and -1.5 is 0.0. *)
Theorem summary_statistics_spec (env : LearningEnvironment) :
  let results := simulation_results env in
  let rewards := map reward results in
  let st := get_summary_statistics env in
  (results = [] -> st = zero_summary)
  /\ (results <> [] ->
      total_rounds st = Z.of_nat (length results)
      /\ average_reward st = arithmetic_mean rewards
      /\ average_reward st
         = (fold_left PrimFloat.add rewards 0
            / PrimFloat.of_uint63 (Uint63.of_Z (total_rounds st)))%float
      /\ Py.min rewards = Py.Ok (min_reward st)
      /\ Py.max rewards = Py.Ok (max_reward st)
      /\ (Forall PyFloat.is_number rewards ->
          is_minimum (min_reward st) rewards /\ is_maximum (max_reward st) rewards)
      /\ (forall t, t ∈ unique_topics_covered st
                    <-> exists rd, rd ∈ results /\ topic rd = t))
  /\ (forall r, r ∈ reward_values -> arithmetic_mean [r] = r)
  /\ arithmetic_mean [1; 0.5; -1.5]%float = 0%float.
Proof.
  cbv zeta. split_and!.
  - unfold get_summary_statistics. by destruct (simulation_results env).
  - unfold get_summary_statistics.
    destruct (simulation_results env) as [|res rest]; [done|]. intros _.
    cbn [total_rounds average_reward min_reward max_reward unique_topics_covered].
    split_and!.
    + reflexivity.
    + apply mean_arithmetic.
    + rewrite mean_arithmetic. unfold arithmetic_mean. by rewrite length_map.
    + reflexivity.
    + reflexivity.
    + intros Hn. split; [by apply min_from_spec | by apply max_from_spec].
    + intros t. rewrite elem_of_list_to_set, elem_of_map.
      split; [intros [rd [-> Hrd]]; by exists rd | intros [rd [Hrd <-]]; by exists rd].
  - intros r Hr. unfold reward_values in Hr.
    repeat (apply elem_of_cons in Hr as [->|Hr]);
      [vm_compute; reflexivity .. | by apply elem_of_nil in Hr].
  - vm_compute. reflexivity.
Qed.

(** ** The simulation loop *)

Section SimulationFacts.

Context `{World W}.

Lemma count_app (kind : Call -> bool) (l k : list Call) :
  count kind (l ++ k) = (count kind l + count kind k)%nat.
Proof. unfold count. by rewrite List.filter_app, length_app. Qed.

Lemma new_calls_trans (s1 s2 s3 : State W) (l k : list Call) :
  new_calls s1 s2 l -> new_calls s2 s3 k -> new_calls s1 s3 (l ++ k).
Proof. unfold new_calls. intros -> ->. by rewrite app_assoc. Qed.

Lemma new_calls_count (kind : Call -> bool) (s s' : State W) (l : list Call) :
  new_calls s s' l -> count kind (calls s') = (count kind (calls s) + count kind l)%nat.
Proof. unfold new_calls. intros ->. apply count_app. Qed.

(** The calls of a round are the four pipeline calls, none of them a topic
    synthesis or an evolution. *)
Lemma run_interaction_round_calls (topic difficulty : string) (n : Z) (s : State W) :
  exists added,
    new_calls s (run_interaction_round topic difficulty n s).2 added
    /\ count is_synthesize added = 0%nat
    /\ count is_teacher_evolve added = 0%nat
    /\ count is_student_evolve added = 0%nat.
Proof.
  rewrite run_interaction_round_unfold. cbv zeta. unfold new_calls.
  destruct (has_error_marker _); [by eexists [_]|].
  destruct (choose_action _ _ _) as [[a|e] w2]; [|by eexists [_]].
  destruct (has_error_marker _).
  { eexists [_; _]. cbn [snd calls]. by rewrite <- !app_assoc. }
  destruct (has_error_marker _).
  { eexists [_; _; _]. cbn [snd calls]. by rewrite <- !app_assoc. }
  eexists [_; _; _; _]. cbn [snd calls]. by rewrite <- !app_assoc.
Qed.

Lemma growth_check_ok (i ei : Z) (h : list float) (s : State W) :
  2 <= ei ->
  growth_check i ei h s
  = if growth_fires i ei then synthesize_step h s else (Py.Ok tt, s).
Proof.
  intros Hei. rewrite growth_check_unfold. unfold growth_fires.
  assert ((ei / 2 =? 0) = false) as ->.
  { apply Z.eqb_neq. assert (1 <= ei / 2) by (apply Z.div_le_lower_bound; lia). lia. }
  by destruct (0 <? i).
Qed.

Lemma evolution_check_calls (i ei : Z) (h : list float) (s : State W) :
  exists added,
    new_calls s (evolution_check i ei h s).2 added
    /\ count is_synthesize added = 0%nat.
Proof.
  rewrite evolution_check_unfold. unfold new_calls.
  destruct (ei =? 0); [exists []; by rewrite app_nil_r|].
  destruct (_ && _); [by eexists [_; _] | exists []; by rewrite app_nil_r].
Qed.

Lemma accepts_topic_spec (ts : list string) (t : string) :
  accepts_topic ts t = true
  <-> Py.truthy t = true /\ has_error_marker t = false /\ t ∉ ts.
Proof.
  unfold accepts_topic.
  rewrite !andb_true_iff, !negb_true_iff, bool_decide_eq_false. tauto.
Qed.

(** What the steps around the round keep and change. *)
Lemma synthesize_step_frame (h : list float) (s : State W) :
  let s' := (synthesize_step h s).2 in
  (synthesize_step h s).1 = Py.Ok tt
  /\ self s' = self s
  /\ extends_curriculum (topics s) (topics s')
  /\ new_calls s s'
       [CallSynthesizeNewTopic (default "general knowledge" (last (topics s)))
          (performance_summary h)].
Proof.
  rewrite synthesize_step_unfold. cbv zeta. cbn [fst snd self topics calls].
  split_and!; try done.
  destruct (accepts_topic _ _) eqn:E; [|by left].
  right. eexists. split; [reflexivity|]. by apply accepts_topic_spec.
Qed.

Lemma begin_round_frame (i ei : Z) (h : list float) (s : State W) :
  let s' := (begin_round i ei h s).2 in
  self s' = set_round_number (self s) (i + 1)
  /\ extends_curriculum (topics s) (topics s')
  /\ (exists added, new_calls s s' added
                    /\ count is_teacher_evolve added = 0%nat
                    /\ count is_student_evolve added = 0%nat
                    /\ (2 <= ei ->
                        count is_synthesize added
                        = if growth_fires i ei then 1%nat else 0%nat)).
Proof.
  rewrite begin_round_unfold. cbv zeta. rewrite growth_check_unfold.
  set (s0 := mkState _ _ _ _).
  assert (Hsame : self s0 = set_round_number (self s) (i + 1)
                  /\ extends_curriculum (topics s) (topics s0)
                  /\ exists added, new_calls s s0 added
                       /\ count is_teacher_evolve added = 0%nat
                       /\ count is_student_evolve added = 0%nat
                       /\ count is_synthesize added = 0%nat).
  { split_and!; [done | by left |]. exists []. unfold new_calls.
    by rewrite app_nil_r. }
  unfold growth_fires.
  destruct (0 <? i).
  2:{ cbn [fst snd self topics calls andb].
      destruct Hsame as (? & ? & added & ? & ? & ? & ?).
      split_and!; try done. exists added. by split_and!. }
  destruct (ei / 2 =? 0) eqn:Ez.
  { cbn [fst snd self topics calls andb].
    destruct Hsame as (? & ? & added & ? & ? & ? & ?).
    split_and!; try done. exists added. split_and!; try done.
    intros Hei. apply Z.eqb_eq in Ez.
    assert (1 <= ei / 2) by (apply Z.div_le_lower_bound; lia). lia. }
  cbn [andb]. destruct (i mod (ei / 2) =? 0).
  2:{ cbn [fst snd self topics calls].
      destruct Hsame as (? & ? & added & ? & ? & ? & ?).
      split_and!; try done. exists added. by split_and!. }
  destruct (synthesize_step_frame h s0) as (Hr & Hself & Hext & Hcalls).
  destruct (synthesize_step h s0) as [r s1]. cbn [fst snd] in *. subst r.
  cbn [fst snd self topics calls].
  split_and!; [done | done |]. eexists. by split_and!.
Qed.

Lemma evolution_check_frame (i ei : Z) (h : list float) (s : State W) :
  let s' := (evolution_check i ei h s).2 in
  self s' = self s /\ topics s' = topics s.
Proof.
  rewrite evolution_check_unfold.
  destruct (ei =? 0); [done|]. by destruct (_ && _).
Qed.

Lemma run_interaction_round_frame (topic difficulty : string) (n : Z) (s : State W) :
  let r := run_interaction_round topic difficulty n s in
  topics r.2 = topics s
  /\ match r.1 with
     | Py.Ok (Some rd) =>
         simulation_results (self r.2) = simulation_results (self s) ++ [rd]
         /\ PyFloat.is_number (reward rd)
     | _ => self r.2 = self s
     end.
Proof.
  rewrite run_interaction_round_unfold. cbv zeta.
  destruct (has_error_marker _); [done|].
  destruct (choose_action _ _ _) as [[a|e] w2]; [|done].
  destruct (has_error_marker _); [done|].
  destruct (has_error_marker _); [done|].
  cbn [fst snd topics self env_after_round simulation_results completed_round reward].
  split_and!; try done. apply reward_is_number.
Qed.

Lemma simulation_round_synthesize_count (n ei i : Z) (h : list float) (s : State W) :
  2 <= ei ->
  count is_synthesize (calls (simulation_round n ei i h s).2)
  = (count is_synthesize (calls s) + if growth_fires i ei then 1 else 0)%nat.
Proof.
  intros Hei. rewrite simulation_round_unfold.
  destruct (begin_round_frame i ei h s) as (_ & _ & added & Hc & _ & _ & Hn).
  specialize (Hn Hei). rewrite <- Hn.
  destruct (begin_round i ei h s) as [[t|e] s1]; cbn [snd] in *;
    [|by apply new_calls_count].
  destruct (run_interaction_round_calls t "medium" n s1) as (l & Hl & Hl0 & _).
  destruct (run_interaction_round t "medium" n s1) as [[[rd|]|e] s2];
    cbn [snd] in *.
  - destruct (evolution_check_calls i ei (h ++ [reward rd]) s2) as (k & Hk & Hk0).
    rewrite (new_calls_count _ _ _ _ Hk), (new_calls_count _ _ _ _ Hl),
      (new_calls_count _ _ _ _ Hc). lia.
  - destruct (evolution_check_calls i ei h s2) as (k & Hk & Hk0).
    rewrite (new_calls_count _ _ _ _ Hk), (new_calls_count _ _ _ _ Hl),
      (new_calls_count _ _ _ _ Hc). lia.
  - rewrite (new_calls_count _ _ _ _ Hl), (new_calls_count _ _ _ _ Hc). lia.
Qed.

Lemma loop_synthesize_count (n ei : Z) (k : nat) :
  2 <= ei ->
  forall start h (s : State W) h' s',
    for_range (simulation_round n ei) start k h s = (Py.Ok h', s') ->
    count is_synthesize (calls s')
    = (count is_synthesize (calls s)
       + length (List.filter (fun i => growth_fires i ei) (indices start k)))%nat.
Proof.
  intros Hei. induction k as [|k IH]; intros start h s h' s'.
  - intros [= _ <-]. cbn. lia.
  - cbn [for_range indices List.filter]. unfold bind at 1.
    pose proof (simulation_round_synthesize_count n ei start h s Hei) as Hs.
    destruct (simulation_round n ei start h s) as [[h1|e] s1]; [|done].
    intros Hrest%IH. cbn [snd] in Hs. rewrite Hrest, Hs.
    destruct (growth_fires start ei); cbn [length]; lia.
Qed.

(** C5, as the code has it: for every evolution interval of at least 2 the
    curriculum-growth check of round index [i] is well defined (it returns,
    with no division by zero) and asks the teacher for a new topic exactly
    when [i > 0] and [i mod floor(evolution_interval / 2) = 0]; each
    iteration of the loop makes one such request or none accordingly, so a
    run that completes has made one per index that satisfies the guard; for
    an interval of 2 the guard holds at every index after the first. *)
Theorem growth_check_cadence (n ei i : Z) (h : list float) (s : State W) :
  2 <= ei ->
  let asked :=
    CallSynthesizeNewTopic (default "general knowledge" (last (topics s)))
      (performance_summary h) in
  (growth_fires i ei = true <-> 0 < i /\ i mod (ei / 2) = 0)
  /\ (growth_check i ei h s).1 = Py.Ok tt
  /\ new_calls s (growth_check i ei h s).2
       (if growth_fires i ei then [asked] else [])
  /\ count is_synthesize (calls (simulation_round n ei i h s).2)
     = (count is_synthesize (calls s) + if growth_fires i ei then 1 else 0)%nat
  /\ (forall rounds h' s',
        simulation_loop n ei rounds s = (Py.Ok h', s') ->
        count is_synthesize (calls s')
        = (count is_synthesize (calls s)
           + length (List.filter (fun j => growth_fires j ei) (indices 0 rounds)))%nat)
  /\ (ei = 2 -> growth_fires i ei = (0 <? i)).
Proof.
  intros Hei asked. split_and!.
  - unfold growth_fires. rewrite andb_true_iff, Z.ltb_lt, Z.eqb_eq. tauto.
  - rewrite growth_check_ok by done.
    destruct (growth_fires i ei); [apply synthesize_step_frame | done].
  - rewrite growth_check_ok by done.
    destruct (growth_fires i ei); [apply synthesize_step_frame|].
    unfold new_calls. by rewrite app_nil_r.
  - by apply simulation_round_synthesize_count.
  - intros rounds h' s'. by apply loop_synthesize_count.
  - intros ->. unfold growth_fires. change (2 / 2) with 1.
    rewrite Z.mod_1_r. apply andb_true_r.
Qed.

(** *** The curriculum *)

Lemma simulation_round_curriculum (n ei i : Z) (h : list float) (s : State W) :
  extends_curriculum (topics s) (topics (simulation_round n ei i h s).2).
Proof.
  rewrite simulation_round_unfold.
  destruct (begin_round_frame i ei h s) as (_ & Hext & _).
  destruct (begin_round i ei h s) as [[t|e] s1]; cbn [snd] in *; [|done].
  destruct (run_interaction_round_frame t "medium" n s1) as [Ht _].
  destruct (run_interaction_round t "medium" n s1) as [[[rd|]|e] s2];
    cbn [snd] in *; rewrite <- Ht in Hext; try done.
  - by destruct (evolution_check_frame i ei (h ++ [reward rd]) s2) as [_ ->].
  - by destruct (evolution_check_frame i ei h s2) as [_ ->].
Qed.

Lemma for_range_curriculum (n ei : Z) (k : nat) :
  forall start h (s : State W),
    rtc extends_curriculum (topics s)
      (topics (for_range (simulation_round n ei) start k h s).2).
Proof.
  induction k as [|k IH]; intros start h s; [apply rtc_refl|].
  cbn [for_range]. unfold bind at 1.
  pose proof (simulation_round_curriculum n ei start h s) as Hstep.
  destruct (simulation_round n ei start h s) as [[h1|e] s1]; cbn [snd] in *.
  - eapply rtc_l; [exact Hstep | apply IH].
  - by apply rtc_once.
Qed.


(** What a sequence of such changes amounts to. *)
Lemma grown_curriculum (ts ts' : list string) :
  rtc extends_curriculum ts ts' ->
  ts `prefix_of` ts'
  /\ (length ts <= length ts')%nat
  /\ (NoDup ts -> NoDup ts')
  /\ (forall t, t ∈ ts' ->
        t ∈ ts \/ (Py.truthy t = true /\ has_error_marker t = false)).
Proof.
  induction 1 as [ts|ts ts1 ts' Hstep _ IH].
  - split_and!; [done | done | done | by left].
  - destruct IH as (Hpre & Hlen & Hnd & Hin).
    destruct Hstep as [-> | (t & -> & Ht & Hm & Hnew)]; [done|].
    split_and!.
    + etrans; [|exact Hpre]. by apply prefix_app_r.
    + rewrite length_app in Hlen. cbn in Hlen. lia.
    + intros Hts. apply Hnd. apply NoDup_app. split_and!; [done | |apply NoDup_singleton].
      intros x Hx ->%list_elem_of_singleton. done.
    + intros x Hx. destruct (Hin x Hx) as [[Hold | ->%list_elem_of_singleton]%elem_of_app | Hok];
        [by left | by right | by right].
Qed.


(** *** The results sequence *)

Lemma simulation_round_results (n ei i : Z) (h : list float) (s : State W) :
  let s' := (simulation_round n ei i h s).2 in
  exists new, simulation_results (self s') = simulation_results (self s) ++ new
              /\ Forall (fun rd => reward rd ∈ reward_values) new.
Proof.
  rewrite simulation_round_unfold.
  destruct (begin_round_frame i ei h s) as (Hself & _).
  destruct (begin_round i ei h s) as [[t|e] s1]; cbn [snd] in *.
  2:{ exists []. rewrite Hself, app_nil_r. by split. }
  assert (Hround : exists new,
             simulation_results (self (run_interaction_round t "medium" n s1).2)
             = simulation_results (self s) ++ new
             /\ Forall (fun rd => reward rd ∈ reward_values) new).
  { rewrite run_interaction_round_unfold. cbv zeta.
    destruct (has_error_marker _);
      [exists []; rewrite app_nil_r; cbn [snd self]; by rewrite Hself|].
    destruct (choose_action _ _ _) as [[a|e] w2];
      [|exists []; rewrite app_nil_r; cbn [snd self]; by rewrite Hself].
    destruct (has_error_marker _);
      [exists []; rewrite app_nil_r; cbn [snd self]; by rewrite Hself|].
    destruct (has_error_marker _);
      [exists []; rewrite app_nil_r; cbn [snd self]; by rewrite Hself|].
    eexists [_]. cbn [snd self env_after_round simulation_results].
    rewrite Hself. split; [reflexivity|].
    constructor; [apply reward_in_range | constructor]. }
  destruct (run_interaction_round t "medium" n s1) as [[[rd|]|e] s2];
    cbn [snd] in *; [| |done].
  - by destruct (evolution_check_frame i ei (h ++ [reward rd]) s2) as [-> _].
  - by destruct (evolution_check_frame i ei h s2) as [-> _].
Qed.

(** X3. The results sequence is append-only: after any number of rounds it is
    the initial sequence followed by the records of the completed rounds,
    each with a reward among the seven values of the extractor. *)
Theorem results_are_append_only (n ei : Z) (rounds : nat) (s : State W) :
  let s' := (simulation_loop n ei rounds s).2 in
  exists new, simulation_results (self s') = simulation_results (self s) ++ new
              /\ (length new <= rounds)%nat
              /\ Forall (fun rd => reward rd ∈ reward_values) new.
Proof.
  unfold simulation_loop. generalize 0 at 1. generalize (@nil float).
  revert s. induction rounds as [|k IH]; intros s h start.
  - exists []. rewrite app_nil_r. by split_and!.
  - cbn [for_range]. unfold bind at 1.
    destruct (simulation_round_results n ei start h s) as (new1 & Hres1 & Hin1).
    assert (Hlen1 : (length new1 <= 1)%nat).
    { revert Hres1. rewrite simulation_round_unfold.
      destruct (begin_round_frame start ei h s) as (Hself & _).
      destruct (begin_round start ei h s) as [[t|e] s1]; cbn [snd] in *.
      2:{ rewrite Hself. cbn [simulation_results set_round_number].
          intros Hnew. apply (f_equal length) in Hnew.
          rewrite length_app in Hnew. lia. }
      destruct (run_interaction_round_frame t "medium" n s1) as [_ Hr].
      destruct (run_interaction_round t "medium" n s1) as [[[rd|]|e] s2];
        cbn [fst snd] in *.
      - destruct (evolution_check_frame start ei (h ++ [reward rd]) s2) as [-> _].
        destruct Hr as [-> _]. rewrite Hself.
        cbn [simulation_results set_round_number].
        intros Hnew%app_inv_head. by subst new1.
      - destruct (evolution_check_frame start ei h s2) as [-> _].
        rewrite Hr, Hself. cbn [simulation_results set_round_number].
        intros Hnew. apply (f_equal length) in Hnew.
        rewrite length_app in Hnew. lia.
      - rewrite Hr, Hself. cbn [simulation_results set_round_number].
        intros Hnew. apply (f_equal length) in Hnew.
        rewrite length_app in Hnew. lia. }
    destruct (simulation_round n ei start h s) as [[h1|e] s1]; cbn [snd] in *.
    + destruct (IH s1 h1 (start + 1)) as (new2 & Hres2 & Hlen2 & Hin2).
      exists (new1 ++ new2). rewrite Hres2, Hres1, app_assoc.
      split_and!; [done | rewrite length_app; lia | by apply Forall_app].
    + exists new1. split_and!; [done | lia | done].
Qed.

(** *** Evolution points *)

Lemma evolution_check_ok (i ei : Z) (h : list float) (s : State W) :
  ei <> 0 ->
  evolution_check i ei h s =
  if evolution_fires i ei h then
    (Py.Ok [],
     mkState (self s) (topics s)
       (student_evolve (student (self s)) (mean h) (teacher_evolve (mean h) (world s)))
       (calls s ++ [CallTeacherEvolve (mean h); CallStudentEvolve (mean h)]))
  else (Py.Ok h, s).
Proof.
  intros Hei%Z.eqb_neq. by rewrite evolution_check_unfold, Hei.
Qed.

(** An iteration that returns: what it did to the results, the window and
    the record of evolution calls. *)
Lemma simulation_round_outcome (n ei i : Z) (h h1 : list float) (s s1 : State W) :
  ei <> 0 ->
  simulation_round n ei i h s = (Py.Ok h1, s1) ->
  exists round_data,
    let window := window_after_round h round_data in
    let fires := evolution_fires i ei window in
    simulation_results (self s1)
    = simulation_results (self s) ++ option_list round_data
    /\ h1 = (if fires then [] else window)
    /\ count is_teacher_evolve (calls s1)
       = (count is_teacher_evolve (calls s) + if fires then 1 else 0)%nat
    /\ count is_student_evolve (calls s1)
       = (count is_student_evolve (calls s) + if fires then 1 else 0)%nat
    /\ (fires = true ->
        exists before,
          calls s1 = before ++ [CallTeacherEvolve (mean window);
                                CallStudentEvolve (mean window)]
          /\ count is_teacher_evolve before = count is_teacher_evolve (calls s)
          /\ count is_student_evolve before = count is_student_evolve (calls s)).
Proof.
  intros Hei. rewrite simulation_round_unfold.
  destruct (begin_round_frame i ei h s) as (Hself & _ & added & Hc & Ht & Hs & _).
  destruct (begin_round i ei h s) as [[t|e] s0]; cbn [snd] in *; [|done].
  destruct (run_interaction_round_calls t "medium" n s0) as (l & Hl & _ & Hlt & Hls).
  destruct (run_interaction_round_frame t "medium" n s0) as [_ Hres].
  destruct (run_interaction_round t "medium" n s0) as [[round_data|e] s2];
    cbn [fst snd] in *; [|by destruct e].
  assert (Hresults : simulation_results (self s2)
                     = simulation_results (self s) ++ option_list round_data).
  { destruct round_data as [rd|]; cbn [option_list].
    - destruct Hres as [-> _]. by rewrite Hself.
    - rewrite Hres, Hself, app_nil_r. done. }
  assert (Hte : count is_teacher_evolve (calls s2) = count is_teacher_evolve (calls s)).
  { rewrite (new_calls_count _ _ _ _ Hl), (new_calls_count _ _ _ _ Hc). lia. }
  assert (Hse : count is_student_evolve (calls s2) = count is_student_evolve (calls s)).
  { rewrite (new_calls_count _ _ _ _ Hl), (new_calls_count _ _ _ _ Hc). lia. }
  intros Hev. exists round_data. cbv zeta.
  assert (Hev' : evolution_check i ei (window_after_round h round_data) s2
                 = (Py.Ok h1, s1)) by (by destruct round_data).
  clear Hev. rewrite evolution_check_ok in Hev' by done.
  destruct (evolution_fires i ei _).
  - injection Hev' as <- <-. cbn [self calls].
    rewrite !count_app, Hte, Hse. split_and!; try done.
    intros _. by eexists.
  - injection Hev' as <- <-. split_and!; try done; lia.
Qed.

Lemma succ_div_mod (a ei : Z) :
  0 < ei -> 0 <= a ->
  ((a + 1) mod ei = 0 /\ (a + 1) / ei = a / ei + 1)
  \/ ((a + 1) mod ei = a mod ei + 1 /\ (a + 1) / ei = a / ei
      /\ (a + 1) mod ei <> 0).
Proof.
  intros Hei Ha.
  pose proof (Z.div_mod a ei ltac:(lia)) as Hdm.
  pose proof (Z.mod_pos_bound a ei Hei) as Hb.
  destruct (decide (a mod ei + 1 = ei)) as [Hfull|Hpart].
  - left. split.
    + symmetry. apply (Z.mod_unique _ _ (a / ei + 1)); [lia|nia].
    + symmetry. apply (Z.div_unique _ _ _ 0); [lia|nia].
  - right.
    assert (Hm : (a + 1) mod ei = a mod ei + 1).
    { symmetry. apply (Z.mod_unique _ _ (a / ei)); [lia|nia]. }
    split_and!; [done | | lia].
    symmetry. apply (Z.div_unique _ _ _ (a mod ei + 1)); [lia|nia].
Qed.

Lemma loop_results_bound (n ei : Z) (k : nat) :
  ei <> 0 ->
  forall start h (s : State W) h' s',
    for_range (simulation_round n ei) start k h s = (Py.Ok h', s') ->
    (length (simulation_results (self s'))
     <= length (simulation_results (self s)) + k)%nat.
Proof.
  intros Hei. induction k as [|k IH]; intros start h s h' s'.
  - intros [= _ <-]. lia.
  - cbn [for_range]. unfold bind at 1.
    destruct (simulation_round n ei start h s) as [[h1|e] s1] eqn:E; [|done].
    intros Hrest%IH.
    destruct (simulation_round_outcome _ _ _ _ _ _ _ Hei E) as (rd & Hres & _).
    rewrite Hres, length_app in Hrest. destruct rd; cbn in Hrest; lia.
Qed.

(** A loop in which every round is recorded: the window holds
    [i mod evolution_interval] rewards before round [i], and the agents
    have evolved once per completed interval. *)
Lemma loop_evolve_count (n ei : Z) (k : nat) :
  0 < ei ->
  forall start h (s : State W) h' s',
    0 <= start ->
    Z.of_nat (length h) = start mod ei ->
    for_range (simulation_round n ei) start k h s = (Py.Ok h', s') ->
    length (simulation_results (self s'))
    = (length (simulation_results (self s)) + k)%nat ->
    Z.of_nat (length h') = (start + Z.of_nat k) mod ei
    /\ Z.of_nat (count is_teacher_evolve (calls s'))
       = Z.of_nat (count is_teacher_evolve (calls s))
         + ((start + Z.of_nat k) / ei - start / ei)
    /\ Z.of_nat (count is_student_evolve (calls s'))
       = Z.of_nat (count is_student_evolve (calls s))
         + ((start + Z.of_nat k) / ei - start / ei).
Proof.
  intros Hei. assert (Hne : ei <> 0) by lia.
  induction k as [|k IH]; intros start h s h' s' Hstart Hlen.
  - intros [= <- <-] _. rewrite Z.add_0_r. split_and!; [done | lia | lia].
  - cbn [for_range]. unfold bind at 1.
    destruct (simulation_round n ei start h s) as [[h1|e] s1] eqn:E; [|done].
    intros Hrest Hall.
    destruct (simulation_round_outcome _ _ _ _ _ _ _ Hne E)
      as (rd & Hres & Hh1 & Hte & Hse & _).
    pose proof (loop_results_bound n ei k Hne _ _ _ _ _ Hrest) as Hbound.
    rewrite Hres, length_app in Hbound.
    destruct rd as [rd|]; cbn in Hbound; [|lia].
    cbn [window_after_round] in *.
    assert (Hfires : evolution_fires start ei (h ++ [reward rd])
                     = ((start + 1) mod ei =? 0)).
    { unfold evolution_fires. rewrite length_app. cbn [length].
      replace (0 <? Z.of_nat (length h + 1)) with true; [apply andb_true_r|].
      symmetry. apply Z.ltb_lt. lia. }
    rewrite Hfires in *.
    assert (Hh1len : Z.of_nat (length h1) = (start + 1) mod ei
                     /\ ((start + 1) / ei - start / ei
                         = if (start + 1) mod ei =? 0 then 1 else 0)).
    { destruct (succ_div_mod start ei Hei Hstart) as [[Hm Hd] | (Hm & Hd & Hnz)].
      - rewrite Hm in *. cbn in Hh1. subst h1. split; [done | cbn; lia].
      - apply Z.eqb_neq in Hnz. rewrite Hnz in *. subst h1.
        rewrite length_app. cbn [length]. lia. }
    destruct Hh1len as [Hh1len Hdiv].
    destruct (IH (start + 1) h1 s1 h' s' ltac:(lia) Hh1len Hrest) as (Hl' & Ht' & Hs').
    { rewrite Hall, Hres, length_app. cbn. lia. }
    replace (start + Z.of_nat (S k)) with (start + 1 + Z.of_nat k) by lia.
    split_and!; [done | |].
    + rewrite Ht', Hte. destruct ((start + 1) mod ei =? 0); lia.
    + rewrite Hs', Hse. destruct ((start + 1) mod ei =? 0); lia.
Qed.

(** C6. With a positive evolution interval, the evolution check at the end
    of round [i] calls [evolve] on the teacher and then on the student,
    with the arithmetic mean of the reward window (its rewards added from
    the left to 0.0, divided by their number), exactly when
    [(i + 1) mod evolution_interval = 0] and the window is non-empty, and
    then hands an empty window to the next round; otherwise it calls
    neither and keeps the window. An iteration makes no other evolution
    call. Hence a run whose rounds are all recorded evolves each agent
    [floor(num_rounds / evolution_interval)] times: twice each for 4 rounds
    and an interval of 2. *)
Theorem evolve_at_interval_ends (n ei i : Z) (h : list float) (s : State W) :
  0 < ei ->
  let fires := ((i + 1) mod ei =? 0) && negb (bool_decide (h = [])) in
  let mean_reward := arithmetic_mean h in
  evolution_check i ei h s
  = (if fires then
       (Py.Ok [],
        mkState (self s) (topics s)
          (student_evolve (student (self s)) mean_reward
             (teacher_evolve mean_reward (world s)))
          (calls s ++ [CallTeacherEvolve mean_reward;
                       CallStudentEvolve mean_reward]))
     else (Py.Ok h, s))
  /\ (forall h1 s1,
        simulation_round n ei i h s = (Py.Ok h1, s1) ->
        exists round_data,
          let window := window_after_round h round_data in
          let fires := evolution_fires i ei window in
          h1 = (if fires then [] else window)
          /\ count is_teacher_evolve (calls s1)
             = (count is_teacher_evolve (calls s) + if fires then 1 else 0)%nat
          /\ count is_student_evolve (calls s1)
             = (count is_student_evolve (calls s) + if fires then 1 else 0)%nat
          /\ (fires = true ->
              exists before,
                calls s1 = before ++ [CallTeacherEvolve (arithmetic_mean window);
                                      CallStudentEvolve (arithmetic_mean window)]
                /\ count is_teacher_evolve before = count is_teacher_evolve (calls s)
                /\ count is_student_evolve before = count is_student_evolve (calls s)))
  /\ arithmetic_mean [1; 0.5]%float = 0.75%float
  /\ (forall results s',
        0 <= n ->
        run_simulation n ei s = (Py.Ok results, s') ->
        length results = (length (simulation_results (self s)) + Z.to_nat n)%nat ->
        Z.of_nat (count is_teacher_evolve (calls s'))
        = Z.of_nat (count is_teacher_evolve (calls s)) + n / ei
        /\ Z.of_nat (count is_student_evolve (calls s'))
           = Z.of_nat (count is_student_evolve (calls s)) + n / ei)
  /\ (forall results s',
        run_simulation 4 2 s = (Py.Ok results, s') ->
        length results = (length (simulation_results (self s)) + 4)%nat ->
        count is_teacher_evolve (calls s')
        = (count is_teacher_evolve (calls s) + 2)%nat
        /\ count is_student_evolve (calls s')
           = (count is_student_evolve (calls s) + 2)%nat).
Proof.
  intros Hei fires mean_reward. subst mean_reward. assert (Hne : ei <> 0) by lia.
  assert (Hrun : forall m e results s',
            0 < e -> 0 <= m ->
            run_simulation m e s = (Py.Ok results, s') ->
            length results = (length (simulation_results (self s)) + Z.to_nat m)%nat ->
            Z.of_nat (count is_teacher_evolve (calls s'))
            = Z.of_nat (count is_teacher_evolve (calls s)) + m / e
            /\ Z.of_nat (count is_student_evolve (calls s'))
               = Z.of_nat (count is_student_evolve (calls s)) + m / e).
  { intros m e results s' He Hm. unfold run_simulation, simulation_loop, bind, get_self, ret.
    destruct (for_range _ 0 (Z.to_nat m) [] s) as [[h'|e'] s1] eqn:E; [|done].
    intros [= <- <-] Hall.
    destruct (loop_evolve_count m e (Z.to_nat m) He 0 [] s h' s1 ltac:(lia)
                ltac:(by rewrite Z.mod_0_l by lia) E Hall) as (_ & Ht & Hs).
    rewrite Z.add_0_l, Z2Nat.id, Z.div_0_l, Z.sub_0_r in Ht, Hs by lia. done. }
  split_and!.
  - rewrite evolution_check_ok by lia. unfold evolution_fires. subst fires.
    rewrite (mean_arithmetic h).
    replace (0 <? Z.of_nat (length h)) with (negb (bool_decide (h = []))); [done|].
    destruct h; [done|]. cbn [length]. symmetry.
    rewrite bool_decide_eq_false_2 by done. apply Z.ltb_lt. lia.
  - intros h1 s1 E.
    destruct (simulation_round_outcome _ _ _ _ _ _ _ Hne E)
      as (rd & _ & ? & ? & ? & Hlast).
    exists rd. split_and!; [done | done | done |].
    intros Hfires. destruct (Hlast Hfires) as (before & Hcalls & ? & ?).
    exists before. rewrite <- mean_arithmetic. by split_and!.
  - vm_compute. reflexivity.
  - intros results s' Hn. by apply Hrun.
  - intros results s' E Hall.
    destruct (Hrun 4 2 results s' ltac:(lia) ltac:(lia) E Hall) as [Ht Hs].
    change (4 / 2) with 2 in *. lia.
Qed.

End SimulationFacts.

(** ** Action selection at its edges *)

Section ChooseEdgeFacts.

Context `{World W}.
Import PyFloat PyFloatFacts.
Local Open Scope float_scope.

Lemma random_choice_elem {A : Type} (seq : list A) (w w' : W) (x : A) :
  random_choice seq w = (Py.Ok x, w') -> x ∈ seq.
Proof.
  unfold random_choice. destruct seq as [|y seq]; [done|].
  destruct (randbelow _ w) as [k w1].
  destruct ((y :: seq) !! k) as [z|] eqn:E; [|done].
  intros [= <- _]. by eapply list_elem_of_lookup_2.
Qed.

(** What [random.choice] can raise is [IndexError], nothing else. *)
Lemma random_choice_raises {A : Type} (seq : list A) (w w' : W) (e : Py.exn) :
  random_choice seq w = (Py.Raise e, w') -> e = Py.IndexError.
Proof.
  unfold random_choice. destruct seq as [|y seq]; [by intros [= <- _]|].
  destruct (randbelow _ w) as [k w1].
  destruct ((y :: seq) !! k) as [z|]; [done | by intros [= <- _]].
Qed.

Lemma eqb_number (x y : float) : (x =? y) = true -> is_number x /\ is_number y.
Proof. intros [Hxy _]%eqb_leb. by apply leb_number. Qed.

Lemma ltb_number (x y : float) : (x <? y) = true -> is_number x /\ is_number y.
Proof. intros Hxy%ltb_leb. by apply leb_number. Qed.

(** [max] returns one of its arguments, also among NaNs. *)
Lemma max_from_elem (l : list float) : forall x, Py.max_from x l ∈ x :: l.
Proof.
  induction l as [|y l IH]; intros x; [left|].
  change (Py.max_from x (y :: l)) with (Py.max_from (if x <? y then y else x) l).
  destruct (x <? y).
  - right. apply IH.
  - specialize (IH x). apply elem_of_cons in IH as [->|Hin]; [left | right; by right].
Qed.

(** A candidate that is a number is only ever replaced by a number. *)
Lemma max_from_number (l : list float) : forall x,
  is_number x -> is_number (Py.max_from x l).
Proof.
  induction l as [|y l IH]; intros x Hx; [exact Hx|].
  change (Py.max_from x (y :: l)) with (Py.max_from (if x <? y then y else x) l).
  destruct (x <? y) eqn:E; apply IH; [|exact Hx].
  by apply ltb_number in E as [_ ?].
Qed.

(** A NaN candidate is never replaced: no value compares greater. *)
Lemma max_from_nan (l : list float) (x : float) :
  PrimFloat.is_nan x = true -> Py.max_from x l = x.
Proof.
  intros Hx. induction l as [|y l IH]; [reflexivity|].
  change (Py.max_from x (y :: l)) with (Py.max_from (if x <? y then y else x) l).
  destruct (x <? y) eqn:E; [|exact IH].
  apply ltb_number in E as [Hn _]. unfold is_number in Hn. congruence.
Qed.

(** The first key of the dict built from a list is its first element. *)
Lemma remove_dups_snoc (l : list string) (a : string) :
  exists k, remove_dups (l ++ [a]) = k ++ [a].
Proof.
  induction l as [|x l [k IH]].
  - by exists [].
  - cbn [app remove_dups]. destruct (decide_rel elem_of x (l ++ [a])).
    + by exists k.
    + exists (x :: k). by rewrite IH.
Qed.

Lemma dict_keys_head (a : string) (l : list string) :
  exists k, dict_keys (a :: l) = a :: k.
Proof.
  unfold dict_keys. rewrite reverse_cons.
  destruct (remove_dups_snoc (reverse l) a) as [k ->].
  exists (reverse k). by rewrite reverse_snoc.
Qed.

(** What [choose_action] can return and raise. *)
Lemma choose_action_outcome (q : QLearningFramework) (state : string) (w : W) :
  match (choose_action q state w).1 with
  | Py.Ok a => a ∈ actions q
  | Py.Raise e =>
      e = Py.IndexError \/ (e = Py.ValueError /\ actions q = [])
  end.
Proof.
  unfold choose_action. destruct (random_uniform 0 1 w) as [u w1].
  destruct (u <? epsilon q).
  - destruct (random_choice (actions q) w1) as [[a|e] w2] eqn:E; cbn [fst].
    + by eapply random_choice_elem.
    + left. by eapply random_choice_raises.
  - destruct (Py.max _) as [max_q|e] eqn:Emax.
    + destruct (random_choice _ w1) as [[a|e] w2] eqn:E; cbn [fst].
      * apply random_choice_elem in E. by apply best_actions_spec in E as [? _].
      * left. by eapply random_choice_raises.
    + cbn [fst]. right. rewrite values_for_state in Emax.
      destruct (dict_keys (actions q)) as [|a l] eqn:Ek; [|done].
      injection Emax as <-. split; [done|].
      destruct (actions q) as [|b l'] eqn:Ea; [done|].
      by apply (dict_keys_nonempty (b :: l')) in Ek.
Qed.

(** X4. Whatever epsilon, the table and the random generator are, an action
    returned by [choose_action] is one of the configured actions, and the
    only exceptions it can raise are [IndexError] and, on an empty action
    list, [ValueError]; with a non-empty action list and a [random.choice]
    that draws inside the sequence, the exploration branch always
    returns. *)
Theorem choose_action_within_actions (q : QLearningFramework) (state : string)
  (w : W) :
  match (choose_action q state w).1 with
  | Py.Ok a => a ∈ actions q
  | Py.Raise e =>
      (e = Py.IndexError \/ (e = Py.ValueError /\ actions q = []))
      /\ (actions q <> [] ->
          (forall n w', (0 < n)%nat -> ((randbelow n w').1 < n)%nat) ->
          ((random_uniform 0 1 w).1 <? epsilon q) = false)
  end.
Proof.
  pose proof (choose_action_outcome q state w) as Hout.
  destruct (choose_action q state w) as [[a|e] w'] eqn:E; cbn [fst] in *; [done|].
  split; [done|]. intros Hne Hlt. revert E. unfold choose_action.
  destruct (random_uniform 0 1 w) as [u w1]. cbn [fst].
  destruct (u <? epsilon q); [|done].
  destruct (random_choice_ok (actions q) w1 Hlt Hne) as [x [-> _]]. done.
Qed.

(** X5. With an empty action list [choose_action] never returns: the
    exploration branch raises [IndexError] (from [random.choice]) and the
    exploitation branch raises [ValueError] (from [max]). A round of an
    environment with such a policy therefore raises as soon as the teacher
    has produced a problem: the student is not asked, and nothing is
    recorded or learned. *)
Theorem choose_action_without_actions (q : QLearningFramework) (state : string)
  (w : W) :
  actions q = [] ->
  let raised := if (random_uniform 0 1 w).1 <? epsilon q
                then Py.IndexError else Py.ValueError in
  choose_action q state w = (Py.Raise raised, (random_uniform 0 1 w).2)
  /\ (forall topic difficulty n (s : State W),
        q_learner (self s) = q ->
        let gen := generate_learning_material topic difficulty (world s) in
        has_error_marker gen.1 = false ->
        exists e,
          run_interaction_round topic difficulty n s
          = (Py.Raise e,
             mkState (self s) (topics s) (random_uniform 0 1 gen.2).2
               (calls s ++ [CallGenerateLearningMaterial topic difficulty]))
          /\ (e = Py.IndexError \/ e = Py.ValueError)).
Proof.
  intros E raised.
  assert (Hchoose : forall state' w',
            choose_action q state' w'
            = (Py.Raise (if (random_uniform 0 1 w').1 <? epsilon q
                         then Py.IndexError else Py.ValueError),
               (random_uniform 0 1 w').2)).
  { intros state' w'. unfold choose_action.
    destruct (random_uniform 0 1 w') as [u w1]. cbn [fst snd].
    rewrite values_for_state, E. by destruct (u <? epsilon q). }
  split; [apply Hchoose|].
  intros topic difficulty n s Hq gen Hgen.
  rewrite run_interaction_round_unfold. cbv zeta. fold gen.
  rewrite Hgen, Hq, Hchoose. eexists. split; [reflexivity|].
  destruct ((random_uniform 0 1 gen.2).1 <? epsilon q); [by left | by right].
Qed.

(** The exploitation branch returns when the first action's value is a
    number, also when other actions hold NaN. *)
Lemma exploit_returns (q : QLearningFramework) (state : string) (w1 : W)
  (first : string) (others : list string) :
  actions q = first :: others ->
  (forall n w', (0 < n)%nat -> ((randbelow n w').1 < n)%nat) ->
  let value := _get_q_value q state in
  is_number (value first) ->
  exists a w' max_q,
    Py.max (map snd (q_values_for_state q state)) = Py.Ok max_q
    /\ random_choice (best_actions q state max_q) w1 = (Py.Ok a, w')
    /\ a ∈ actions q /\ is_number (value a) /\ (value a =? max_q) = true.
Proof.
  intros Ea Hlt value Hnum. rewrite values_for_state.
  destruct (dict_keys_head first others) as [k Ek]. rewrite <- Ea in Ek.
  rewrite Ek. cbn [map Py.max]. fold value.
  set (max_q := Py.max_from (value first) (map value k)).
  assert (Hmq : is_number max_q) by by apply max_from_number.
  assert (Htied : best_actions q state max_q <> []).
  { pose proof (max_from_elem (map value k) (value first)) as Hin.
    change (max_q ∈ map value (first :: k)) in Hin.
    apply elem_of_map in Hin as [b [Eb Hb]].
    assert (Hbin : b ∈ best_actions q state max_q).
    { apply best_actions_spec. split.
      - apply dict_keys_elem. by rewrite Ek.
      - fold value. rewrite <- Eb. apply eqb_leb. by split; apply leb_refl. }
    intros E. rewrite E in Hbin. by apply elem_of_nil in Hbin. }
  destruct (random_choice_ok _ w1 Hlt Htied) as [a [Hchoice Hlookup]].
  apply list_elem_of_lookup_2 in Hlookup.
  apply best_actions_spec in Hlookup as [Hact Heq]. fold value in Heq.
  exists a, (randbelow (length (best_actions q state max_q)) w1).2, max_q.
  split_and!; [done | done | done | by apply eqb_number in Heq as [? _] | done].
Qed.

(** With a first action whose value is a number, [choose_action] returns
    in either branch. *)
Lemma choose_action_returns (q : QLearningFramework) (state : string) (w : W)
  (first : string) (others : list string) :
  actions q = first :: others ->
  (forall n w', (0 < n)%nat -> ((randbelow n w').1 < n)%nat) ->
  is_number (_get_q_value q state first) ->
  exists a w', choose_action q state w = (Py.Ok a, w').
Proof.
  intros Ea Hlt Hnum. unfold choose_action.
  destruct (random_uniform 0 1 w) as [u w1]. destruct (u <? epsilon q).
  - destruct (random_choice_ok (actions q) w1 Hlt) as [a [-> _]];
      [by rewrite Ea | by eexists _, _].
  - destruct (exploit_returns q state w1 first others Ea Hlt Hnum)
      as (a & w' & max_q & -> & -> & _). by eexists _, _.
Qed.

(** X6. In the exploitation branch the value of the first action decides
    whether [choose_action] returns. When it is a number the call returns
    an action whose value is a number and equals the result of [max], even
    if other actions hold NaN; when it is NaN, [max] returns that NaN, no
    action's value equals it, the tied set is empty and [random.choice]
    raises [IndexError]. *)
Theorem choose_action_exploit_nan (q : QLearningFramework) (state : string)
  (w : W) (first : string) (others : list string) :
  actions q = first :: others ->
  ((random_uniform 0 1 w).1 <? epsilon q) = false ->
  (forall n w', (0 < n)%nat -> ((randbelow n w').1 < n)%nat) ->
  let value := _get_q_value q state in
  let w1 := (random_uniform 0 1 w).2 in
  (is_number (value first) ->
     exists a w' max_q,
       choose_action q state w = (Py.Ok a, w')
       /\ a ∈ actions q /\ is_number (value a)
       /\ Py.max (map value (dict_keys (actions q))) = Py.Ok max_q
       /\ (value a =? max_q) = true)
  /\ (PrimFloat.is_nan (value first) = true ->
      choose_action q state w = (Py.Raise Py.IndexError, w1)).
Proof.
  intros Ea Hu Hlt value w1. subst w1. unfold choose_action.
  destruct (random_uniform 0 1 w) as [u w1]. cbn [fst snd] in *. rewrite Hu.
  split.
  - intros Hnum.
    destruct (exploit_returns q state w1 first others Ea Hlt Hnum)
      as (a & w' & max_q & Hmax & Hchoice & Hact & Hn & Heq).
    exists a, w', max_q. rewrite Hmax, Hchoice.
    rewrite values_for_state in Hmax. by split_and!.
  - intros Hnan. rewrite values_for_state.
    destruct (dict_keys_head first others) as [k Ek]. rewrite <- Ea in Ek.
    rewrite Ek. cbn [map Py.max]. fold value.
    rewrite (max_from_nan _ _ Hnan).
    replace (best_actions q state (value first)) with (@nil string); [done|].
    symmetry. rewrite best_actions_filter. clear Ek.
    induction (dict_keys (actions q)) as [|b l IH]; [done|].
    rewrite filter_cons. destruct (decide _) as [Heq|_]; [|exact IH].
    apply eqb_number in Heq as [_ Hn]. unfold is_number in Hn. congruence.
Qed.

End ChooseEdgeFacts.

(** ** The results of a run as the log of its policy *)

Section RunLogFacts.

Context `{World W}.

Lemma replay_app (q : QLearningFramework) (l k : list RoundData) :
  replay q (l ++ k) = replay (replay q l) k.
Proof. apply fold_left_app. Qed.

(** Replaying records changes the table only. *)
Lemma replay_keeps (new : list RoundData) : forall q,
  actions (replay q new) = actions q /\ alpha (replay q new) = alpha q
  /\ gamma (replay q new) = gamma q /\ epsilon (replay q new) = epsilon q.
Proof.
  induction new as [|rd new IH]; intros q; [done|].
  cbn [replay fold_left]. fold (replay (update_q_value q (topic rd)
    (student_action rd) (reward rd) (Some (topic rd))) new).
  destruct (IH (update_q_value q (topic rd) (student_action rd) (reward rd)
                  (Some (topic rd)))) as (-> & -> & -> & ->).
  done.
Qed.

Lemma replay_keys (new : list RoundData) : forall q,
  dom (q_table (replay q new))
  = dom (q_table q) ∪ list_to_set (map (fun rd => (topic rd, student_action rd)) new).
Proof.
  induction new as [|rd new IH]; intros q.
  - cbn. by rewrite union_empty_r_L.
  - cbn [replay fold_left]. fold (replay (update_q_value q (topic rd)
      (student_action rd) (reward rd) (Some (topic rd))) new).
    rewrite IH. unfold update_q_value at 1. cbn [q_table map list_to_set].
    rewrite dom_insert_L, (comm_L (∪) {[ _ ]} (dom (q_table q))).
    by rewrite <- (assoc_L (∪)).
Qed.

Lemma record_of_round_mono (ts ts' acts : list string) (i : Z) (rd : RoundData) :
  ts `prefix_of` ts' -> record_of_round ts acts i rd -> record_of_round ts' acts i rd.
Proof.
  intros [k ->] (? & ? & ? & ? & ? & ? & ? & ?).
  unfold record_of_round. split_and!; try done.
  apply elem_of_app. by left.
Qed.

(** The topic of a round is drawn from the curriculum as the growth check
    left it. *)
Lemma begin_round_topic (i ei : Z) (h : list float) (s s1 : State W) (t : string) :
  begin_round i ei h s = (Py.Ok t, s1) -> t ∈ topics s1.
Proof.
  rewrite begin_round_unfold. cbv zeta.
  destruct (growth_check i ei h _) as [[[]|e] s0]; [|done].
  destruct (random_choice (topics s0) (world s0)) as [[x|e] w'] eqn:E; [|done].
  cbn [fst snd]. intros [= <- <-]. cbn [topics].
  by eapply random_choice_elem.
Qed.

Local Ltac no_record Hself :=
  exists []; cbn [fst snd self]; rewrite Hself, app_nil_r;
  split_and!; try done; cbn; lia.

(** One iteration: the record it adds, if any, and the policy it leaves. *)
Lemma simulation_round_log (n ei i : Z) (h : list float) (s : State W) :
  let s' := (simulation_round n ei i h s).2 in
  exists new,
    simulation_results (self s') = simulation_results (self s) ++ new
    /\ (length new <= 1)%nat
    /\ q_learner (self s') = replay (q_learner (self s)) new
    /\ student (self s') = student (self s)
    /\ current_round_number (self s') = i + 1
    /\ Forall (record_of_round (topics s') (actions (q_learner (self s))) i) new.
Proof.
  rewrite simulation_round_unfold.
  destruct (begin_round_frame i ei h s) as (Hself & _).
  destruct (begin_round i ei h s) as [[t|e] s1] eqn:Eb; cbn [snd] in *.
  2:{ exists []. rewrite Hself, app_nil_r. split_and!; try done. cbn; lia. }
  apply begin_round_topic in Eb.
  assert (Hround :
    let s2 := (run_interaction_round t "medium" n s1).2 in
    exists new,
      simulation_results (self s2) = simulation_results (self s) ++ new
      /\ (length new <= 1)%nat
      /\ q_learner (self s2) = replay (q_learner (self s)) new
      /\ student (self s2) = student (self s)
      /\ current_round_number (self s2) = i + 1
      /\ Forall (record_of_round (topics s2) (actions (q_learner (self s))) i) new
      /\ match (run_interaction_round t "medium" n s1).1 with
         | Py.Ok (Some rd) => new = [rd]
         | _ => new = []
         end).
  { rewrite run_interaction_round_unfold. cbv zeta.
    set (gen := generate_learning_material t "medium" (world s1)).
    destruct (has_error_marker gen.1) eqn:E1; [no_record Hself|].
    pose proof (choose_action_outcome (q_learner (self s1)) t gen.2) as Hact.
    destruct (choose_action _ _ _) as [[a|e] w2]; cbn [fst] in Hact;
      [|no_record Hself].
    set (sol := solve_problem (student (self s1)) gen.1 w2).
    destruct (has_error_marker sol.1) eqn:E2; [no_record Hself|].
    set (ev := evaluate_student_response gen.1 sol.1 sol.2).
    destruct (has_error_marker ev.1) eqn:E3; [no_record Hself|].
    eexists [_]. cbn [fst snd self topics env_after_round simulation_results
                      q_learner student current_round_number].
    rewrite Hself in *. cbn [set_round_number simulation_results q_learner
                             student current_round_number] in *.
    split_and!; try done.
    constructor; [|constructor]. unfold record_of_round, completed_round.
    cbn [round_number topic difficulty student_action problem student_response
         teacher_feedback reward current_round_number set_round_number].
    by split_and!. }
  cbv zeta in Hround. destruct Hround as (new & ? & ? & ? & ? & ? & ? & Hnew).
  destruct (run_interaction_round t "medium" n s1) as [[[rd|]|e] s2];
    cbn [fst snd] in *.
  - destruct (evolution_check_frame i ei (h ++ [reward rd]) s2) as [-> ->].
    exists new. by split_and!.
  - destruct (evolution_check_frame i ei h s2) as [-> ->].
    exists new. by split_and!.
  - exists new. by split_and!.
Qed.

Lemma StronglySorted_app_bound (l k : list RoundData) (b : Z) :
  StronglySorted by_round_number l -> StronglySorted by_round_number k ->
  Forall (fun rd => round_number rd <= b) l ->
  Forall (fun rd => b < round_number rd) k ->
  StronglySorted by_round_number (l ++ k).
Proof.
  intros Hl Hk Hlb Hkb. induction Hl as [|x l Hl IH Hx]; [done|].
  cbn [app]. inversion Hlb as [|? ? Hxb Hlb']; subst.
  constructor; [by apply IH|].
  apply Forall_app. split; [done|].
  eapply Forall_impl; [exact Hkb|]. intros rd Hrd. unfold by_round_number. cbn in *. lia.
Qed.

Lemma for_range_S {A : Type} (body : Z -> A -> M W A) (start : Z) (k : nat)
  (a : A) (s : State W) :
  for_range body start (S k) a s
  = match body start a s with
    | (Py.Ok a', s1) => for_range body (start + 1) k a' s1
    | (Py.Raise e, s1) => (Py.Raise e, s1)
    end.
Proof. reflexivity. Qed.

(** Any number of iterations. *)
Lemma for_range_log (n ei : Z) (k : nat) : forall start h (s : State W),
  let s' := (for_range (simulation_round n ei) start k h s).2 in
  exists new,
    simulation_results (self s') = simulation_results (self s) ++ new
    /\ (length new <= k)%nat
    /\ q_learner (self s') = replay (q_learner (self s)) new
    /\ student (self s') = student (self s)
    /\ Forall (fun rd => exists i, start <= i < start + Z.of_nat k
                 /\ record_of_round (topics s') (actions (q_learner (self s))) i rd)
         new
    /\ StronglySorted by_round_number new.
Proof.
  induction k as [|k IH]; intros start h s.
  { exists []. cbn. rewrite app_nil_r. split_and!; try done. constructor. }
  rewrite for_range_S.
  destruct (simulation_round_log n ei start h s)
    as (new1 & Hres1 & Hlen1 & Hq1 & Hst1 & Hno1 & Hrec1).
  destruct (simulation_round n ei start h s) as [[h1|e] s1]; cbn [snd] in *.
  2:{ exists new1. split_and!; [done | lia | done | done | |].
      - eapply Forall_impl; [exact Hrec1|]. intros rd Hrd. exists start.
        split; [lia | done].
      - destruct new1 as [|rd [|rd' new1]]; [constructor | | cbn in Hlen1; lia].
        by repeat constructor. }
  destruct (IH (start + 1) h1 s1) as (new2 & Hres2 & Hlen2 & Hq2 & Hst2 & Hrec2 & Hsort2).
  pose proof (for_range_curriculum n ei k (start + 1) h1 s1) as Hgrow.
  apply grown_curriculum in Hgrow as (Hpre & _).
  set (s' := (for_range (simulation_round n ei) (start + 1) k h1 s1).2) in *.
  destruct (replay_keeps new1 (q_learner (self s))) as (Hacts & _).
  exists (new1 ++ new2). split_and!.
  - by rewrite Hres2, Hres1, app_assoc.
  - rewrite length_app. lia.
  - by rewrite Hq2, Hq1, replay_app.
  - by rewrite Hst2.
  - apply Forall_app. split.
    + eapply Forall_impl; [exact Hrec1|]. intros rd Hrd. exists start.
      split; [lia|]. by eapply record_of_round_mono.
    + eapply Forall_impl; [exact Hrec2|]. intros rd (i & Hi & Hrd). exists i.
      split; [lia|]. by rewrite Hq1, Hacts in Hrd.
  - apply (StronglySorted_app_bound _ _ (start + 1)).
    + destruct new1 as [|rd [|rd' new1]]; [constructor | | cbn in Hlen1; lia].
      by repeat constructor.
    + done.
    + eapply Forall_impl; [exact Hrec1|]. intros rd (Hn & _). lia.
    + eapply Forall_impl; [exact Hrec2|]. intros rd (i & Hi & Hn & _). lia.
Qed.

Lemma run_simulation_loop (n ei : Z) (s : State W) :
  run_simulation n ei s
  = match simulation_loop n ei (Z.to_nat n) s with
    | (Py.Ok _, s') => (Py.Ok (simulation_results (self s')), s')
    | (Py.Raise e, s') => (Py.Raise e, s')
    end.
Proof.
  unfold run_simulation, bind, get_self, ret.
  by destruct (simulation_loop n ei (Z.to_nat n) s) as [[h1|e] s1].
Qed.

Lemma size_union_le (X Y : gset (string * string)) :
  (size (X ∪ Y) <= size X + size Y)%nat.
Proof.
  rewrite size_union_alt. apply Nat.add_le_mono_l, subseteq_size.
  apply subseteq_difference_l. done.
Qed.

Lemma size_list_to_set_le (l : list (string * string)) :
  (size (list_to_set l : gset (string * string)) <= length l)%nat.
Proof.
  induction l as [|x l IH]; [by rewrite list_to_set_nil, size_empty|].
  rewrite list_to_set_cons. etrans; [apply size_union_le|].
  rewrite size_singleton. cbn [length]. lia.
Qed.

(** X7. The results sequence is a complete log of the policy. After any
    number of iterations of the loop, whether it completed or raised, the
    policy is the initial one with [update_q_value] replayed once per new
    record, in order, on the record's (topic, action, reward) with the
    topic as next state: rounds that left no record left the table alone.
    The action list, alpha, gamma, epsilon and the student are those the
    run started with, and the keys of the table are the old keys and the
    (topic, action) pairs of the new records. *)
Theorem policy_replays_results (n ei : Z) (rounds : nat) (s : State W) :
  let s' := (simulation_loop n ei rounds s).2 in
  let q := q_learner (self s) in
  let q' := q_learner (self s') in
  exists new,
    simulation_results (self s') = simulation_results (self s) ++ new
    /\ q' = replay q new
    /\ (actions q', alpha q', gamma q', epsilon q')
       = (actions q, alpha q, gamma q, epsilon q)
    /\ student (self s') = student (self s)
    /\ dom (q_table q')
       = dom (q_table q)
         ∪ list_to_set (map (fun rd => (topic rd, student_action rd)) new)
    /\ (run_simulation n ei s).2 = (simulation_loop n ei (Z.to_nat n) s).2.
Proof.
  cbv zeta. unfold simulation_loop.
  destruct (for_range_log n ei rounds 0 [] s) as (new & Hres & _ & Hq & Hst & _).
  exists new. rewrite Hq.
  destruct (replay_keeps new (q_learner (self s))) as (-> & -> & -> & ->).
  split_and!; try done.
  - apply replay_keys.
  - rewrite run_simulation_loop. unfold simulation_loop.
    by destruct (for_range _ 0 (Z.to_nat n) [] s) as [[h1|e] s1].
Qed.

(** X8. Every record a run adds describes a round of that run: its number
    is the 1-based index of a loop iteration, its topic is in the
    curriculum the run leaves, its difficulty is "medium", its action is
    one of the configured actions, none of its three texts holds the error
    marker, and its reward is the extractor's value on its feedback. The
    new records are in strictly increasing order of round number, so no
    iteration is recorded twice. *)
Theorem records_describe_their_rounds (n ei : Z) (rounds : nat) (s : State W) :
  let s' := (simulation_loop n ei rounds s).2 in
  exists new,
    simulation_results (self s') = simulation_results (self s) ++ new
    /\ Forall (fun rd =>
                 exists i, 0 <= i < Z.of_nat rounds
                   /\ record_of_round (topics s') (actions (q_learner (self s)))
                        i rd) new
    /\ StronglySorted by_round_number new
    /\ NoDup (map round_number new).
Proof.
  cbv zeta. unfold simulation_loop.
  destruct (for_range_log n ei rounds 0 [] s) as (new & Hres & _ & _ & _ & Hrec & Hsort).
  exists new. split_and!; try done.
  clear Hres Hrec. induction Hsort as [|rd new Hsort IH Hrd]; [constructor|].
  cbn [map]. apply NoDup_cons. split; [|exact IH].
  intros [rd' [Heq Hin]]%elem_of_map.
  rewrite Forall_forall in Hrd. specialize (Hrd rd' Hin).
  unfold by_round_number in Hrd. lia.
Qed.

(** X9. The table stays within the curriculum: a key of the table after a
    run is an old key or pairs a topic of the final curriculum with a
    configured action, so the table holds at most
    [len(topics) * len(actions)] entries more than at the start. *)
Theorem q_table_within_curriculum (n ei : Z) (rounds : nat) (s : State W) :
  let s' := (simulation_loop n ei rounds s).2 in
  let q := q_learner (self s) in
  let q' := q_learner (self s') in
  (forall state action,
     (state, action) ∈ dom (q_table q') ->
     (state, action) ∈ dom (q_table q)
     \/ (state ∈ topics s' /\ action ∈ actions q))
  /\ (size (dom (q_table q'))
      <= size (dom (q_table q)) + length (topics s') * length (actions q))%nat.
Proof.
  cbv zeta. unfold simulation_loop.
  destruct (for_range_log n ei rounds 0 [] s) as (new & _ & _ & Hq & _ & Hrec & _).
  set (s' := (for_range (simulation_round n ei) 0 rounds [] s).2) in *.
  assert (Hkeys : forall state action,
            (state, action) ∈ dom (q_table (q_learner (self s'))) ->
            (state, action) ∈ dom (q_table (q_learner (self s)))
            \/ (state ∈ topics s' /\ action ∈ actions (q_learner (self s)))).
  { intros state action. rewrite Hq, replay_keys, elem_of_union.
    intros [Hold|Hnew]; [by left | right].
    apply elem_of_list_to_set, elem_of_map in Hnew as [rd [Heq Hin]].
    injection Heq as -> ->. rewrite Forall_forall in Hrec.
    destruct (Hrec rd Hin) as (i & _ & _ & ? & _ & ? & _). done. }
  split; [exact Hkeys|].
  etrans; [|apply Nat.add_le_mono_l;
            rewrite <- length_prod; apply size_list_to_set_le].
  etrans; [|apply size_union_le]. apply subseteq_size.
  intros [state action] Hin. apply elem_of_union.
  destruct (Hkeys state action Hin) as [Hold | [Ht Ha]]; [by left | right].
  apply elem_of_list_to_set, list_elem_of_In, in_prod_iff.
  by rewrite <- !list_elem_of_In.
Qed.

(** X10. What [run_simulation] returns is the results sequence of the
    environment. When the environment starts with no results and the run
    completes, the summary computed from it counts at most [num_rounds]
    rounds (none for a negative [num_rounds]), covers topics of the final
    curriculum only, and reports as least and greatest reward two of the
    seven values of the extractor, the least not above the greatest. *)
Theorem run_summary_within_bounds (n ei : Z) (s s' : State W)
  (results : list RoundData) :
  simulation_results (self s) = [] ->
  run_simulation n ei s = (Py.Ok results, s') ->
  let st := get_summary_statistics (self s') in
  results = simulation_results (self s')
  /\ 0 <= total_rounds st <= Z.max n 0
  /\ total_rounds st = Z.of_nat (length results)
  /\ unique_topics_covered st ⊆ list_to_set (topics s')
  /\ (results <> [] ->
      min_reward st ∈ reward_values /\ max_reward st ∈ reward_values
      /\ PrimFloat.leb (min_reward st) (max_reward st) = true).
Proof.
  intros Hempty. rewrite run_simulation_loop. unfold simulation_loop.
  destruct (for_range_log n ei (Z.to_nat n) 0 [] s)
    as (new & Hres & Hlen & _ & _ & Hrec & _).
  destruct (for_range _ 0 (Z.to_nat n) [] s) as [[h1|e] s1]; [|done].
  cbn [snd] in *. intros [= <- <-]. rewrite Hempty, app_nil_l in Hres.
  cbv zeta. unfold get_summary_statistics. rewrite Hres.
  destruct new as [|rd new].
  { cbn. split_and!; try done. lia. }
  cbn [total_rounds unique_topics_covered min_reward max_reward].
  assert (Hnum : Forall PyFloat.is_number (map reward (rd :: new))).
  { apply Forall_forall. intros x [rd' [-> Hin]]%elem_of_map.
    rewrite Forall_forall in Hrec.
    destruct (Hrec rd' Hin) as (i & _ & _ & _ & _ & _ & _ & _ & _ & ->).
    apply reward_is_number. }
  assert (Hval : forall x, x ∈ map reward (rd :: new) -> x ∈ reward_values).
  { intros x [rd' [-> Hin]]%elem_of_map. rewrite Forall_forall in Hrec.
    destruct (Hrec rd' Hin) as (i & _ & _ & _ & _ & _ & _ & _ & _ & ->).
    apply reward_in_range. }
  destruct (min_from_spec _ _ Hnum) as [Hmin_in Hmin_lb].
  destruct (max_from_spec _ _ Hnum) as [Hmax_in Hmax_ub].
  split_and!; [done | lia | cbn [length] in *; lia | done | |].
  - intros t [rd' [-> Hin]]%elem_of_list_to_set%elem_of_map.
    rewrite Forall_forall in Hrec.
    destruct (Hrec rd' Hin) as (i & _ & _ & ? & _). by apply elem_of_list_to_set.
  - intros _. split_and!; [by apply Hval | by apply Hval |].
    unfold lower_bound in Hmin_lb. rewrite Forall_forall in Hmin_lb.
    by apply Hmin_lb.
Qed.

End RunLogFacts.

(** ** The reward window and the metric of [evolve] *)

Section WindowFacts.

Context `{World W}.






End WindowFacts.

(** ** The loop at its edges *)

Section LoopEdgeFacts.

Context `{World W}.

(** X12. A run over an empty curriculum stops in its first iteration:
    [random.choice] raises [IndexError] on the empty list, after the round
    number was set to 1 and before any agent was called; the world and the
    record of calls are untouched. *)
Theorem empty_curriculum_raises (n ei : Z) (rounds : nat) (s : State W) :
  topics s = [] -> (0 < rounds)%nat ->
  let stopped := mkState (set_round_number (self s) 1) [] (world s) (calls s) in
  simulation_loop n ei rounds s = (Py.Raise Py.IndexError, stopped)
  /\ (0 < n -> run_simulation n ei s = (Py.Raise Py.IndexError, stopped)).
Proof.
  intros Hts Hrounds. cbv zeta.
  assert (Hloop : forall k, simulation_loop n ei (S k) s
            = (Py.Raise Py.IndexError,
               mkState (set_round_number (self s) 1) [] (world s) (calls s))).
  { intros k. unfold simulation_loop.
    rewrite for_range_S, simulation_round_unfold, begin_round_unfold.
    cbv zeta. rewrite growth_check_unfold. cbn [Z.ltb Z.compare topics].
    by rewrite Hts. }
  split.
  - destruct rounds as [|k]; [lia | apply Hloop].
  - intros Hn. rewrite run_simulation_loop.
    destruct (Z.to_nat n) as [|k] eqn:E; [lia|]. by rewrite Hloop.
Qed.

Lemma half_interval_zero (ei : Z) : ei / 2 = 0 <-> 0 <= ei <= 1.
Proof. rewrite Z.div_small_iff by lia. lia. Qed.

(** An iteration raises [ZeroDivisionError] from its two checks only. *)
Lemma simulation_round_no_zero_division (n ei i : Z) (h : list float)
  (s : State W) :
  ei < 0 \/ 2 <= ei ->
  (simulation_round n ei i h s).1 <> Py.Raise Py.ZeroDivisionError.
Proof.
  intros Hei.
  assert (Hhalf : (ei / 2 =? 0) = false).
  { apply Z.eqb_neq. rewrite half_interval_zero. lia. }
  rewrite simulation_round_unfold, begin_round_unfold. cbv zeta.
  assert (Hgrowth : exists s0,
            growth_check i ei h
              (mkState (set_round_number (self s) (i + 1)) (topics s) (world s)
                 (calls s)) = (Py.Ok tt, s0)).
  { rewrite growth_check_unfold, Hhalf.
    destruct (0 <? i); [|eexists; reflexivity].
    destruct (i mod (ei / 2) =? 0); [|eexists; reflexivity].
    rewrite synthesize_step_unfold. eexists; reflexivity. }
  destruct Hgrowth as [s0 ->].
  destruct (random_choice (topics s0) (world s0)) as [[t|e] w1] eqn:Ec;
    cbn [fst snd].
  2:{ apply random_choice_raises in Ec as ->. done. }
  rewrite run_interaction_round_unfold. cbv zeta.
  cbn [self topics world calls].
  set (gen := generate_learning_material t "medium" w1).
  assert (Hev : forall h0 s2,
            (evolution_check i ei h0 s2).1 <> Py.Raise Py.ZeroDivisionError).
  { intros h0 s2. rewrite evolution_check_ok by lia.
    by destruct (evolution_fires i ei h0). }
  destruct (has_error_marker gen.1); [apply Hev|].
  pose proof (choose_action_outcome (q_learner (self s0)) t gen.2) as Hout.
  destruct (choose_action _ _ _) as [[a|e] w2]; cbn [fst] in Hout.
  2:{ cbn [fst]. by destruct Hout as [-> | [-> _]]. }
  destruct (has_error_marker _); [apply Hev|].
  destruct (has_error_marker _); apply Hev.
Qed.

(** X13. [ZeroDivisionError] comes from the evolution interval alone. The
    growth check of round index [i] raises it exactly when [i > 0] and the
    interval is 0 or 1 (the divisor [evolution_interval // 2] is then 0),
    and otherwise returns; the evolution check raises it exactly for an
    interval of 0. A loop with any other interval, negative ones included,
    never raises it, whatever the agents and the random generator do; with
    an interval of 0 no loop of one round or more completes, and with an
    interval of 1 no loop of two rounds or more. *)
Theorem zero_division_from_interval_only (n ei : Z) (rounds : nat)
  (s : State W) :
  (forall i h s0,
     (growth_check i ei h s0).1
     = if (0 <? i) && (0 <=? ei) && (ei <=? 1)
       then Py.Raise Py.ZeroDivisionError else Py.Ok tt)
  /\ (forall i h s0,
        (evolution_check i ei h s0).1 = Py.Raise Py.ZeroDivisionError
        <-> ei = 0)
  /\ (ei < 0 \/ 2 <= ei ->
      (simulation_loop n ei rounds s).1 <> Py.Raise Py.ZeroDivisionError)
  /\ (ei = 0 -> (1 <= rounds)%nat ->
      exists e, (simulation_loop n ei rounds s).1 = Py.Raise e)
  /\ (ei = 1 -> (2 <= rounds)%nat ->
      exists e, (simulation_loop n ei rounds s).1 = Py.Raise e).
Proof.
  split_and!.
  - intros i h s0. rewrite growth_check_unfold.
    destruct (0 <? i); [|done]. cbn [andb].
    destruct (ei / 2 =? 0) eqn:E.
    + apply Z.eqb_eq, half_interval_zero in E.
      by rewrite (proj2 (Z.leb_le 0 ei)), (proj2 (Z.leb_le ei 1)) by lia.
    + apply Z.eqb_neq in E. rewrite half_interval_zero in E.
      replace ((0 <=? ei) && (ei <=? 1)) with false.
      * destruct (i mod (ei / 2) =? 0); [|done]. by rewrite synthesize_step_unfold.
      * symmetry. apply andb_false_iff. rewrite Z.leb_gt, Z.leb_gt. lia.
  - intros i h s0. rewrite evolution_check_unfold.
    destruct (ei =? 0) eqn:E.
    + apply Z.eqb_eq in E. done.
    + apply Z.eqb_neq in E. by destruct (_ && _).
  - intros Hei. unfold simulation_loop. generalize 0 at 1. generalize (@nil float).
    revert s. induction rounds as [|k IH]; intros s h start; [done|].
    rewrite for_range_S.
    pose proof (simulation_round_no_zero_division n ei start h s Hei) as Hround.
    destruct (simulation_round n ei start h s) as [[h1|e] s1]; [apply IH | done].
  - intros -> Hrounds. unfold simulation_loop.
    destruct rounds as [|k]; [lia|]. rewrite for_range_S, simulation_round_unfold.
    destruct (begin_round 0 0 [] s) as [[t|e] s1]; [|eexists; reflexivity].
    assert (Hev : forall h0 s2,
              evolution_check 0 0 h0 s2 = (Py.Raise Py.ZeroDivisionError, s2)).
    { intros h0 s2. by rewrite evolution_check_unfold. }
    destruct (run_interaction_round t "medium" n s1) as [[[rd|]|e] s2];
      rewrite ?Hev; eexists; reflexivity.
  - intros -> Hrounds. unfold simulation_loop.
    destruct rounds as [|[|k]]; [lia | lia |]. rewrite for_range_S.
    destruct (simulation_round n 1 0 [] s) as [[h1|e] s1]; [|eexists; reflexivity].
    rewrite for_range_S, simulation_round_unfold, begin_round_unfold.
    cbv zeta. rewrite growth_check_unfold. cbn. eexists; reflexivity.
Qed.

(** X14. An iteration returns under the conditions the code relies on: a
    non-empty curriculum, an evolution interval other than 0 and 1, a
    non-empty action list whose first action holds a number at every
    state, and a [random.choice] that draws inside its sequence. The
    failures of the agents do not raise; they only leave the round
    unrecorded. The curriculum is still non-empty afterwards. *)
Theorem simulation_round_returns (n ei i : Z) (h : list float) (s : State W)
  (first : string) (others : list string) :
  topics s <> [] ->
  ei < 0 \/ 2 <= ei ->
  actions (q_learner (self s)) = first :: others ->
  (forall t, PyFloat.is_number (_get_q_value (q_learner (self s)) t first)) ->
  (forall k w', (0 < k)%nat -> ((randbelow k w').1 < k)%nat) ->
  exists h1 s1,
    simulation_round n ei i h s = (Py.Ok h1, s1)
    /\ topics s `prefix_of` topics s1 /\ topics s1 <> [].
Proof.
  intros Hts Hei Hacts Hnum Hlt.
  pose proof (simulation_round_curriculum n ei i h s) as Hgrow.
  apply rtc_once, grown_curriculum in Hgrow as (Hpre & Hlen & _).
  assert (Hne : topics (simulation_round n ei i h s).2 <> []).
  { intros E. rewrite E in Hlen. destruct (topics s); [done | cbn in Hlen; lia]. }
  assert (Hok : exists h1, (simulation_round n ei i h s).1 = Py.Ok h1).
  { assert (Hhalf : (ei / 2 =? 0) = false).
    { apply Z.eqb_neq. rewrite half_interval_zero. lia. }
    rewrite simulation_round_unfold, begin_round_unfold. cbv zeta.
    assert (Hgrowth : exists s0,
              growth_check i ei h
                (mkState (set_round_number (self s) (i + 1)) (topics s) (world s)
                   (calls s)) = (Py.Ok tt, s0)
              /\ topics s0 <> [] /\ self s0 = set_round_number (self s) (i + 1)).
    { rewrite growth_check_unfold, Hhalf.
      destruct (0 <? i); [|eexists; split; [reflexivity | by split]].
      destruct (i mod (ei / 2) =? 0); [|eexists; split; [reflexivity | by split]].
      rewrite synthesize_step_unfold. cbv zeta. eexists. split; [reflexivity|].
      cbn [topics self]. split; [|done].
      destruct (accepts_topic _ _); [|done]. by destruct (topics s). }
    destruct Hgrowth as (s0 & -> & Hts0 & Hself0).
    destruct (random_choice_ok (topics s0) (world s0) Hlt Hts0) as [t [-> _]].
    cbn [fst snd]. rewrite run_interaction_round_unfold. cbv zeta.
    cbn [self topics world calls]. rewrite Hself0.
    cbn [set_round_number q_learner student].
    set (gen := generate_learning_material t "medium" _).
    assert (Hev : forall h0 s2, exists h1, (evolution_check i ei h0 s2).1 = Py.Ok h1).
    { intros h0 s2. rewrite evolution_check_ok by lia.
      destruct (evolution_fires i ei h0); eexists; reflexivity. }
    destruct (has_error_marker gen.1); [apply Hev|].
    destruct (choose_action_returns (q_learner (self s)) t gen.2 first others
                Hacts Hlt (Hnum t)) as (a & w2 & ->).
    destruct (has_error_marker _); [apply Hev|].
    destruct (has_error_marker _); apply Hev. }
  destruct Hok as [h1 Hh1].
  destruct (simulation_round n ei i h s) as [r s1]. cbn [fst snd] in *. subst r.
  by exists h1, s1.
Qed.





End LoopEdgeFacts.

(** ** The language-model client *)

Section ClientFacts.

Context `{World W} `{Ollama W}.

(** The loop over the chunks appends their texts in order. *)
Lemma fold_add_chunk (chunks : list Chunk) : forall text,
  fold_left Client.add_chunk chunks text
  = text +:+ concatenation (omap chunk_response chunks).
Proof.
  induction chunks as [|chunk chunks IH]; intros text.
  - cbn. by rewrite string_app_nil_r.
  - cbn [fold_left]. rewrite IH.
    change (omap chunk_response (chunk :: chunks))
      with (match chunk_response chunk with
            | Some r => r :: omap chunk_response chunks
            | None => omap chunk_response chunks
            end).
    unfold Client.add_chunk. destruct chunk as [entries|]; [|done].
    cbn [chunk_response]. destruct (entries !! "response") as [r|]; [|done].
    cbn [concatenation fold_right]. by rewrite string_app_assoc.
Qed.

Lemma omap_no_response (chunks : list Chunk) :
  Forall (fun chunk => chunk_response chunk = None) chunks ->
  omap chunk_response chunks = [].
Proof.
  induction 1 as [|chunk chunks Hc _ IH]; [done|].
  change (omap chunk_response (chunk :: chunks))
    with (match chunk_response chunk with
          | Some r => r :: omap chunk_response chunks
          | None => omap chunk_response chunks
          end).
  by rewrite Hc.
Qed.

(** X16. When the server answers and [generate] hands back a stream that
    completes, [generate_response] returns the texts under the key
    "response" of the chunks that are dicts, concatenated in order; chunks
    that are not dicts, or have no such key, are skipped. An empty
    concatenation gives [None]: a streamed response is never the empty
    string. The request is made to the model asked for, or to the
    client's own when none or an empty one is asked for. *)
Theorem streamed_response_is_concatenation (c : OllamaClient)
  (prompt : string) (model_arg : option string) (w w1 w2 : W)
  (chunks : list Chunk) :
  ollama_list w = (Some tt, w1) ->
  ollama_generate (Client.target_model c model_arg) prompt w1
  = (Some (GeneratedStream chunks true), w2) ->
  let text := concatenation (omap chunk_response chunks) in
  let result := Client.generate_response c prompt model_arg w in
  result = (if Py.truthy text then Some text else None, w2)
  /\ result.1 <> Some EmptyString
  /\ (Forall (fun chunk => chunk_response chunk = None) chunks -> result.1 = None)
  /\ (model_arg = None \/ model_arg = Some EmptyString ->
      Client.target_model c model_arg = model c)
  /\ (forall m, model_arg = Some m -> m <> EmptyString ->
        Client.target_model c model_arg = m).
Proof.
  intros Hlist Hgen text result.
  assert (Hres : result = (if Py.truthy text then Some text else None, w2)).
  { subst result. unfold Client.generate_response, Client.is_ollama_running.
    rewrite Hlist. cbn [negb]. rewrite Hgen, fold_add_chunk. done. }
  split_and!.
  - exact Hres.
  - rewrite Hres. cbn [fst]. by destruct text.
  - intros Hnone. rewrite Hres. cbn [fst].
    subst text. by rewrite omap_no_response.
  - by intros [-> | ->].
  - intros m -> Hm. cbn. by destruct m.
Qed.

(** X17. A request of the student that the client cannot serve abandons
    the round. When the client returns [None] or the empty string for the
    prompt of [solve_problem], the student returns its error text and
    [run_interaction_round] returns the empty result: the teacher is not
    asked to evaluate, and the policy, the results and the curriculum are
    as before. This is the case when [list()] raises (the server is not
    reachable; [generate] is then not called, the world is the one [list()]
    left), when [generate] raises, and when the stream breaks or carries
    no text. *)
Theorem client_failure_skips_round (c : OllamaClient) (topic difficulty : string)
  (n : Z) (s : State W) (action : string) (w2 w3 : W) (r : option string) :
  let gen := generate_learning_material topic difficulty (world s) in
  let request := Client.generate_response c (solve_prompt gen.1)
                   (Some (student_model (student (self s)))) in
  has_error_marker gen.1 = false ->
  choose_action (q_learner (self s)) topic gen.2 = (Py.Ok action, w2) ->
  request w2 = (r, w3) ->
  r = None \/ r = Some EmptyString ->
  solve_problem (H := student_via_client c) (student (self s)) gen.1 w2
  = ("Error: Could not generate student response.", w3)
  /\ run_interaction_round (H := student_via_client c) topic difficulty n s
     = (Py.Ok None,
        mkState (self s) (topics s) w3
          (calls s ++ [CallGenerateLearningMaterial topic difficulty;
                       CallSolveProblem gen.1]))
  /\ (forall w', ollama_list w2 = (None, w') -> request w2 = (None, w'))
  /\ (forall w1 w' m,
        ollama_list w2 = (Some tt, w1) ->
        ollama_generate m (solve_prompt gen.1) w1 = (None, w') ->
        m = Client.target_model c (Some (student_model (student (self s)))) ->
        request w2 = (None, w'))
  /\ (forall w1 w' m chunks completes,
        ollama_list w2 = (Some tt, w1) ->
        ollama_generate m (solve_prompt gen.1) w1
        = (Some (GeneratedStream chunks completes), w') ->
        m = Client.target_model c (Some (student_model (student (self s)))) ->
        completes = false
        \/ Forall (fun chunk => chunk_response chunk = None) chunks ->
        request w2 = (None, w')).
Proof.
  intros gen request Hgen Hchoice Hreq Hr.
  assert (Hsolve :
    solve_problem (H := student_via_client c) (student (self s)) gen.1 w2
    = ("Error: Could not generate student response.", w3)).
  { unfold solve_problem. cbn [generate_response student_via_client].
    fold (solve_prompt gen.1). fold request. rewrite Hreq.
    by destruct Hr as [-> | ->]. }
  split_and!.
  - exact Hsolve.
  - rewrite run_interaction_round_unfold. cbv zeta.
    cbn [generate_learning_material student_via_client]. fold gen.
    rewrite Hgen.
    change (choose_action (H := student_via_client c) (q_learner (self s)) topic gen.2)
      with (choose_action (q_learner (self s)) topic gen.2).
    rewrite Hchoice, Hsolve. cbn [fst snd].
    change (has_error_marker "Error: Could not generate student response.")
      with true. cbn iota. by rewrite <- app_assoc.
  - intros w' Hlist. subst request.
    unfold Client.generate_response, Client.is_ollama_running. by rewrite Hlist.
  - intros w1 w' m Hlist Hm ->. subst request.
    unfold Client.generate_response, Client.is_ollama_running.
    rewrite Hlist. cbn [negb]. by rewrite Hm.
  - intros w1 w' m chunks completes Hlist Hm -> Hbad. subst request.
    unfold Client.generate_response, Client.is_ollama_running.
    rewrite Hlist. cbn [negb]. rewrite Hm, fold_add_chunk.
    destruct Hbad as [-> | Hnone]; [done|].
    rewrite omap_no_response by done. by destruct completes.
Qed.

End ClientFacts.

(** ** The topics of a request *)

Section AppFacts.

Lemma split_nonempty (sep : ascii) (s : string) : App.split sep s <> [].
Proof.
  destruct s as [|c s]; [done|]. cbn [App.split].
  destruct (Ascii.eqb c sep); [done|]. by destruct (App.split sep s).
Qed.

Lemma concat_cons (sep x : string) (l : list string) :
  l <> [] -> String.concat sep (x :: l) = x +:+ sep +:+ String.concat sep l.
Proof. by destruct l. Qed.

Lemma concat_String (sep : string) (c : ascii) (x : string) (l : list string) :
  String.concat sep (String c x :: l) = String c (String.concat sep (x :: l)).
Proof. by destruct l. Qed.

Lemma split_concat (s : string) : String.concat "," (App.split "," s) = s.
Proof.
  induction s as [|c s IH]; [done|]. cbn [App.split].
  destruct (Ascii.eqb_spec c ",") as [->|Hc].
  - rewrite concat_cons by apply split_nonempty. by rewrite IH.
  - pose proof (split_nonempty "," s) as Hne.
    destruct (App.split "," s) as [|piece pieces]; [done|].
    by rewrite concat_String, IH.
Qed.

Lemma comma_free_String (c : ascii) (s : string) :
  comma_free (String c s) <-> c <> ","%char /\ comma_free s.
Proof.
  unfold comma_free. cbn [Py.str_in String.prefix].
  destruct (Ascii.ascii_dec "," c) as [<-|Hc].
  - destruct s; cbn; split; try done; by intros [? _].
  - cbn [orb]. split; [intros Hs; split; [congruence | done] | by intros [_ ?]].
Qed.

Lemma split_comma_free (s : string) : Forall comma_free (App.split "," s).
Proof.
  induction s as [|c s IH]; [by repeat constructor|]. cbn [App.split].
  destruct (Ascii.eqb_spec c ",") as [->|Hc].
  - by constructor.
  - destruct (App.split "," s) as [|piece pieces].
    + constructor; [|constructor]. by apply comma_free_String.
    + inversion IH as [|? ? Hp Hps]; subst.
      constructor; [|done]. by apply comma_free_String.
Qed.

Lemma split_length (s : string) : length (App.split "," s) = S (commas s).
Proof.
  induction s as [|c s IH]; [done|]. cbn [App.split commas].
  destruct (Ascii.eqb c ","); cbn [length Nat.add]; [by rewrite IH|].
  destruct (App.split "," s) as [|piece pieces]; [done|]. exact IH.
Qed.

(** The pieces are determined by the text. *)
Lemma split_unique (l : list string) :
  l <> [] -> Forall comma_free l -> App.split "," (String.concat "," l) = l.
Proof.
  induction l as [|x l IH]; [done|]. intros _ Hfree.
  inversion Hfree as [|? ? Hx Hl]; subst.
  assert (Hhead : forall rest,
            App.split "," (x +:+ rest)
            = match App.split "," rest with
              | piece :: pieces => (x +:+ piece) :: pieces
              | [] => [x]
              end).
  { clear IH Hfree Hl. induction x as [|c x IHx]; intros rest.
    - rewrite app_empty. pose proof (split_nonempty "," rest).
      by destruct (App.split "," rest).
    - apply comma_free_String in Hx as [Hc Hx]. rewrite app_String.
      cbn [App.split]. destruct (Ascii.eqb_spec c ","); [done|].
      rewrite (IHx Hx). pose proof (split_nonempty "," rest).
      by destruct (App.split "," rest). }
  destruct l as [|y l].
  - cbn [String.concat]. rewrite <- (string_app_nil_r x) at 1.
    rewrite Hhead. cbn. by rewrite string_app_nil_r.
  - rewrite concat_cons by done. rewrite Hhead.
    change ("," +:+ String.concat "," (y :: l))
      with (String "," (String.concat "," (y :: l))).
    cbn [App.split Ascii.eqb Bool.eqb andb]. rewrite IH by done.
    by rewrite string_app_nil_r.
Qed.

Lemma drop_prefix_spec (p s s' : string) :
  App.drop_prefix p s = Some s' <-> s = p +:+ s'.
Proof.
  revert s. induction p as [|a p IH]; intros s.
  - cbn. rewrite app_empty. split; congruence.
  - destruct s as [|b s]; [by cbn|]. cbn [App.drop_prefix]. rewrite app_String.
    destruct (Ascii.eqb_spec a b) as [->|Hab].
    + rewrite IH. split; congruence.
    + split; [done | congruence].
Qed.

Lemma whitespace_nonempty (w : string) : w ∈ App.whitespace -> w <> EmptyString.
Proof.
  intros Hw ->. revert Hw. apply (bool_decide_unpack _). vm_compute. exact I.
Qed.

Lemma drop_space_some (s s' : string) :
  App.drop_space s = Some s' -> exists w, w ∈ App.whitespace /\ s = w +:+ s'.
Proof.
  unfold App.drop_space. induction App.whitespace as [|w ws IH]; [done|].
  cbn [fold_right]. destruct (App.drop_prefix w s) as [x|] eqn:E.
  - intros [= <-]. exists w. split; [left | by apply drop_prefix_spec].
  - intros (w' & Hw' & Hs)%IH. exists w'. split; [by right | done].
Qed.

Lemma drop_space_none (s : string) :
  App.drop_space s = None
  <-> forall w rest, w ∈ App.whitespace -> s <> w +:+ rest.
Proof.
  unfold App.drop_space. induction App.whitespace as [|w ws IH].
  - split; [|done]. intros _ w rest Hw. by apply elem_of_nil in Hw.
  - cbn [fold_right]. destruct (App.drop_prefix w s) as [x|] eqn:E.
    + split; [done|]. intros Hall. apply drop_prefix_spec in E.
      destruct (Hall w x); [left | done].
    + rewrite IH. split.
      * intros Hall w' rest [->|Hw']%elem_of_cons Hs; [|by eapply Hall].
        apply drop_prefix_spec in Hs. congruence.
      * intros Hall w' rest Hw'. apply Hall. by right.
Qed.

Lemma string_app_length (a b : string) :
  String.length (a +:+ b) = (String.length a + String.length b)%nat.
Proof. induction a as [|c a IH]; [done|]. rewrite app_String. cbn. by rewrite IH. Qed.

(** [lstrip] takes a prefix away and leaves no white space in front. *)
Lemma lstrip_fuel_prefix (fuel : nat) : forall s,
  exists pre, s = pre +:+ App.lstrip_fuel fuel s.
Proof.
  induction fuel as [|fuel IH]; intros s; [by exists EmptyString|].
  cbn [App.lstrip_fuel]. destruct (App.drop_space s) as [s'|] eqn:E;
    [|by exists EmptyString].
  apply drop_space_some in E as (w & _ & ->). destruct (IH s') as [pre Hpre].
  exists (w +:+ pre). rewrite string_app_assoc. by rewrite <- Hpre.
Qed.

Lemma lstrip_fuel_clean (fuel : nat) : forall s,
  (String.length s <= fuel)%nat ->
  App.drop_space (App.lstrip_fuel fuel s) = None.
Proof.
  induction fuel as [|fuel IH]; intros s Hlen.
  - destruct s; [|cbn in Hlen; lia]. cbn [App.lstrip_fuel].
    apply drop_space_none. intros w rest Hw Hs.
    apply whitespace_nonempty in Hw. by destruct w.
  - cbn [App.lstrip_fuel]. destruct (App.drop_space s) as [s'|] eqn:E; [|done].
    apply IH. apply drop_space_some in E as (w & Hw & ->).
    apply whitespace_nonempty in Hw. rewrite string_app_length in Hlen.
    destruct w; [done | cbn in Hlen; lia].
Qed.

Lemma lstrip_fixed (s : string) : App.drop_space s = None -> App.lstrip s = s.
Proof.
  intros Hs. unfold App.lstrip. destruct (String.length s); [done|].
  cbn [App.lstrip_fuel]. by rewrite Hs.
Qed.

(** [rstrip] takes a suffix away, leaves no white space at the end, and
    changes nothing when applied again. *)
Lemma rstrip_suffix (s : string) : exists post, s = App.rstrip s +:+ post.
Proof.
  induction s as [|c s [post IH]]; [by exists EmptyString|].
  cbn [App.rstrip]. destruct (bool_decide _).
  - by exists (String c s).
  - exists post. rewrite app_String. by rewrite <- IH.
Qed.

Lemma rstrip_clean (s : string) (w rest : string) :
  w ∈ App.whitespace -> App.rstrip s <> rest +:+ w.
Proof.
  intros Hw. revert rest. induction s as [|c s IH]; intros rest.
  - cbn. intros E. apply whitespace_nonempty in Hw.
    destruct rest; [by destruct w | done].
  - cbn [App.rstrip]. destruct (bool_decide_reflect (String c (App.rstrip s) ∈ App.whitespace))
      as [Hin|Hnot].
    + intros E. apply whitespace_nonempty in Hw.
      destruct rest; [by destruct w | done].
    + destruct rest as [|d rest].
      * cbn. intros E. by rewrite E in Hnot.
      * rewrite app_String. intros [= _ E]. by apply (IH rest).
Qed.

Lemma rstrip_idempotent (s : string) : App.rstrip (App.rstrip s) = App.rstrip s.
Proof.
  induction s as [|c s IH]; [done|]. cbn [App.rstrip].
  destruct (bool_decide (String c (App.rstrip s) ∈ App.whitespace)) eqn:E; [done|].
  cbn [App.rstrip]. by rewrite IH, E.
Qed.

Lemma rstrip_keeps_front (s : string) :
  App.drop_space s = None -> App.drop_space (App.rstrip s) = None.
Proof.
  rewrite !drop_space_none. intros Hs w rest Hw E.
  destruct (rstrip_suffix s) as [post Hpost].
  apply (Hs w (rest +:+ post) Hw). rewrite Hpost at 1.
  by rewrite E, string_app_assoc.
Qed.

Lemma strip_substring (s : string) :
  exists pre post, s = pre +:+ App.strip s +:+ post.
Proof.
  unfold App.strip.
  destruct (lstrip_fuel_prefix (String.length s) s) as [pre Hpre].
  destruct (rstrip_suffix (App.lstrip s)) as [post Hpost].
  exists pre, post. fold (App.lstrip s) in Hpre. by rewrite <- Hpost.
Qed.

Lemma strip_trimmed (s : string) : trimmed (App.strip s).
Proof.
  split.
  - apply drop_space_none. unfold App.strip. apply rstrip_keeps_front.
    by apply lstrip_fuel_clean.
  - intros w rest Hw. by apply rstrip_clean.
Qed.

Lemma strip_fixed (s : string) : trimmed s -> App.strip s = s.
Proof.
  intros [Hfront Hback]. unfold App.strip.
  rewrite lstrip_fixed by by apply drop_space_none.
  clear Hfront. induction s as [|c s IH]; [done|]. cbn [App.rstrip].
  assert (Hs : App.rstrip s = s).
  { apply IH. intros w rest Hw E. apply (Hback w (String c rest) Hw).
    by rewrite app_String, <- E. }
  rewrite Hs. rewrite bool_decide_eq_false_2; [done|].
  intros Hin. by apply (Hback (String c s) EmptyString Hin).
Qed.

Lemma strip_comma_free (s : string) : comma_free s -> comma_free (App.strip s).
Proof.
  unfold comma_free. intros Hs.
  destruct (Py.str_in "," (App.strip s)) eqn:E; [|done].
  apply str_in_spec in E as (a & b & E).
  destruct (strip_substring s) as (pre & post & Hsub).
  assert (Hin : Py.str_in "," s = true); [|congruence].
  apply str_in_spec. exists (pre +:+ a), (b +:+ post).
  rewrite Hsub at 1. rewrite E. by rewrite !string_app_assoc.
Qed.

Lemma parse_topics_some (text : string) :
  App.parse_topics (Some text) = map App.strip (App.split "," text).
Proof. reflexivity. Qed.

(** X18. The topics of a request are the comma-separated pieces of its
    text, each stripped. The pieces hold no comma, joined with commas they
    give the text back, and they are the only such list; there is one
    topic more than the text has commas, so the curriculum handed to the
    simulation is never empty, also for an empty text. A request without
    topics gets the four default topics. *)
Theorem topics_are_the_stripped_pieces (text : string) :
  let pieces := App.split "," text in
  App.parse_topics (Some text) = map App.strip pieces
  /\ String.concat "," pieces = text
  /\ Forall comma_free pieces
  /\ (forall l, l <> [] -> Forall comma_free l -> String.concat "," l = text ->
        l = pieces)
  /\ length (App.parse_topics (Some text)) = S (commas text)
  /\ App.parse_topics (Some text) <> []
  /\ App.parse_topics None
     = ["Reinforcement Learning"; "Neural Networks"; "Generative AI";
        "Computer Vision"].
Proof.
  cbv zeta. split_and!.
  - reflexivity.
  - apply split_concat.
  - apply split_comma_free.
  - intros l Hne Hfree <-. symmetry. by apply split_unique.
  - rewrite parse_topics_some. by rewrite length_map, split_length.
  - rewrite parse_topics_some. intros E%(f_equal length).
    by rewrite length_map, split_length in E.
  - vm_compute. reflexivity.
Qed.

(** X19. Every topic of a request is trimmed and comma-free: it has no
    white-space character (of those [str.strip] removes, in UTF-8) at
    either end, it holds no comma, and it is a part of its piece of the
    text. Stripping is idempotent and leaves a trimmed text alone, so a
    request whose pieces are trimmed is taken as it is. *)
Theorem parsed_topics_are_trimmed (text : string) :
  Forall (fun t => trimmed t /\ comma_free t /\ App.strip t = t)
    (App.parse_topics (Some text))
  /\ (forall s, App.strip (App.strip s) = App.strip s)
  /\ (forall s, exists pre post, s = pre +:+ App.strip s +:+ post)
  /\ (forall s, App.strip s = s <-> trimmed s)
  /\ (forall l, l <> [] -> Forall (fun t => trimmed t /\ comma_free t) l ->
        App.parse_topics (Some (String.concat "," l)) = l).
Proof.
  split_and!.
  - rewrite parse_topics_some. apply Forall_forall.
    intros t [piece [-> Hin]]%elem_of_map.
    pose proof (split_comma_free text) as Hfree. rewrite Forall_forall in Hfree.
    split_and!; [apply strip_trimmed | by apply strip_comma_free, Hfree |].
    apply strip_fixed, strip_trimmed.
  - intros s. apply strip_fixed, strip_trimmed.
  - apply strip_substring.
  - intros s. split; [intros <-; apply strip_trimmed | apply strip_fixed].
  - intros l Hne Hl. rewrite parse_topics_some.
    rewrite split_unique; [|done|].
    + clear Hne. induction Hl as [|t l [Ht _] _ IH]; [done|].
      cbn [map]. by rewrite IH, strip_fixed.
    + eapply Forall_impl; [exact Hl|]. by intros t [_ ?].
Qed.

End AppFacts.

(** ** The calls of the pipeline *)

Section PipelineFacts.

Context `{World W}.

Lemma outside_pipeline_counts (l : list Call) :
  Forall (fun c => in_pipeline c = false) l ->
  count is_generate l = 0%nat /\ count is_solve l = 0%nat
  /\ count is_evaluate l = 0%nat /\ count is_process l = 0%nat.
Proof.
  unfold count. induction 1 as [|c l Hc _ IH]; [done|].
  cbn [List.filter]. by destruct c.
Qed.

Lemma begin_round_outside_pipeline (i ei : Z) (h : list float) (s : State W) :
  exists added,
    new_calls s (begin_round i ei h s).2 added
    /\ Forall (fun c => in_pipeline c = false) added.
Proof.
  rewrite begin_round_unfold. cbv zeta. rewrite growth_check_unfold.
  assert (Hnone : forall st : State W,
            calls st = calls s ->
            exists added, new_calls s st added
                          /\ Forall (fun c => in_pipeline c = false) added).
  { intros st Hst. exists []. unfold new_calls. by rewrite Hst, app_nil_r. }
  destruct (0 <? i); [|by apply Hnone].
  destruct (ei / 2 =? 0); [by apply Hnone|].
  destruct (i mod (ei / 2) =? 0); [|by apply Hnone].
  rewrite synthesize_step_unfold. cbv zeta. cbn [snd calls].
  eexists [_]. split; [reflexivity|]. by repeat constructor.
Qed.

Lemma evolution_check_outside_pipeline (i ei : Z) (h : list float) (s : State W) :
  exists added,
    new_calls s (evolution_check i ei h s).2 added
    /\ Forall (fun c => in_pipeline c = false) added.
Proof.
  rewrite evolution_check_unfold. unfold new_calls.
  destruct (ei =? 0); [exists []; by rewrite app_nil_r|].
  destruct (_ && _); [|exists []; by rewrite app_nil_r].
  eexists [_; _]. split; [reflexivity|]. by repeat constructor.
Qed.

(** A round asks the teacher for a problem once, and each later stage at
    most once and only after the one before; the student reflects exactly
    when the round is recorded. *)
Lemma run_interaction_round_pipeline (t d : string) (n : Z) (s : State W) :
  let r := run_interaction_round t d n s in
  exists added new,
    new_calls s r.2 added
    /\ simulation_results (self r.2) = simulation_results (self s) ++ new
    /\ count is_generate added = 1%nat
    /\ (count is_solve added <= 1)%nat
    /\ (count is_evaluate added <= count is_solve added)%nat
    /\ (count is_process added <= count is_evaluate added)%nat
    /\ count is_process added = length new.
Proof.
  rewrite run_interaction_round_unfold. cbv zeta. unfold new_calls.
  set (gen := generate_learning_material t d (world s)).
  destruct (has_error_marker gen.1).
  { eexists [_], []. cbn [snd calls self]. rewrite app_nil_r.
    split_and!; try done; cbn; lia. }
  destruct (choose_action _ _ _) as [[a|e] w2].
  2:{ eexists [_], []. cbn [snd calls self]. rewrite app_nil_r.
      split_and!; try done; cbn; lia. }
  set (sol := solve_problem (student (self s)) gen.1 w2).
  destruct (has_error_marker sol.1).
  { eexists [_; _], []. cbn [snd calls self]. rewrite app_nil_r, <- !app_assoc.
    split_and!; try done; cbn; lia. }
  set (ev := evaluate_student_response gen.1 sol.1 sol.2).
  destruct (has_error_marker ev.1).
  { eexists [_; _; _], []. cbn [snd calls self]. rewrite app_nil_r, <- !app_assoc.
    split_and!; try done; cbn; lia. }
  eexists [_; _; _; _], [_].
  cbn [snd calls self env_after_round simulation_results].
  rewrite <- !app_assoc. split_and!; try done; cbn; lia.
Qed.

Lemma simulation_round_pipeline (n ei i : Z) (h : list float) (s : State W) :
  let r := simulation_round n ei i h s in
  exists added new,
    new_calls s r.2 added
    /\ simulation_results (self r.2) = simulation_results (self s) ++ new
    /\ (count is_generate added <= 1)%nat
    /\ (count is_solve added <= count is_generate added)%nat
    /\ (count is_evaluate added <= count is_solve added)%nat
    /\ (count is_process added <= count is_evaluate added)%nat
    /\ count is_process added = length new
    /\ match r.1 with
       | Py.Ok _ => count is_generate added = 1%nat
       | Py.Raise _ => True
       end.
Proof.
  cbv zeta. rewrite simulation_round_unfold.
  destruct (begin_round_outside_pipeline i ei h s) as (added0 & Hc0 & Hout0).
  destruct (outside_pipeline_counts _ Hout0) as (Hg0 & Hs0 & He0 & Hp0).
  destruct (begin_round_frame i ei h s) as (Hself & _).
  destruct (begin_round i ei h s) as [[t|e] s1]; cbn [fst snd] in *.
  2:{ exists added0, []. rewrite Hself, app_nil_r.
      split_and!; try done; lia. }
  destruct (run_interaction_round_pipeline t "medium" n s1)
    as (added1 & new & Hc1 & Hres & Hg1 & Hs1 & He1 & Hp1 & Hlen).
  rewrite Hself in Hres. cbn [set_round_number simulation_results] in Hres.
  assert (Hround : exists added,
            new_calls s (run_interaction_round t "medium" n s1).2 added
            /\ count is_generate added = 1%nat
            /\ (count is_solve added <= count is_generate added)%nat
            /\ (count is_evaluate added <= count is_solve added)%nat
            /\ (count is_process added <= count is_evaluate added)%nat
            /\ count is_process added = length new).
  { exists (added0 ++ added1). rewrite !count_app.
    split_and!; [by eapply new_calls_trans | lia..]. }
  clear Hc0 Hc1. destruct Hround as (added & Hc & Hg & Hs & He & Hp & Hl).
  assert (Hev : forall h0,
    let r := evolution_check i ei h0 (run_interaction_round t "medium" n s1).2 in
    exists added2,
      new_calls s r.2 added2
      /\ simulation_results (self r.2) = simulation_results (self s) ++ new
      /\ count is_generate added2 = 1%nat
      /\ (count is_solve added2 <= count is_generate added2)%nat
      /\ (count is_evaluate added2 <= count is_solve added2)%nat
      /\ (count is_process added2 <= count is_evaluate added2)%nat
      /\ count is_process added2 = length new).
  { intros h0. cbv zeta.
    destruct (evolution_check_outside_pipeline i ei h0
                (run_interaction_round t "medium" n s1).2) as (k & Hk & Hout).
    destruct (outside_pipeline_counts _ Hout) as (Hgk & Hsk & Hek & Hpk).
    destruct (evolution_check_frame i ei h0
                (run_interaction_round t "medium" n s1).2) as [-> _].
    exists (added ++ k). rewrite !count_app.
    split_and!; [by eapply new_calls_trans | done | lia..]. }
  destruct (run_interaction_round t "medium" n s1) as [[[rd|]|e] s2];
    cbn [fst snd] in *.
  - destruct (Hev (h ++ [reward rd])) as (added2 & ? & ? & ? & ? & ? & ? & ?).
    exists added2, new. split_and!; try done; [lia|].
    by destruct (evolution_check i ei (h ++ [reward rd]) s2).1.
  - destruct (Hev h) as (added2 & ? & ? & ? & ? & ? & ? & ?).
    exists added2, new. split_and!; try done; [lia|].
    by destruct (evolution_check i ei h s2).1.
  - exists added, new. split_and!; try done; lia.
Qed.

(** X21. The calls of a run follow the pipeline of the round. Among the
    calls a loop adds, the student's reflections ([process_feedback]) are
    exactly as many as the records the loop appends; they are at most as
    many as the teacher's evaluations, those at most as many as the
    student's attempts, those at most as many as the problems the teacher
    was asked for, and those at most as many as the iterations. A loop
    that completes has asked the teacher for exactly one problem per
    iteration. *)
Theorem calls_follow_the_pipeline (n ei : Z) (rounds : nat) (s : State W) :
  let r := simulation_loop n ei rounds s in
  exists added new,
    new_calls s r.2 added
    /\ simulation_results (self r.2) = simulation_results (self s) ++ new
    /\ count is_process added = length new
    /\ (count is_process added <= count is_evaluate added)%nat
    /\ (count is_evaluate added <= count is_solve added)%nat
    /\ (count is_solve added <= count is_generate added)%nat
    /\ (count is_generate added <= rounds)%nat
    /\ (forall h', r.1 = Py.Ok h' -> count is_generate added = rounds).
Proof.
  unfold simulation_loop. generalize 0. generalize (@nil float).
  revert s. induction rounds as [|k IH]; intros s h start; cbv zeta.
  { exists [], []. cbn. unfold new_calls. rewrite !app_nil_r. by split_and!. }
  rewrite for_range_S.
  destruct (simulation_round_pipeline n ei start h s)
    as (added1 & new1 & Hc1 & Hres1 & Hg1 & Hs1 & He1 & Hp1 & Hl1 & Hok1).
  destruct (simulation_round n ei start h s) as [[h1|e] s1]; cbn [fst snd] in *.
  2:{ exists added1, new1. split_and!; try done; lia. }
  destruct (IH s1 h1 (start + 1))
    as (added2 & new2 & Hc2 & Hres2 & Hl2 & Hp2 & He2 & Hs2 & Hg2 & Hok2).
  exists (added1 ++ added2), (new1 ++ new2). rewrite !count_app, length_app.
  split_and!; [by eapply new_calls_trans | by rewrite Hres2, Hres1, app_assoc
              | lia.. |].
  intros h' E. rewrite (Hok2 h' E). lia.
Qed.

End PipelineFacts.

(** ** The reward window as a view of the results *)

Section WindowContentFacts.

Context `{World W}.




















End WindowContentFacts.

(** * The theorems on the scenarios of the unit tests *)

Lemma update_q_value_rule_witness :
  is_maximum 2%float
    (map (_get_q_value second_update_q "state_s_prime") (actions second_update_q))
  /\ _get_q_value
       (update_q_value second_update_q "state_s" "action_a" 1 (Some "state_s_prime"))
       "state_s" "action_a" = 0.37%float.
Proof.
  destruct (update_q_value_rule second_update_q "state_s" "action_a" 1
              (Some "state_s_prime"))
    as (_ & _ & _ & _ & _ & _ & _ & Hmax & _ & Hsecond).
  split.
  - apply (Hmax "state_s_prime"); [reflexivity | reflexivity | discriminate |].
    intros a Ha. cbn [actions second_update_q] in Ha.
    repeat (apply elem_of_cons in Ha as [->|Ha]);
      [vm_compute; reflexivity .. | by apply elem_of_nil in Ha].
  - apply Hsecond; vm_compute; reflexivity.
Defined.

Lemma choose_action_greedy_witness :
  choose_action (H := scripted test_script) exploit_q "test_state" 0%nat
  = (Py.Ok "action2", 1%nat)
  /\ (exists max_q,
        tied_actions (_get_q_value tie_q "test_state") max_q (actions tie_q)
        = ["action1"; "action2"; "action3"]
        /\ forall w,
             choose_action (H := scripted test_script) tie_q "test_state" w
             = random_choice (H := scripted test_script)
                 ["action1"; "action2"; "action3"] w)
  /\ choose_action (H := scripted test_script) tie_q "test_state" 0%nat
     = (Py.Ok "action1", 1%nat)
  /\ choose_action (H := scripted test_script) tie_q "test_state" 1%nat
     = (Py.Ok "action2", 2%nat)
  /\ choose_action (H := scripted test_script) tie_q "test_state" 2%nat
     = (Py.Ok "action3", 3%nat).
Proof.
  assert (Hrandom : forall n w', (0 < n)%nat ->
            ((randbelow (World := scripted test_script) n w').1 < n)%nat).
  { intros n w' Hn. cbn. apply Nat.mod_upper_bound. lia. }
  assert (Hzero : forall b, b ∈ actions tie_q ->
            _get_q_value tie_q "test_state" b = 0%float).
  { intros b Hb. cbn [actions tie_q QLearningFramework_init] in Hb.
    repeat (apply elem_of_cons in Hb as [->|Hb]);
      [reflexivity .. | by apply elem_of_nil in Hb]. }
  assert (Htie : forall w, exists max_q,
            tied_actions (_get_q_value tie_q "test_state") max_q (actions tie_q)
            = ["action1"; "action2"; "action3"]
            /\ choose_action (H := scripted test_script) tie_q "test_state" w
               = random_choice (H := scripted test_script)
                   ["action1"; "action2"; "action3"] w).
  { intros w.
    destruct (choose_action_greedy (H := scripted test_script) tie_q
                "test_state" w)
      as (max_q & a & Hmax & _ & _ & _ & _ & _ & _ & _ & _ & _ & _ & Htied & _
          & _ & Hequal).
    - discriminate.
    - reflexivity.
    - intros b Hb. by rewrite (Hzero b Hb).
    - intros w'. reflexivity.
    - exact Hrandom.
    - destruct Hmax as [[b [-> Hb]]%elem_of_map _].
      rewrite (Hzero b Hb) in Htied, Hequal.
      destruct Hequal as [_ Hplain].
      { intros b' Hb'. by rewrite (Hzero b' Hb'). }
      destruct Hplain as [Hactions Hchoice].
      { apply (bool_decide_unpack _). vm_compute. exact I. }
      exists 0%float. split; [by rewrite <- Htied, Hactions|exact Hchoice]. }
  split_and!.
  - destruct (choose_action_greedy (H := scripted test_script) exploit_q
                "test_state" 0%nat)
      as (max_q & a & _ & _ & Hres & _ & _ & _ & _ & _ & _ & Hunique & _).
    + discriminate.
    + reflexivity.
    + intros a Ha. cbn [actions exploit_q] in Ha.
      repeat (apply elem_of_cons in Ha as [->|Ha]);
        [vm_compute; reflexivity .. | by apply elem_of_nil in Ha].
    + intros w'. reflexivity.
    + exact Hrandom.
    + rewrite Hres. rewrite (Hunique "action2").
      * reflexivity.
      * cbn [actions exploit_q]. apply list_elem_of_further, list_elem_of_here.
      * intros b Hb Hne. cbn [actions exploit_q] in Hb.
        repeat (apply elem_of_cons in Hb as [->|Hb]);
          [vm_compute; reflexivity | done | vm_compute; reflexivity
          | by apply elem_of_nil in Hb].
  - destruct (Htie 0%nat) as (max_q & Htied & _). exists max_q.
    split; [exact Htied|]. intros w. by destruct (Htie w) as (_ & _ & ->).
  - destruct (Htie 0%nat) as (_ & _ & ->). reflexivity.
  - destruct (Htie 1%nat) as (_ & _ & ->). reflexivity.
  - destruct (Htie 2%nat) as (_ & _ & ->). reflexivity.
Defined.

(** A table that holds a NaN for the first action: with epsilon 0.0, [max]
    returns the NaN, no value equals it, the tied set is empty and
    [random.choice] raises [IndexError]. One update with a NaN reward
    writes such an entry. *)
Lemma choose_action_nan_first_raises :
  let learnt := update_q_value tie_q "test_state" "action1" PrimFloat.nan None in
  actions nan_q <> [] /\ epsilon nan_q = 0%float
  /\ PrimFloat.is_nan (_get_q_value nan_q "test_state" "action1") = true
  /\ best_actions nan_q "test_state" PrimFloat.nan = []
  /\ choose_action (H := scripted test_script) nan_q "test_state" 0%nat
     = (Py.Raise Py.IndexError, 0%nat)
  /\ actions learnt <> [] /\ epsilon learnt = 0%float
  /\ PrimFloat.is_nan (_get_q_value learnt "test_state" "action1") = true
  /\ choose_action (H := scripted test_script) learnt "test_state" 0%nat
     = (Py.Raise Py.IndexError, 0%nat)
  /\ ~ (forall (q : QLearningFramework) (state : string) (w : nat),
          actions q <> [] -> epsilon q = 0%float ->
          exists a w',
            choose_action (H := scripted test_script) q state w = (Py.Ok a, w')).
Proof.
  cbv zeta.
  assert (Hraise : choose_action (H := scripted test_script) nan_q "test_state"
                     0%nat = (Py.Raise Py.IndexError, 0%nat))
    by (vm_compute; reflexivity).
  split_and!; try done; try (vm_compute; reflexivity).
  intros Hall.
  destruct (Hall nan_q "test_state" 0%nat) as (a & w' & Hok); [done | done |].
  rewrite Hraise in Hok. discriminate Hok.
Qed.

Lemma failed_round_is_skipped_witness :
  run_interaction_round (H := scripted problem_fails) "Test Topic" "medium" 0
    test_state
  = (Py.Ok None,
     mkState test_env ["topic1"; "topic2"] 0%nat
       [CallGenerateLearningMaterial "Test Topic" "medium"])
  /\ run_interaction_round (H := scripted student_fails) "Test Topic" "medium" 0
       test_state
     = (Py.Ok None,
        mkState test_env ["topic1"; "topic2"] 1%nat
          [CallGenerateLearningMaterial "Test Topic" "medium";
           CallSolveProblem "What is X?"])
  /\ run_interaction_round (H := scripted evaluation_fails) "Test Topic" "medium" 0
       test_state
     = (Py.Ok None,
        mkState test_env ["topic1"; "topic2"] 1%nat
          [CallGenerateLearningMaterial "Test Topic" "medium";
           CallSolveProblem "What is X?";
           CallEvaluateStudentResponse "What is X?" "X is Y."]).
Proof.
  split_and!.
  - destruct (failed_round_is_skipped (H := scripted problem_fails)
                "Test Topic" "medium" 0 test_state) as (Hproblem & _ & _).
    apply Hproblem. reflexivity.
  - destruct (failed_round_is_skipped (H := scripted student_fails)
                "Test Topic" "medium" 0 test_state) as (_ & Hlater & _).
    destruct (Hlater "action1" 1%nat) as [Hstudent _];
      [reflexivity | vm_compute; reflexivity |].
    apply Hstudent. reflexivity.
  - destruct (failed_round_is_skipped (H := scripted evaluation_fails)
                "Test Topic" "medium" 0 test_state) as (_ & Hlater & _).
    destruct (Hlater "action1" 1%nat) as [_ Hevaluation];
      [reflexivity | vm_compute; reflexivity |].
    apply Hevaluation; reflexivity.
Defined.

Lemma growth_check_cadence_witness :
  (growth_check (H := scripted test_script) 1 2 [] test_state).1 = Py.Ok tt
  /\ count is_synthesize
       (calls (simulation_round (H := scripted test_script) 4 2 1 [] test_state).2)
     = 1%nat.
Proof.
  destruct (growth_check_cadence (H := scripted test_script) 4 2 1 [] test_state)
    as (_ & Hok & _ & Hcount & _); [lia|].
  split; [exact Hok | rewrite Hcount; reflexivity].
Defined.

(** With an evolution interval of 1 the divisor [1 // 2] is 0: the check of
    round index 1 raises [ZeroDivisionError], and so does a run of two
    rounds. *)
Lemma growth_check_interval_one_raises :
  (growth_check (H := scripted test_script) 1 1 [] test_state).1
  = Py.Raise Py.ZeroDivisionError
  /\ (run_simulation (H := scripted test_script) 2 1 test_state).1
     = Py.Raise Py.ZeroDivisionError
  /\ ~ (forall (ei i : Z) (h : list float) (s : State nat),
          0 < ei ->
          (growth_check (H := scripted test_script) i ei h s).1 = Py.Ok tt).
Proof.
  split_and!; [reflexivity | vm_compute; reflexivity |].
  intros Hall. specialize (Hall 1 1 [] test_state ltac:(lia)). discriminate Hall.
Qed.

(** Two rounds with rewards 1.0 and 0.5 end an interval of 2: both agents
    evolve with 0.75; the same window at an index that ends no interval
    is kept; and the run of [test_run_simulation] evolves each agent twice. *)
Lemma evolve_at_interval_ends_witness :
  let final := (run_simulation (H := scripted test_script) 4 2 test_state).2 in
  evolution_check (H := scripted test_script) 1 2 [1; 0.5]%float test_state
  = (Py.Ok [],
     mkState test_env ["topic1"; "topic2"] 0%nat
       [CallTeacherEvolve 0.75; CallStudentEvolve 0.75])
  /\ evolution_check (H := scripted test_script) 2 2 [1; 0.5]%float test_state
     = (Py.Ok [1; 0.5]%float, test_state)
  /\ count is_teacher_evolve (calls final) = 2%nat
  /\ count is_student_evolve (calls final) = 2%nat.
Proof.
  cbv zeta.
  destruct (evolve_at_interval_ends (H := scripted test_script) 4 2 1
              [1; 0.5]%float test_state) as (Hfires & _); [lia|].
  destruct (evolve_at_interval_ends (H := scripted test_script) 4 2 2
              [1; 0.5]%float test_state) as (Hkeeps & _); [lia|].
  destruct (evolve_at_interval_ends (H := scripted test_script) 4 2 0 [] test_state)
    as (_ & _ & _ & _ & Hfour); [lia|].
  destruct (Hfour
              (simulation_results
                 (self (run_simulation (H := scripted test_script) 4 2 test_state).2))
              (run_simulation (H := scripted test_script) 4 2 test_state).2)
    as [Hteacher Hstudent].
  - vm_compute. reflexivity.
  - vm_compute. reflexivity.
  - split_and!.
    + rewrite Hfires. vm_compute. reflexivity.
    + rewrite Hkeeps. vm_compute. reflexivity.
    + rewrite Hteacher. reflexivity.
    + rewrite Hstudent. reflexivity.
Defined.


Lemma summary_statistics_spec_witness :
  let st := get_summary_statistics two_rounds_env in
  let st' := get_summary_statistics three_rounds_env in
  total_rounds st = 2
  /\ average_reward st = (-0.25)%float
  /\ total_rounds st' = 3
  /\ average_reward st' = (1 / 3)%float
  /\ is_minimum (min_reward st) [1; -1.5]%float
  /\ is_maximum (max_reward st) [1; -1.5]%float
  /\ min_reward st = (-1.5)%float /\ max_reward st = 1%float
  /\ unique_topics_covered st = {["topic1"; "topic2"]}.
Proof.
  cbv zeta.
  destruct (summary_statistics_spec two_rounds_env) as (_ & Hfull & _).
  destruct Hfull as (Htotal & Hmean & _ & _ & _ & Hextremes & Htopics);
    [discriminate|].
  destruct (summary_statistics_spec three_rounds_env) as (_ & Hfull' & _).
  destruct Hfull' as (Htotal' & Hmean' & _); [discriminate|].
  destruct Hextremes as [Hmin Hmax].
  { repeat constructor. }
  split_and!.
  - rewrite Htotal. reflexivity.
  - rewrite Hmean. vm_compute. reflexivity.
  - rewrite Htotal'. reflexivity.
  - rewrite Hmean'. vm_compute. reflexivity.
  - exact Hmin.
  - exact Hmax.
  - reflexivity.
  - reflexivity.
  - reflexivity.
Defined.

(** At the state ["test_state"] the untrained policy of the environment
    draws [action1] and the table of [test_choose_action_exploitation]
    gives [action2]: the two rounds make the same calls, and their records
    differ in the action only. *)
Lemma student_attempt_ignores_action_witness :
  let r := run_interaction_round (H := scripted test_script) "test_state"
             "medium" 4 test_state in
  let r' := run_interaction_round (H := scripted test_script) "test_state"
              "medium" 4 (with_policy test_state exploit_q) in
  choose_action (H := scripted test_script) (q_learner test_env) "test_state"
    0%nat = (Py.Ok "action1", 1%nat)
  /\ choose_action (H := scripted test_script) exploit_q "test_state" 0%nat
     = (Py.Ok "action2", 1%nat)
  /\ calls r'.2 = calls r.2
  /\ calls r.2 = [CallGenerateLearningMaterial "test_state" "medium";
                  CallSolveProblem "problem";
                  CallEvaluateStudentResponse "problem" "response";
                  CallProcessFeedback "problem" "response" "Correct."]
  /\ world r.2 = world r'.2
  /\ exists rd rd',
       r.1 = Py.Ok (Some rd) /\ r'.1 = Py.Ok (Some rd')
       /\ student_action rd = "action1" /\ student_action rd' = "action2"
       /\ student_response rd = "response" /\ student_response rd' = "response"
       /\ reward rd = 1%float /\ reward rd' = 1%float
       /\ same_but_action rd rd'.
Proof.
  cbv zeta.
  destruct (student_attempt_ignores_action (H := scripted test_script)
              "test_state" "medium" 4 test_state exploit_q "action1" "action2"
              1%nat)
    as ((rest & _ & Hcalls & _) & Hworld & Hrecords).
  - reflexivity.
  - vm_compute. reflexivity.
  - vm_compute. reflexivity.
  - split; [vm_compute; reflexivity|]. split; [vm_compute; reflexivity|].
    split; [exact Hcalls|]. split; [vm_compute; reflexivity|].
    split; [exact Hworld|].
    destruct (run_interaction_round (H := scripted test_script) "test_state"
                "medium" 4 test_state).1 as [[rd|]|e] eqn:E;
      [|vm_compute in E; discriminate E ..].
    destruct (run_interaction_round (H := scripted test_script) "test_state"
                "medium" 4 (with_policy test_state exploit_q)).1
      as [[rd'|]|e'] eqn:E'; [|vm_compute in E'; discriminate E' ..].
    destruct Hrecords as (Hresp & Hresp' & Hact & Hact' & Hsame).
    assert (Hreward : reward rd = 1%float).
    { vm_compute in E. injection E as <-. reflexivity. }
    exists rd, rd'.
    split; [reflexivity|]. split; [reflexivity|].
    split; [exact Hact|]. split; [exact Hact'|].
    split; [exact Hresp|]. split; [exact Hresp'|].
    split; [exact Hreward|].
    split; [|exact Hsame].
    destruct Hsame as (_ & _ & _ & _ & _ & _ & <-). exact Hreward.
Defined.

Lemma error_marker_is_the_substring_Error_witness :
  (run_interaction_round (H := scripted mentions_error) "Statistics" "medium" 0
     test_state).1 = Py.Ok None
  /\ (run_interaction_round (H := scripted lowercase_failure) "Statistics" "medium" 0
        test_state).1
     = Py.Ok (Some (completed_round test_env "Statistics" "medium" "What is X?"
                      "action1" "X is Y."
                      "error: could not evaluate the response")).
Proof.
  split.
  - destruct (error_marker_is_the_substring_Error (H := scripted mentions_error)
                "Statistics" "medium" 0 test_state) as (_ & Hround & _).
    rewrite (Hround "action1" 1%nat); [reflexivity | vm_compute; reflexivity].
  - destruct (error_marker_is_the_substring_Error (H := scripted lowercase_failure)
                "Statistics" "medium" 0 test_state) as (_ & Hround & _).
    rewrite (Hround "action1" 1%nat); [reflexivity | vm_compute; reflexivity].
Defined.

(** The counts that [test_run_simulation] and
    [test_full_learning_simulation] assert. *)
Example test_run_simulation_counts :
  let final := (run_simulation (H := scripted test_script) 4 2 test_state).2 in
  count is_synthesize (calls final) = 3%nat
  /\ length (simulation_results (self final)) = 4%nat
  /\ "new_topic_A" ∈ topics final.
Proof.
  cbv zeta. split_and!; [vm_compute; reflexivity | vm_compute; reflexivity |].
  apply (bool_decide_unpack _). vm_compute. exact I.
Qed.

Example test_get_reward_from_feedback :
  map _get_reward_from_feedback
    ["Your answer is correct."; "Your answer is incorrect.";
     "Good, but needs improvement.";
     "Excellent strengths! No improvements needed.";
     "Incorrect, needs lots of improvement."; "Neutral feedback."]
  = [1; -1; -0.5; 0; -1.5; 0]%float.
Proof. vm_compute. reflexivity. Qed.

Lemma choose_action_explores_witness :
  choose_action (H := scripted test_script) explore_q "test_state" 1%nat
  = (Py.Ok "action2", 2%nat).
Proof.
  destruct (choose_action_explores (H := scripted test_script) explore_q explore_q
              "test_state" 1%nat) as [Hexplore _];
    [reflexivity | reflexivity | reflexivity | reflexivity |].
  rewrite Hexplore. reflexivity.
Defined.

(** ** Further scenarios: the edges of the policy, of the loop, of the
       client and of the request *)

Example strip_ex1 : App.strip "  Neural Networks 	" = "Neural Networks".
Proof. vm_compute. reflexivity. Qed.

(** A no-break space (U+00A0) in front, an en quad (U+2000) behind. *)
Example strip_ex2 :
  App.strip (App.bytes [194; 160]%nat +:+ "Generative AI"
             +:+ App.bytes [226; 128; 128]%nat)
  = "Generative AI".
Proof. vm_compute. reflexivity. Qed.

Example split_ex : App.split "," "a,,b," = ["a"; ""; "b"; ""].
Proof. reflexivity. Qed.

Example parse_topics_ex :
  App.parse_topics (Some " Statistics , Algebra,") = ["Statistics"; "Algebra"; ""].
Proof. vm_compute. reflexivity. Qed.

Lemma choose_action_without_actions_witness :
  choose_action (H := scripted test_script) no_actions_q "test_state" 0%nat
  = (Py.Raise Py.ValueError, 0%nat).
Proof.
  destruct (choose_action_without_actions (H := scripted test_script)
              no_actions_q "test_state" 0%nat) as [Hraise _]; [reflexivity|].
  rewrite Hraise. reflexivity.
Defined.

Lemma choose_action_exploit_nan_witness :
  choose_action (H := scripted test_script) nan_q "test_state" 0%nat
  = (Py.Raise Py.IndexError, 0%nat)
  /\ exists a w',
       choose_action (H := scripted test_script) exploit_q "test_state" 0%nat
       = (Py.Ok a, w').
Proof.
  split.
  - destruct (choose_action_exploit_nan (H := scripted test_script) nan_q
                "test_state" 0%nat "action1" ["action2"]) as [_ Hnan].
    + reflexivity.
    + reflexivity.
    + intros n w' Hn. cbn. apply Nat.mod_upper_bound. lia.
    + apply Hnan. vm_compute. reflexivity.
  - destruct (choose_action_exploit_nan (H := scripted test_script) exploit_q
                "test_state" 0%nat "action1" ["action2"; "action3"])
      as [Hnumber _].
    + reflexivity.
    + reflexivity.
    + intros n w' Hn. cbn. apply Nat.mod_upper_bound. lia.
    + destruct Hnumber as (a & w' & _ & Hres & _); [vm_compute; reflexivity|].
      exists a, w'. exact Hres.
Defined.

Lemma run_summary_within_bounds_witness :
  let final := (run_simulation (H := scripted test_script) 4 2 test_state).2 in
  total_rounds (get_summary_statistics (self final)) = 4
  /\ unique_topics_covered (get_summary_statistics (self final))
     ⊆ list_to_set (topics final).
Proof.
  cbv zeta.
  destruct (run_summary_within_bounds (H := scripted test_script) 4 2 test_state
              (run_simulation (H := scripted test_script) 4 2 test_state).2
              (simulation_results
                 (self (run_simulation (H := scripted test_script) 4 2
                          test_state).2)))
    as (_ & _ & Htotal & Htopics & _).
  - reflexivity.
  - vm_compute. reflexivity.
  - split; [rewrite Htotal; vm_compute; reflexivity | exact Htopics].
Defined.


Lemma empty_curriculum_raises_witness :
  simulation_loop (H := scripted test_script) 4 2 4 empty_curriculum_state
  = (Py.Raise Py.IndexError,
     mkState (set_round_number test_env 1) [] 0%nat []).
Proof.
  destruct (empty_curriculum_raises (H := scripted test_script) 4 2 4
              empty_curriculum_state) as [Hloop _]; [reflexivity | lia |].
  exact Hloop.
Defined.

(** The first round of a run started from the app returns. *)
Lemma simulation_round_returns_witness :
  exists h1 s1,
    simulation_round (H := scripted test_script) 10 5 0 [] app_state
    = (Py.Ok h1, s1)
    /\ topics s1 <> [].
Proof.
  destruct (simulation_round_returns (H := scripted test_script) 10 5 0 []
              app_state "answer_concisely"
              ["answer_in_detail"; "ask_for_clarification"])
    as (h1 & s1 & Hround & _ & Htopics).
  - vm_compute. discriminate.
  - lia.
  - reflexivity.
  - intros t. unfold _get_q_value. cbn [app_state self q_learner].
    unfold App.q_learner, QLearningFramework_init. cbn [q_table].
    rewrite lookup_empty. reflexivity.
  - intros n w' Hn. cbn. apply Nat.mod_upper_bound. lia.
  - exists h1, s1. split; [exact Hround | exact Htopics].
Defined.

(** [test_generate_response_success] *)
Lemma streamed_response_is_concatenation_witness :
  Client.generate_response (H := server_streams) test_client
    "What is your name?" None 0%nat
  = (Some "I am an AI.", 1%nat).
Proof.
  destruct (streamed_response_is_concatenation (H0 := server_streams)
              test_client "What is your name?" None 0%nat 0%nat 1%nat test_chunks)
    as (Hresult & _); [reflexivity | reflexivity |].
  rewrite Hresult. vm_compute. reflexivity.
Defined.

(** A round whose student cannot reach the server. *)
Lemma client_failure_skips_round_witness :
  run_interaction_round
    (H := student_via_client (H := scripted test_script) (H0 := server_down)
            test_client)
    "Test Topic" "medium" 0 test_state
  = (Py.Ok None,
     mkState test_env ["topic1"; "topic2"] 2%nat
       [CallGenerateLearningMaterial "Test Topic" "medium";
        CallSolveProblem "problem"]).
Proof.
  destruct (client_failure_skips_round (H := scripted test_script)
              (H0 := server_down) test_client "Test Topic" "medium" 0 test_state
              "action1" 1%nat 2%nat None)
    as (_ & Hround & _).
  - reflexivity.
  - vm_compute. reflexivity.
  - reflexivity.
  - by left.
  - exact Hround.
Defined.

